(** * tavily-auto-free: a shallow embedding of the registration tool

    The Python sources under [src/] are embedded as Rocq functions:
    - [utils/utils.py]        credential generation over an explicit random source;
    - [config.py]             [Config.__init__], [check_config], [check_is_valid];
    - [core/email_verify.py]  the temp-mail poller (retry loop, extraction, cleanup);
    - [email_handler.py]      the IMAP poller;
    - [core/captcha_handler.py] the OCR post-filter of [_recognize_captcha];
    - [tavily_auto.py]        [start], [_get_api_key], [_save_account_info].

    Python [str] values are lists of characters.  A character is a code point
    in U+0000..U+00FF (the 8-bit [ascii] type read as Latin-1); the character
    classes below follow CPython's Unicode tables on that range. *)

From Stdlib Require Import ZArith Ascii String List Lia Bool.
From Stdlib Require Import PrimFloat.
From stdpp Require Import base list strings gmap.

Local Open Scope bool_scope.

(** ** Python strings *)

Abbreviation str := (list ascii).

Definition lit (s : string) : str := list_ascii_of_string s.

Module PyChar.

Definition code (c : ascii) : N := N_of_ascii c.

Definition between (lo hi : N) (c : ascii) : bool :=
  ((lo <=? code c) && (code c <=? hi))%N.

Definition is_ascii_lower : ascii -> bool := between 97 122.
Definition is_ascii_upper : ascii -> bool := between 65 90.
Definition is_ascii_digit : ascii -> bool := between 48 57.

(** the regex class [[a-zA-Z]] *)
Definition is_ascii_letter (c : ascii) : bool :=
  is_ascii_lower c || is_ascii_upper c.

(** [str.isalnum] for one character: ASCII letters and digits, and in
    the upper half the letters, superscript digits and vulgar fractions. *)
Definition isalnum (c : ascii) : bool :=
  is_ascii_letter c || is_ascii_digit c
  || (code c =? 170)%N || between 178 179 c || (code c =? 181)%N
  || between 185 186 c || between 188 190 c
  || between 192 214 c || between 216 246 c || between 248 255 c.

(** [str.isupper] for one character. *)
Definition isupper (c : ascii) : bool :=
  is_ascii_upper c || between 192 214 c || between 216 222 c.

(** [str.isspace] for one character; also what [str.strip()] removes. *)
Definition isspace (c : ascii) : bool :=
  between 9 13 c || between 28 32 c || (code c =? 133)%N || (code c =? 160)%N.

(** [str.lower] for one character. *)
Definition lower (c : ascii) : ascii :=
  if isupper c then ascii_of_N (code c + 32) else c.

(** regex [\d] on a [str] pattern: Unicode decimal digits. *)
Definition is_decimal : ascii -> bool := is_ascii_digit.

(** regex [\w] on a [str] pattern: alphanumeric or underscore. *)
Definition is_word (c : ascii) : bool := isalnum c || (code c =? 95)%N.

End PyChar.

Module PyStr.

Fixpoint lstrip_by (p : ascii -> bool) (s : str) : str :=
  match s with
  | c :: s' => if p c then lstrip_by p s' else s
  | [] => []
  end.

Definition rstrip_by (p : ascii -> bool) (s : str) : str :=
  reverse (lstrip_by p (reverse s)).

Definition strip_by (p : ascii -> bool) (s : str) : str :=
  rstrip_by p (lstrip_by p s).

(** [s.strip()] *)
Definition strip : str -> str := strip_by PyChar.isspace.

Definition char_in (chars : str) (c : ascii) : bool :=
  existsb (Ascii.eqb c) chars.

(** [s.strip(chars)] *)
Definition strip_chars (chars : str) : str -> str := strip_by (char_in chars).

(** [s.lower()] *)
Definition lower (s : str) : str := map PyChar.lower s.

Fixpoint eqb (a b : str) : bool :=
  match a, b with
  | [], [] => true
  | x :: a', y :: b' => Ascii.eqb x y && eqb a' b'
  | _, _ => false
  end.

(** [s.startswith(p)] (and JavaScript's [s.startsWith(p)]) *)
Fixpoint startswith (p s : str) : bool :=
  match p, s with
  | [], _ => true
  | x :: p', y :: s' => Ascii.eqb x y && startswith p' s'
  | _ :: _, [] => false
  end.

(** truth value of a string: non-empty *)
Definition truthy (s : str) : bool :=
  match s with [] => false | _ :: _ => true end.

End PyStr.

(** ** Verification-code extraction: [re.search] with the two patterns

    [core/email_verify.py] uses [(?<![a-zA-Z@.])\b\d{6}\b],
    [email_handler.py] uses [\b\d{6}\b].  Both are a fixed-width body
    between two zero-width assertions, so the leftmost match is found by
    trying every start position from the left. *)

Module CodeRegex.
Import PyChar.

(** The negative look-behind [(?<![a-zA-Z@.])]: it holds at the start of
    the text and after any character outside the class. *)
Definition lookbehind_ok (prev : option ascii) : bool :=
  match prev with
  | None => true
  | Some c => negb (is_ascii_letter c || (code c =? 64)%N || (code c =? 46)%N)
  end.

Definition no_lookbehind (prev : option ascii) : bool := true.

Definition word_at (c : option ascii) : bool :=
  match c with Some c => is_word c | None => false end.

(** [\b]: exactly one of the two neighbours is a word character; outside
    the text counts as a non-word character. *)
Definition at_boundary (prev next : option ascii) : bool :=
  xorb (word_at prev) (word_at next).

(** [\d{n}] at the head of [s]: the digits consumed and the rest. *)
Fixpoint take_digits (n : nat) (s : str) : option (str * str) :=
  match n with
  | O => Some ([], s)
  | S n' =>
      match s with
      | c :: s' =>
          if is_decimal c then
            match take_digits n' s' with
            | Some (d, r) => Some (c :: d, r)
            | None => None
            end
          else None
      | [] => None
      end
  end.

(** One attempt of the pattern at a position whose left neighbour is
    [prev] and whose remaining text is [s]. *)
Definition match_here (lb : option ascii -> bool)
    (prev : option ascii) (s : str) : option str :=
  if lb prev && at_boundary prev (head s) then
    match take_digits 6 s with
    | Some (d, rest) =>
        if at_boundary (last d) (head rest) then Some d else None
    | None => None
    end
  else None.

(** [re.search]: the first position, from the left, where the pattern
    matches; [m.group()] is the matched text. *)
Fixpoint search_from (lb : option ascii -> bool)
    (prev : option ascii) (s : str) : option str :=
  match match_here lb prev s with
  | Some d => Some d
  | None =>
      match s with
      | [] => None
      | c :: s' => search_from lb (Some c) s'
      end
  end.

(** [re.search(r"(?<![a-zA-Z@.])\b\d{6}\b", text)] *)
Definition search_temp_mail (text : str) : option str :=
  search_from lookbehind_ok None text.

(** [re.search(r'\b\d{6}\b', body)] *)
Definition search_imap (text : str) : option str :=
  search_from no_lookbehind None text.

(** *** What a match is, in words

    [isolated excl left d right]: [d] is six decimal digits, its left
    neighbour (if any) is neither a word character (letter, digit,
    underscore) nor one of the characters rejected by [excl], and its
    right neighbour (if any) is not a word character. *)
Definition is_at_or_dot (c : ascii) : bool :=
  (code c =? 64)%N || (code c =? 46)%N.

Definition none_excluded (c : ascii) : bool := false.

Definition free_side (excl : ascii -> bool) (nb : option ascii) : Prop :=
  match nb with
  | None => True
  | Some c => is_word c = false /\ excl c = false
  end.

Definition isolated (excl : ascii -> bool)
    (left : option ascii) (d : str) (right : option ascii) : Prop :=
  length d = 6 /\ Forall (fun c => is_decimal c = true) d
  /\ free_side excl left /\ free_side none_excluded right.

(** An occurrence of [d] in [text], split as [pre ++ d ++ post]. *)
Definition occurs_isolated (excl : ascii -> bool)
    (text pre d post : str) : Prop :=
  text = pre ++ d ++ post /\ isolated excl (last pre) d (head post).

(** The specification of a leftmost search: either a match together with
    the fact that no isolated run starts further left, or no isolated
    run anywhere. *)
Definition leftmost_isolated (excl : ascii -> bool)
    (text : str) (res : option str) : Prop :=
  match res with
  | Some d =>
      exists pre post,
        occurs_isolated excl text pre d post
        /\ forall pre' d' post',
             occurs_isolated excl text pre' d' post' ->
             length pre <= length pre'
  | None =>
      forall pre d post, ~ occurs_isolated excl text pre d post
  end.

(** The look-behind and the exclusion set say the same thing about a
    left neighbour that is not a word character. *)
Definition agree (lb : option ascii -> bool) (excl : ascii -> bool) : Prop :=
  forall prev, word_at prev = false ->
    (lb prev = true <-> free_side excl prev).

(** The left neighbour of a position [pre] characters into the
    remaining text, when the text itself follows [prev]. *)
Definition neighbour (prev : option ascii) (pre : str) : option ascii :=
  match last pre with Some c => Some c | None => prev end.

End CodeRegex.


(** ** Exceptions, results and log levels *)

Inductive exn : Type :=
| ValueError | IndexError | KeyError | TypeError | AttributeError | OSError
| Exception (what : string).

Abbreviation result A := (exn + A)%type.

Inductive level : Type := INFO | WARNING | ERROR.

(** ** [core/captcha_handler.py]: [CaptchaHandler._recognize_captcha] *)

Module Captcha.

(** What the collaborators do during one call: taking the screenshot,
    reading the file back and classifying it may each raise. *)
Record ocr_env : Type := {
  get_screenshot : result unit;
  read_image : result unit;
  classification : result str
}.

Inductive log_line : Type :=
| ImageSaved
| RawResult (raw : str)
| FilteredResult (filtered : str)
| LengthIsNotSix (n : nat)
| NoUppercaseLetter
| FinalResult (filtered : str)
| RecognitionFailed (e : exn).

Definition log_level (l : log_line) : level :=
  match l with
  | LengthIsNotSix _ | NoUppercaseLetter => WARNING
  | RecognitionFailed _ => ERROR
  | _ => INFO
  end.

(** [''.join(c for c in result if c.isalnum())] *)
Definition keep_alnum (raw : str) : str := List.filter PyChar.isalnum raw.

Definition warnings (filtered : str) : list log_line :=
  (if Nat.eqb (length filtered) 6 then [] else [LengthIsNotSix (length filtered)])
  ++ (if existsb PyChar.isupper filtered then [] else [NoUppercaseLetter]).

(** Returns the value ([None] or the filtered text) and the log lines. *)
Definition _recognize_captcha {Elt : Type}
    (captcha_img : option Elt) (env : ocr_env) : option str * list log_line :=
  match captcha_img with
  | None => (None, [])
  | Some _ =>
      match get_screenshot env with
      | inl e => (None, [RecognitionFailed e])
      | inr _ =>
          match read_image env with
          | inl e => (None, [ImageSaved; RecognitionFailed e])
          | inr _ =>
              match classification env with
              | inl e => (None, [ImageSaved; RecognitionFailed e])
              | inr raw =>
                  let filtered_result := keep_alnum raw in
                  (Some filtered_result,
                   [ImageSaved; RawResult raw; FilteredResult filtered_result]
                   ++ warnings filtered_result
                   ++ [FinalResult filtered_result])
              end
          end
      end
  end.

End Captcha.

(** ** [utils/utils.py]: random strings, e-mail addresses and passwords

    The module-level [random] generator is an explicit state: an infinite
    supply of raw draws.  [randbelow n] reduces the next draw modulo [n],
    so every index below [n] can come out. *)

Module Random.

Definition rng : Type := nat -> nat.

Definition M (A : Type) : Type := rng -> result A * rng.

Definition ret {A} (a : A) : M A := fun g => (inr a, g).

Definition raise {A} (e : exn) : M A := fun g => (inl e, g).

Definition bind {A B} (m : M A) (k : A -> M B) : M B :=
  fun g =>
    match m g with
    | (inr a, g') => k a g'
    | (inl e, g') => (inl e, g')
    end.

Definition lift {A} (r : result A) : M A := fun g => (r, g).

Declare Scope rand_scope.
Delimit Scope rand_scope with rand.
Notation "'let*' x ':=' m 'in' k" := (bind m (fun x => k))
  (at level 10, x name, m at level 100, k at level 200) : rand_scope.
Local Open Scope rand_scope.

Definition randbelow (n : nat) : M nat :=
  fun g => (inr (g 0 mod n), fun k => g (S k)).

(** [random.choice(seq)]: [IndexError] on an empty sequence. *)
Definition choice {A} (seq : list A) : M A :=
  match seq with
  | [] => raise IndexError
  | _ :: _ =>
      let* i := randbelow (length seq) in
      match seq !! i with
      | Some x => ret x
      | None => raise IndexError
      end
  end.

(** [random.choice(seq) for _ in range(n)], drawn left to right. *)
Fixpoint choices {A} (n : nat) (seq : list A) : M (list A) :=
  match n with
  | O => ret []
  | S n' =>
      let* c := choice seq in
      let* cs := choices n' seq in
      ret (c :: cs)
  end.

(** [x[i], x[j] = x[j], x[i]]: the right-hand side is read first, then
    [x[i]] and [x[j]] are assigned in that order. *)
Definition swap_items {A} (i j : nat) (x : list A) : result (list A) :=
  match x !! j, x !! i with
  | Some xj, Some xi => inr (<[j:=xi]> (<[i:=xj]> x))
  | _, _ => inl IndexError
  end.

(** The body of [random.shuffle] for [i], [i-1], ..., [1]. *)
Fixpoint shuffle_from {A} (i : nat) (x : list A) : M (list A) :=
  match i with
  | O => ret x
  | S i' =>
      let* j := randbelow (i + 1) in
      let* x' := lift (swap_items i j x) in
      shuffle_from i' x'
  end.

(** [random.shuffle(x)]: [for i in reversed(range(1, len(x)))]. *)
Definition shuffle {A} (x : list A) : M (list A) :=
  shuffle_from (length x - 1) x.

(** The source after one draw, and after [n] draws. *)
Definition advance (g : rng) : rng := fun k => g (S k).

Fixpoint advance_by (n : nat) (g : rng) : rng :=
  match n with
  | O => g
  | S n' => advance_by n' (advance g)
  end.

End Random.

Module PyString.
(** The constants of Python's [string] module that the code uses. *)
Definition ascii_lowercase : str := lit "abcdefghijklmnopqrstuvwxyz".
Definition ascii_uppercase : str := lit "ABCDEFGHIJKLMNOPQRSTUVWXYZ".
Definition ascii_letters : str := ascii_lowercase ++ ascii_uppercase.
Definition digits : str := lit "0123456789".
End PyString.

(** ** [config.py]: the [Config] class

    [os.environ], after [load_dotenv()], is a finite map from names to
    strings.  The builtin [int(s)] is a parameter of the development: it
    either returns an integer or raises [ValueError]. *)

Abbreviation environ := (gmap string str).

Module PyBuiltin.

(** A plain-decimal instance of [int(s)]: a non-empty run of ASCII
    digits.  It is only used to run the model on examples. *)
Fixpoint digits_value (acc : Z) (s : str) : option Z :=
  match s with
  | [] => Some acc
  | c :: s' =>
      if PyChar.is_ascii_digit c
      then digits_value (10 * acc + (Z.of_N (PyChar.code c) - 48)) s'
      else None
  end.

Definition int_decimal (s : str) : option Z :=
  match s with [] => None | _ :: _ => digits_value 0 s end.

End PyBuiltin.

Module Import Configuration.
Section WithInt.

(** [int(s)]: [None] stands for [ValueError]. *)
Variable py_int : str -> option Z.

Definition getenv (env : environ) (key : string) : option str := env !! key.

Definition getenv_or (env : environ) (key : string) (dflt : string) : str :=
  default (lit dflt) (env !! key).

Record Config : Type := {
  BROWSER_TYPE : str;
  HEADLESS : bool;
  BROWSER_USER_AGENT : str;
  BROWSER_WIDTH : Z;
  BROWSER_HEIGHT : Z;
  REGISTER_URL : str;
  TEMP_MAIL : option str;
  TEMP_MAIL_EXT : str;
  TEMP_MAIL_EPIN : option str;
  TEMP_MAIL_API_URL : str;
  DOMAIN : str;
  IMAP_SERVER : option str;
  IMAP_PORT : Z;
  IMAP_USER : option str;
  IMAP_PASS : option str;
  IMAP_DIR : str
}.

(** The Python values held by the attributes that [check_config] reads. *)
Inductive pyval : Type :=
| PyNone
| PyStr (s : str)
| PyInt (z : Z).

Definition of_getenv (o : option str) : pyval :=
  match o with Some s => PyStr s | None => PyNone end.

(** [isinstance(value, str) and len(str(value).strip()) > 0] *)
Definition check_is_valid (value : pyval) : bool :=
  match value with
  | PyStr s => Nat.ltb 0 (length (PyStr.strip s))
  | _ => false
  end.

Inductive attr : Type :=
| A_BROWSER_TYPE | A_TEMP_MAIL
| A_IMAP_SERVER | A_IMAP_PORT | A_IMAP_USER | A_IMAP_PASS.

(** [getattr(self, key)] for the keys of the two dictionaries. *)
Definition getattr (self : Config) (key : attr) : pyval :=
  match key with
  | A_BROWSER_TYPE => PyStr (BROWSER_TYPE self)
  | A_TEMP_MAIL => of_getenv (TEMP_MAIL self)
  | A_IMAP_SERVER => of_getenv (IMAP_SERVER self)
  | A_IMAP_PORT => PyInt (IMAP_PORT self)
  | A_IMAP_USER => of_getenv (IMAP_USER self)
  | A_IMAP_PASS => of_getenv (IMAP_PASS self)
  end.

(** [for key, name in d.items(): if not check_is_valid(...): raise ValueError] *)
Fixpoint check_all (self : Config) (keys : list attr) : result unit :=
  match keys with
  | [] => inr tt
  | key :: keys' =>
      if check_is_valid (getattr self key) then check_all self keys'
      else inl ValueError
  end.

Definition required_configs : list attr := [A_BROWSER_TYPE].

Definition imap_configs : list attr :=
  [A_IMAP_SERVER; A_IMAP_PORT; A_IMAP_USER; A_IMAP_PASS].

(** [self.TEMP_MAIL != "null"] *)
Definition is_not_null (v : option str) : bool :=
  match v with
  | Some s => negb (PyStr.eqb s (lit "null"))
  | None => true
  end.

Definition check_config (self : Config) : result unit :=
  match check_all self required_configs with
  | inl e => inl e
  | inr _ =>
      if is_not_null (TEMP_MAIL self) then
        if check_is_valid (of_getenv (TEMP_MAIL self)) then inr tt
        else inl ValueError
      else check_all self imap_configs
  end.

Definition int_env (env : environ) (key : string) (dflt : string) : result Z :=
  match py_int (getenv_or env key dflt) with
  | Some z => inr z
  | None => inl ValueError
  end.

(** [Config.__init__]: the attributes are read in source order, so the
    first failing [int(...)] is the exception raised. *)
Definition Config_init (env : environ) : result Config :=
  let browser_type := getenv_or env "BROWSER_TYPE" "chrome" in
  let headless :=
    PyStr.eqb (PyStr.lower (getenv_or env "HEADLESS" "true")) (lit "true") in
  let user_agent :=
    getenv_or env "BROWSER_USER_AGENT"
      "Mozilla/5.0 (Macintosh; Intel Mac OS X 10_15_7) AppleWebKit/537.36 (KHTML, like Gecko) Chrome/122.0.0.0 Safari/537.36" in
  match int_env env "BROWSER_WIDTH" "1920" with
  | inl e => inl e
  | inr width =>
  match int_env env "BROWSER_HEIGHT" "1080" with
  | inl e => inl e
  | inr height =>
  match int_env env "IMAP_PORT" "993" with
  | inl e => inl e
  | inr port =>
      let self := {|
        BROWSER_TYPE := browser_type;
        HEADLESS := headless;
        BROWSER_USER_AGENT := user_agent;
        BROWSER_WIDTH := width;
        BROWSER_HEIGHT := height;
        REGISTER_URL := getenv_or env "REGISTER_URL" "https://app.tavily.com/sign-up";
        TEMP_MAIL := getenv env "TEMP_MAIL";
        TEMP_MAIL_EXT := getenv_or env "TEMP_MAIL_EXT" "@mailto.plus";
        TEMP_MAIL_EPIN := getenv env "TEMP_MAIL_EPIN";
        TEMP_MAIL_API_URL := getenv_or env "TEMP_MAIL_API_URL" "https://tempmail.plus/api";
        DOMAIN := getenv_or env "DOMAIN" "@lzban8.me";
        IMAP_SERVER := getenv env "IMAP_SERVER";
        IMAP_PORT := port;
        IMAP_USER := getenv env "IMAP_USER";
        IMAP_PASS := getenv env "IMAP_PASS";
        IMAP_DIR := getenv_or env "IMAP_DIR" "INBOX"
      |} in
      match check_config self with
      | inl e => inl e
      | inr _ => inr self
      end
  end end end.

End WithInt.
End Configuration.

(** ** [utils/utils.py]: the generators *)

Module Credentials.
Section WithInt.
Import Random.
Local Open Scope rand_scope.

Variable py_int : str -> option Z.

(** [generate_random_string(length)] *)
Definition generate_random_string (length : nat) : M str :=
  let characters := PyString.ascii_letters ++ PyString.digits in
  choices length characters.

(** [generate_email()]: [Config()] is built first and may raise. *)
Definition generate_email (env : environ) : M str :=
  let* config := lift (Config_init py_int env) in
  let* username := generate_random_string 8 in
  let domain := PyStr.strip_chars (lit "@") (DOMAIN config) in
  ret (username ++ lit "@" ++ domain).

Definition special : str := lit "@#$%".

(** [generate_password()] *)
Definition generate_password : M str :=
  let length_ := 12 in
  let lowercase := PyString.ascii_lowercase in
  let uppercase := PyString.ascii_uppercase in
  let digits := PyString.digits in
  let* c1 := choice lowercase in
  let* c2 := choice uppercase in
  let* c3 := choice digits in
  let* c4 := choice special in
  let password := [c1; c2; c3; c4] in
  let remaining_length := length_ - length password in
  let all_chars := lowercase ++ uppercase ++ digits ++ special in
  let* more := choices remaining_length all_chars in
  let password := password ++ more in
  let* password := shuffle password in
  ret password.

End WithInt.
End Credentials.

(** ** JSON values

    What [response.json()] returns, in Python and in the page's JavaScript.
    A number is the double it denotes. *)

#[warnings="-register-all"]
Inductive json : Type :=
| JNull
| JBool (b : bool)
| JNum (x : float)
| JStr (s : str)
| JArr (items : list json)
| JObj (members : list (str * json)).

Module Json.

(** Member lookup; when a key is repeated the last member wins. *)
Fixpoint member (key : str) (members : list (str * json)) : option json :=
  match members with
  | [] => None
  | (k, v) :: rest =>
      match member key rest with
      | Some v' => Some v'
      | None => if PyStr.eqb k key then Some v else None
      end
  end.

(** Python truth value of a decoded JSON value. *)
Definition py_truthy (v : json) : bool :=
  match v with
  | JNull => false
  | JBool b => b
  | JNum x => negb (x =? 0)%float
  | JStr s => PyStr.truthy s
  | JArr items => match items with [] => false | _ :: _ => true end
  | JObj members => match members with [] => false | _ :: _ => true end
  end.

(** Python [v[0]].  A decoded object has string keys only, so the
    integer key is missing. *)
Definition py_first (v : json) : result json :=
  match v with
  | JArr (x :: _) => inr x
  | JArr [] => inl IndexError
  | JStr (c :: _) => inr (JStr [c])
  | JStr [] => inl IndexError
  | JObj _ => inl KeyError
  | JNull | JBool _ | JNum _ => inl TypeError
  end.

(** Python [v.get(key, dflt)]: only dictionaries have the method. *)
Definition py_get (v : json) (key : str) (dflt : json) : result json :=
  match v with
  | JObj members => inr (default dflt (member key members))
  | _ => inl AttributeError
  end.

End Json.

(** ** Events of the mail pollers

    One observable event per request sent to the mailbox, per
    [time.sleep] and per log record. *)

Inductive mail_event (Id : Type) : Type :=
| SelectRequest
| ListRequest
| ContentRequest (id : Id)
| DeleteRequest (id : Id)
| Sleep (seconds : Z)
| Log (l : level) (what : string).

Arguments SelectRequest {Id}.
Arguments ListRequest {Id}.
Arguments ContentRequest {Id} id.
Arguments DeleteRequest {Id} id.
Arguments Sleep {Id} seconds.
Arguments Log {Id} l what.

Definition is_delete {Id} (e : mail_event Id) : bool :=
  match e with DeleteRequest _ => true | _ => false end.

Definition count_events {E} (p : E -> bool) (tr : list E) : nat :=
  length (List.filter p tr).

(** ** [core/email_verify.py]: [EmailVerificationHandler] *)

Module TempMail.

(** A reply of the HTTP API: [requests] raises, or there is a response
    with a status code whose [.json()] is a value or raises. *)
Inductive reply : Type :=
| NoReply (e : exn)
| Response (status_code : Z) (json_body : result json).

(** The world of the poller: the replies still to come, in the order of
    the requests, and the events so far (oldest first). *)
Record world : Type := {
  replies : nat -> reply;
  trace : list (mail_event json)
}.

Definition M (A : Type) : Type := world -> result A * world.

Definition ret {A} (a : A) : M A := fun w => (inr a, w).

Definition bind {A B} (m : M A) (k : A -> M B) : M B :=
  fun w =>
    match m w with
    | (inr a, w') => k a w'
    | (inl e, w') => (inl e, w')
    end.

Definition lift {A} (r : result A) : M A := fun w => (r, w).

(** [try: m  except Exception as e: h e] *)
Definition try_except {A} (m : M A) (h : exn -> M A) : M A :=
  fun w =>
    match m w with
    | (inr a, w') => (inr a, w')
    | (inl e, w') => h e w'
    end.

Declare Scope mail_scope.
Delimit Scope mail_scope with mail.
Notation "'let*' x ':=' m 'in' k" := (bind m (fun x => k))
  (at level 10, x name, m at level 100, k at level 200) : mail_scope.
Notation "m ';;' k" := (bind m (fun _ => k))
  (at level 100, k at level 200, right associativity) : mail_scope.
Local Open Scope mail_scope.

Definition emit (e : mail_event json) : M unit :=
  fun w => (inr tt, {| replies := replies w; trace := trace w ++ [e] |}).

Definition logging (l : level) (what : string) : M unit := emit (Log l what).

Definition sleep (seconds : Z) : M unit := emit (Sleep seconds).

(** Send one request: record it and take the next reply. *)
Definition request (e : mail_event json) : M reply :=
  fun w =>
    (inr (replies w 0),
     {| replies := fun k => replies w (S k); trace := trace w ++ [e] |}).

(** [requests.get(url)] / [requests.delete(url)]: the response object. *)
Definition requests_send (e : mail_event json) : M (Z * result json) :=
  let* r := request e in
  match r with
  | NoReply ex => lift (inl ex)
  | Response status_code body => ret (status_code, body)
  end.

(** One iteration of the loop of [_cleanup_mail]: [Some b] when the
    iteration returns [b], [None] when the loop goes on. *)
Definition cleanup_attempt (mail_id : json) : M (option bool) :=
  try_except
    (let* response := requests_send (DeleteRequest mail_id) in
     if (fst response =? 200)%Z then
       logging INFO "mail deleted" ;; ret (Some true)
     else
       logging WARNING "delete failed" ;; sleep 1 ;; ret None)
    (fun _ => logging ERROR "delete raised" ;; ret None).

(** [for attempt in range(max_retries)] with [remaining] iterations
    left; [return False] after the loop. *)
Fixpoint _cleanup_mail_loop (remaining : nat) (mail_id : json) : M bool :=
  match remaining with
  | O => ret false
  | S remaining' =>
      let* returned := cleanup_attempt mail_id in
      match returned with
      | Some b => ret b
      | None => _cleanup_mail_loop remaining' mail_id
      end
  end.

Definition _cleanup_mail (mail_id : json) (max_retries : nat) : M bool :=
  _cleanup_mail_loop max_retries mail_id.

(** [re.search(pattern, mail_text)]: [TypeError] unless the text is a string. *)
Definition re_search (mail_text : json) : result (option str) :=
  match mail_text with
  | JStr s => inr (CodeRegex.search_temp_mail s)
  | _ => inl TypeError
  end.

Definition _get_latest_mail_code : M (option str) :=
  try_except
    (let* response := requests_send ListRequest in
     if negb (fst response =? 200)%Z then
       logging ERROR "listing failed" ;; ret None
     else
       let* mail_list := lift (snd response) in
       if negb (Json.py_truthy mail_list) then
         logging INFO "mailbox empty" ;; ret None
       else
         let* latest_mail_id := lift (Json.py_first mail_list) in
         let* response := requests_send (ContentRequest latest_mail_id) in
         if negb (fst response =? 200)%Z then
           logging ERROR "content failed" ;; ret None
         else
           let* mail_content := lift (snd response) in
           if negb (Json.py_truthy mail_content) then
             logging ERROR "content empty" ;; ret None
           else
             let* mail_text :=
               lift (Json.py_get mail_content (lit "text") (JStr [])) in
             let* code_match := lift (re_search mail_text) in
             match code_match with
             | Some code =>
                 logging INFO "code extracted" ;;
                 let* _ := _cleanup_mail latest_mail_id 3 in
                 ret (Some code)
             | None =>
                 logging INFO "no code found" ;; ret None
             end)
    (fun _ => logging ERROR "poll raised" ;; ret None).

(** *** The poll seen from outside

    What one poll extracts, as a function of the replies to its two [GET]
    requests: the id of the latest mail and the code found in its text. *)
Definition ok_body (r : reply) : option json :=
  match r with
  | Response status_code json_body =>
      if (status_code =? 200)%Z then
        match json_body with
        | inr body => Some body
        | inl _ => None
        end
      else None
  | NoReply _ => None
  end.

Definition extraction (listing content : reply) : option (json * str) :=
  match ok_body listing with
  | Some mail_list =>
      if Json.py_truthy mail_list then
        match Json.py_first mail_list with
        | inr latest_mail_id =>
            match ok_body content with
            | Some mail_content =>
                if Json.py_truthy mail_content then
                  match Json.py_get mail_content (lit "text") (JStr []) with
                  | inr (JStr mail_text) =>
                      match CodeRegex.search_temp_mail mail_text with
                      | Some code => Some (latest_mail_id, code)
                      | None => None
                      end
                  | _ => None
                  end
                else None
            | None => None
            end
        | inl _ => None
        end
      else None
  | None => None
  end.

Definition deleted_ok (r : reply) : bool :=
  match r with
  | Response status_code _ => (status_code =? 200)%Z
  | NoReply _ => false
  end.

(** How many [DELETE] requests a cleanup of at most [n] tries sends when
    the replies are [r 0], [r 1], ...: it stops at the first status 200. *)
Fixpoint deletes_sent (n : nat) (r : nat -> reply) : nat :=
  match n with
  | O => O
  | S n' =>
      if deleted_ok (r 0) then 1
      else S (deletes_sent n' (fun k => r (S k)))
  end.

(** Every [DELETE] among the events is for the mail [id]. *)
Definition only_deletes_of (id : json) (tail : list (mail_event json)) : Prop :=
  Forall (fun e => is_delete e = true -> e = DeleteRequest id) tail.

End TempMail.

(** *** The retry loop [get_verification_code(max_retries, retry_interval)]

    The loop is written over the method it calls on every attempt, a
    state transformer on some state [S]; the handler instantiates it with
    [_get_latest_mail_code].  The loop keeps its own record of calls,
    sleeps and log lines. *)

Inductive retry_event : Type :=
| Fetch (attempt : nat)
| Wait (seconds : Z)
| Report (l : level) (what : string).

Definition is_fetch (e : retry_event) : bool :=
  match e with Fetch _ => true | _ => false end.

Definition is_wait (e : retry_event) : bool :=
  match e with Wait _ => true | _ => false end.

Module RetryLoop.
Section Loop.

Context {S : Type}.
Variable fetch : S -> result (option str) * S.

(** [if code:] on [None] or a string *)
Definition code_truthy (code : option str) : bool :=
  match code with Some s => PyStr.truthy s | None => false end.

(** [for attempt in range(max_retries)] from [attempt] on, [remaining]
    iterations left; after the loop the error is logged and [None]
    returned.  [inl e]: the exception left the loop. *)
Fixpoint attempts_from (remaining attempt : nat)
    (max_retries retry_interval : Z) (s : S) (tr : list retry_event)
    : result (option str) * S * list retry_event :=
  match remaining with
  | O => (inr None, s, tr ++ [Report ERROR "no code after all attempts"])
  | Datatypes.S remaining' =>
      let tr := tr ++ [Report INFO "attempt"; Fetch attempt] in
      match fetch s with
      | (inl e, s') => (inl e, s', tr)
      | (inr code, s') =>
          if code_truthy code then (inr code, s', tr)
          else
            let tr :=
              if (Z.of_nat attempt <? max_retries - 1)%Z
              then tr ++ [Report INFO "waiting"; Wait retry_interval]
              else tr in
            attempts_from remaining' (Datatypes.S attempt)
              max_retries retry_interval s' tr
      end
  end.

(** The whole method: the [try] around the loop turns an exception into
    a logged [None]. *)
Definition get_verification_code (max_retries retry_interval : Z) (s : S)
    : option str * S * list retry_event :=
  match attempts_from (Z.to_nat max_retries) 0 max_retries retry_interval s [] with
  | (inr code, s', tr) => (code, s', tr)
  | (inl e, s', tr) => (None, s', tr ++ [Report ERROR "raised"])
  end.

(** The state before the [k]-th call (counting from 0) and what that
    call yields, when the method is called again and again from [s]. *)
Fixpoint state_before (k : nat) (s : S) : S :=
  match k with
  | O => s
  | Datatypes.S k' => snd (fetch (state_before k' s))
  end.

Definition yield (k : nat) (s : S) : result (option str) :=
  fst (fetch (state_before k s)).

(** The [k]-th call yields nothing the loop accepts. *)
Definition falsy_at (s : S) (k : nat) : Prop :=
  exists r, yield k s = inr r /\ code_truthy r = false.

End Loop.
End RetryLoop.

Module RetryTrace.



End RetryTrace.

Module EmailVerificationHandler.

(** [get_verification_code(max_retries=5, retry_interval=10)] *)
Definition get_verification_code (max_retries retry_interval : Z)
    (w : TempMail.world) : option str * TempMail.world * list retry_event :=
  RetryLoop.get_verification_code TempMail._get_latest_mail_code
    max_retries retry_interval w.

End EmailVerificationHandler.

(** ** [email_handler.py]: [EmailHandler], the IMAP poller *)

Module Imap.

(** What the IMAP server answers on each attempt of the loop. *)
Record server : Type := {
  login_ok : bool;
  select_reply : nat -> result unit;
(** [messages[0]] of [mail.search] *)
search_reply : nat -> result str;
(** the body [_get_email_body] finds in the fetched message *)
fetch_reply : nat -> str -> result (option str)
}.

Definition is_bytes_space (c : ascii) : bool :=
  PyChar.between 9 13 c || (PyChar.code c =? 32)%N.

(** [bytes.split()]: the maximal runs of non-whitespace bytes. *)
Fixpoint split_from (cur : str) (s : str) : list str :=
  match s with
  | [] => match cur with [] => [] | _ :: _ => [cur] end
  | c :: s' =>
      if is_bytes_space c then
        match cur with
        | [] => split_from [] s'
        | _ :: _ => cur :: split_from [] s'
        end
      else split_from (cur ++ [c]) s'
  end.

Definition split (s : str) : list str := split_from [] s.

Inductive outcome : Type :=
| Return (v : option str)
| Next.

Definition body_truthy (body : option str) : bool :=
  match body with Some s => PyStr.truthy s | None => false end.

(** One iteration of the [for] loop. *)
Definition iteration (srv : server) (attempt : nat)
    (max_retries retry_interval : Z) (tr : list (mail_event str))
    : outcome * list (mail_event str) :=
  let not_last := (Z.of_nat attempt <? max_retries - 1)%Z in
  let on_error (tr : list (mail_event str)) :=
    if not_last
    then (Next, tr ++ [Log ERROR "poll raised"; Sleep retry_interval])
    else (Return None, tr ++ [Log ERROR "poll raised"]) in
  let tr := tr ++ [SelectRequest] in
  match select_reply srv attempt with
  | inl _ => on_error tr
  | inr _ =>
      let tr := tr ++ [ListRequest] in
      match search_reply srv attempt with
      | inl _ => on_error tr
      | inr messages0 =>
          if negb (PyStr.truthy messages0) then
            if not_last
            then (Next, tr ++ [Log INFO "no mail yet"; Sleep retry_interval])
            else (Return None, tr ++ [Log WARNING "no mail after all attempts"])
          else
            match last (split messages0) with
            | None => on_error tr
            | Some latest_email_id =>
                let tr := tr ++ [ContentRequest latest_email_id] in
                match fetch_reply srv attempt latest_email_id with
                | inl _ => on_error tr
                | inr body =>
                    let code_match :=
                      if body_truthy body
                      then CodeRegex.search_imap (default [] body)
                      else None in
                    match code_match with
                    | Some code => (Return (Some code), tr ++ [Log INFO "code extracted"])
                    | None =>
                        if not_last
                        then (Next, tr ++ [Log INFO "no code in mail"; Sleep retry_interval])
                        else (Next, tr)
                    end
                end
            end
      end
  end.

Fixpoint attempts_from (srv : server) (remaining attempt : nat)
    (max_retries retry_interval : Z) (tr : list (mail_event str))
    : option str * list (mail_event str) :=
  match remaining with
  | O => (None, tr)
  | S remaining' =>
      match iteration srv attempt max_retries retry_interval tr with
      | (Return v, tr') => (v, tr')
      | (Next, tr') =>
          attempts_from srv remaining' (S attempt) max_retries retry_interval tr'
      end
  end.

(** [get_verification_code(sender, max_retries, retry_interval)];
    [connected] tells whether [self.mail] is already set. *)
Definition get_verification_code (srv : server) (connected : bool)
    (max_retries retry_interval : Z) : option str * list (mail_event str) :=
  if connected then
    attempts_from srv (Z.to_nat max_retries) 0 max_retries retry_interval []
  else if login_ok srv then
    attempts_from srv (Z.to_nat max_retries) 0 max_retries retry_interval
      [Log INFO "connected"]
  else
    (None, [Log ERROR "connection failed"]).

End Imap.

(** ** [tavily_auto.py]: the script run in the page by [_get_api_key]

    [data && data.length > 0 && data[0].key && data[0].key.startsWith('tvly-')]
    on the value decoded from the keys endpoint, inside [try]/[catch].
    ECMAScript's [ToNumber] on strings, arrays and objects is a parameter. *)

Module KeyScript.
Section WithToNumber.

Variable to_number : json -> float.

(** JavaScript truth value *)
Definition js_truthy (v : json) : bool :=
  match v with
  | JNull => false
  | JBool b => b
  | JNum x => negb (x =? 0)%float && (x =? x)%float
  | JStr s => PyStr.truthy s
  | JArr _ | JObj _ => true
  end.

(** [v > 0] *)
Definition js_gt_zero (v : json) : bool :=
  match v with
  | JNull => false
  | JBool b => b
  | JNum x => (0 <? x)%float
  | JStr _ | JArr _ | JObj _ => (0 <? to_number v)%float
  end.

(** [data.length > 0]; a missing [length] is [undefined], which is not
    greater than 0. *)
Definition length_positive (data : json) : result bool :=
  match data with
  | JNull => inl TypeError
  | JArr items => inr (match items with [] => false | _ :: _ => true end)
  | JStr s => inr (PyStr.truthy s)
  | JObj members =>
      inr (match Json.member (lit "length") members with
           | Some v => js_gt_zero v
           | None => false
           end)
  | JBool _ | JNum _ => inr false
  end.

(** [data[0]]; [None] is [undefined]. *)
Definition item0 (data : json) : result (option json) :=
  match data with
  | JNull => inl TypeError
  | JArr items => inr (head items)
  | JStr s => inr (match s with c :: _ => Some (JStr [c]) | [] => None end)
  | JObj members => inr (Json.member (lit "0") members)
  | JBool _ | JNum _ => inr None
  end.

(** [entry.key]: reading a property of [undefined] or [null] throws. *)
Definition prop_key (entry : option json) : result (option json) :=
  match entry with
  | None | Some JNull => inl TypeError
  | Some (JObj members) => inr (Json.member (lit "key") members)
  | Some _ => inr None
  end.

(** [key.startsWith('tvly-')]: only strings have the method. *)
Definition starts_with_prefix (key : json) : result bool :=
  match key with
  | JStr s => inr (PyStr.startswith (lit "tvly-") s)
  | _ => inl TypeError
  end.

(** The string returned by [return data[0].key]. *)
Definition key_text (key : json) : str :=
  match key with JStr s => s | _ => [] end.

(** The body of the [try] block: [Some key] when the [if] is taken. *)
Definition try_block (data : json) : result (option str) :=
  if negb (js_truthy data) then inr None else
  match length_positive data with
  | inl e => inl e
  | inr false => inr None
  | inr true =>
      match item0 data with
      | inl e => inl e
      | inr entry =>
          match prop_key entry with
          | inl e => inl e
          | inr None => inr None
          | inr (Some key) =>
              if negb (js_truthy key) then inr None else
              match starts_with_prefix key with
              | inl e => inl e
              | inr false => inr None
              | inr true => inr (Some (key_text key))
              end
          end
      end
  end.

(** What [fetch('/api/keys')] followed by [response.json()] produces. *)
Inductive fetch_outcome : Type :=
| FetchThrows
| FetchJson (data : json).

(** [getApiKey()]: the key, or [null]. *)
Definition getApiKey (o : fetch_outcome) : option str :=
  match o with
  | FetchThrows => None
  | FetchJson data =>
      match try_block data with
      | inr (Some key) => Some key
      | inr None | inl _ => None
      end
  end.

End WithToNumber.
End KeyScript.

(** ** [tavily_auto.py]: [TavilyAutoRegister] *)

Module TavilyAutoRegister.
Section Run.

Variable py_int : str -> option Z.
Variable to_number : json -> float.

(** What the collaborators do during one run. *)
Record site : Type := {
  browser_start : bool;
  captcha_handler_init : result unit;
  handle_navigation : bool;
  fill_registration_form : str -> str -> bool;
(** [page.run_js] raises, or the script runs and sees this outcome *)
run_js : result KeyScript.fetch_outcome;
(** [time.strftime("%Y-%m-%d %H:%M:%S")] *)
strftime : str;
(** does [open("accounts.csv", mode)] raise? *)
open_raises : bool
}.

Inductive csv_row : Type :=
| Header
| Row (email password api_key created_at : str).

(** [accounts.csv]: absent, or its rows. *)
Definition file : Type := option (list csv_row).

Inductive message : Type :=
| UsingEmail (email : str)
| UsingPassword (password : str)
| WaitingForDashboard
| TryingToGetKey
| KeyNotFound
| KeyObtained (api_key : str)
| AccountSaved
| SaveFailed
| RunFailed (e : exn).

Inductive run_event : Type :=
| BrowserStart
| BrowserClose
| Navigation
| FormFilling
| Pause (seconds : Z)
| KeyRequest
| OpenFile (append : bool)
| Logged (l : level) (m : message).

Definition is_key_request (e : run_event) : bool :=
  match e with KeyRequest => true | _ => false end.

(** Python truth value of what [run_js] hands back. *)
Definition key_truthy (api_key : option str) : bool :=
  match api_key with
  | Some s => PyStr.truthy s
  | None => false
  end.

(** [_get_api_key()] *)
Definition _get_api_key (st : site) (tr : list run_event)
    : result str * list run_event :=
  let tr := tr ++ [Logged INFO WaitingForDashboard; Pause 5;
                   Logged INFO TryingToGetKey; KeyRequest] in
  match run_js st with
  | inl e => (inl e, tr)
  | inr o =>
      let api_key := KeyScript.getApiKey to_number o in
      match api_key with
      | Some key =>
          if key_truthy api_key
          then (inr key, tr ++ [Logged INFO (KeyObtained key)])
          else (inl (Exception "API key not found"), tr ++ [Logged ERROR KeyNotFound])
      | None =>
          (inl (Exception "API key not found"), tr ++ [Logged ERROR KeyNotFound])
      end
  end.

(** [_save_account_info(email, password, api_key)]: the whole body is
    inside [try]; a failure is logged and nothing is raised. *)
Definition _save_account_info (st : site) (f : file)
    (email password : str) (api_key : str) (tr : list run_event)
    : file * list run_event :=
  let data := Row email password api_key (strftime st) in
  let file_exists := match f with Some _ => true | None => false end in
  let tr := tr ++ [OpenFile file_exists] in
  if open_raises st then (f, tr ++ [Logged ERROR SaveFailed])
  else
    let rows :=
      match f with
      | Some rows => rows ++ [data]
      | None => [Header; data]
      end in
    (Some rows, tr ++ [Logged INFO AccountSaved]).

(** The [try] block of [start()]: the returned value when the block
    returns, [inl e] when it raises. *)
Definition start_body (env : environ) (st : site) (g : Random.rng) (f : file)
    : result bool * file * list run_event :=
  let tr := [BrowserStart] in
  if negb (browser_start st) then (inr false, f, tr) else
  match captcha_handler_init st with
  | inl e => (inl e, f, tr)
  | inr _ =>
      match Credentials.generate_email py_int env g with
      | (inl e, _) => (inl e, f, tr)
      | (inr email, g) =>
          match Credentials.generate_password g with
          | (inl e, _) => (inl e, f, tr)
          | (inr password, _) =>
              let tr := tr ++ [Logged INFO (UsingEmail email);
                               Logged INFO (UsingPassword password);
                               Navigation] in
              if negb (handle_navigation st) then (inr false, f, tr) else
              let tr := tr ++ [FormFilling] in
              if negb (fill_registration_form st email password)
              then (inr false, f, tr) else
              match _get_api_key st tr with
              | (inl e, tr) => (inl e, f, tr)
              | (inr api_key, tr) =>
                  if negb (PyStr.truthy api_key) then (inr false, f, tr) else
                  let '(f', tr) :=
                    _save_account_info st f email password api_key tr in
                  (inr true, f', tr)
              end
          end
      end
  end.

(** [start()]: [except Exception] logs and returns [False]; [finally]
    closes the browser, which itself never raises. *)
Definition start (env : environ) (st : site) (g : Random.rng) (f : file)
    : bool * file * list run_event :=
  match start_body env st g f with
  | (inr b, f', tr) => (b, f', tr ++ [BrowserClose])
  | (inl e, f', tr) => (false, f', tr ++ [Logged ERROR (RunFailed e); BrowserClose])
  end.

(** *** Observations of a run *)

Definition returned (r : bool * file * list run_event) : bool := fst (fst r).
Definition file_after (r : bool * file * list run_event) : file := snd (fst r).
Definition events (r : bool * file * list run_event) : list run_event := snd r.

(** The rows of [accounts.csv] after one more record. *)
Definition appended (f : file) (data : csv_row) : list csv_row :=
  match f with
  | Some rows => rows ++ [data]
  | None => [Header; data]
  end.

(** The key that [run_js] hands to Python, if any. *)
Definition key_of (st : site) : option str :=
  match run_js st with
  | inl _ => None
  | inr o => KeyScript.getApiKey to_number o
  end.

(** The same collaborators, except for whether [open] raises. *)
Definition set_open_raises (b : bool) (st : site) : site :=
  {| browser_start := browser_start st;
     captcha_handler_init := captcha_handler_init st;
     handle_navigation := handle_navigation st;
     fill_registration_form := fill_registration_form st;
     run_js := run_js st;
     strftime := strftime st;
     open_raises := b |}.

(** The events of a run up to the key phase, and of the key phase up to
    the request itself. *)
Definition preamble (email password : str) : list run_event :=
  [BrowserStart; Logged INFO (UsingEmail email);
   Logged INFO (UsingPassword password); Navigation; FormFilling].

Definition key_phase : list run_event :=
  [Logged INFO WaitingForDashboard; Pause 5;
   Logged INFO TryingToGetKey; KeyRequest].

(** The events that can occur in a run that stops before the key phase. *)
Definition early_event (e : run_event) : bool :=
  match e with
  | BrowserStart | BrowserClose | Navigation | FormFilling => true
  | Logged INFO (UsingEmail _) | Logged INFO (UsingPassword _) => true
  | Logged ERROR (RunFailed _) => true
  | _ => false
  end.

(** What the events after the key request can be. *)
Definition miss_tail (post : list run_event) : Prop :=
  (exists e, post = [Logged ERROR (RunFailed e); BrowserClose])
  \/ post = [Logged ERROR KeyNotFound;
             Logged ERROR (RunFailed (Exception "API key not found"));
             BrowserClose].

Definition hit_tail (st : site) (f : file) (k : str) (post : list run_event) : Prop :=
  post = [Logged INFO (KeyObtained k);
          OpenFile (match f with Some _ => true | None => false end);
          (if open_raises st then Logged ERROR SaveFailed
           else Logged INFO AccountSaved);
          BrowserClose].

End Run.
End TavilyAutoRegister.

(** ** Observations used by the further properties *)

Definition is_sleep {Id} (e : mail_event Id) : bool :=
  match e with Sleep _ => true | _ => false end.

Definition is_request {Id} (e : mail_event Id) : bool :=
  match e with
  | SelectRequest | ListRequest | ContentRequest _ | DeleteRequest _ => true
  | Sleep _ | Log _ _ => false
  end.

Module CleanupOutcome.
Import TempMail.

(** Is one of the replies [r 0], ..., [r (n-1)] a response with status
    200? *)
Fixpoint deleted_within (n : nat) (r : nat -> reply) : bool :=
  match n with
  | O => false
  | S n' => deleted_ok (r 0) || deleted_within n' (fun k => r (S k))
  end.

(** A response with another status than 200. *)
Definition refused (r : reply) : bool :=
  match r with
  | Response status_code _ => negb (status_code =? 200)%Z
  | NoReply _ => false
  end.

(** The refusals among the replies of at most [n] tries, up to the first
    status 200. *)
Fixpoint refusals (n : nat) (r : nat -> reply) : nat :=
  match n with
  | O => O
  | S n' =>
      if deleted_ok (r 0) then O
      else (if refused (r 0) then 1 else 0) + refusals n' (fun k => r (S k))
  end.

(** Every sleep among the events lasts one second. *)
Definition cleanup_sleeps_one (tail : list (mail_event json)) : Prop :=
  Forall (fun e => is_sleep e = true -> e = Sleep 1) tail.

End CleanupOutcome.

Module ImapObserved.

Definition is_select {Id} (e : mail_event Id) : bool :=
  match e with SelectRequest => true | _ => false end.

(** The message numbers of a search reply, separated by single spaces. *)
Fixpoint join_ids (ids : list str) : str :=
  match ids with
  | [] => []
  | [id] => id
  | id :: rest => id ++ " "%char :: join_ids rest
  end.

(** A message number: a non-empty run of bytes without whitespace. *)
Definition is_token (id : str) : Prop :=
  id <> [] /\ Forall (fun c => Imap.is_bytes_space c = false) id.

(** Every fetch among the events is for the last message number of the
    search reply of that attempt. *)
Definition fetched_latest (srv : Imap.server) (attempt : nat)
    (added : list (mail_event str)) : Prop :=
  forall id, ContentRequest id ∈ added ->
    exists messages0,
      Imap.search_reply srv attempt = inr messages0
      /\ last (Imap.split messages0) = Some id.

End ImapObserved.

(** ** [config.py]: [print_config] and the module's [__main__] block *)

Module ConfigPrinting.
Section WithInt.

Variable py_int : str -> option Z.

Inductive config_line : Type :=
| ConfigBegin
| ImapServerLine (server : option str)
| ImapPortLine (port : Z)
| ImapUserLine (user : option str)
| ImapPassLine (mask : str)
| ImapDirLine (dir : str)
| TempMailLine (box : option str) (ext : str)
| BrowserTypeLine (browser_type : str)
| HeadlessLine (headless : bool)
| ConfigEnd
| EnvironmentLoaded
| ErrorLine (e : exn).

(** Truth value of what [os.getenv] returned. *)
Definition getenv_truthy (v : option str) : bool :=
  match v with
  | Some s => PyStr.truthy s
  | None => false
  end.

(** [len(v)]: [None] has no length. *)
Definition py_len (v : option str) : result nat :=
  match v with
  | Some s => inr (length s)
  | None => inl TypeError
  end.

(** ['*' * n] *)
Definition stars (n : nat) : str := replicate n "*"%char.

(** [print_config()]: the lines logged, and whether the call raised. *)
Definition print_config (self : Config) : result unit * list config_line :=
  let tr := [ConfigBegin] in
  let rest := [BrowserTypeLine (BROWSER_TYPE self);
               HeadlessLine (HEADLESS self); ConfigEnd] in
  if getenv_truthy (IMAP_SERVER self) then
    let tr := tr ++ [ImapServerLine (IMAP_SERVER self);
                     ImapPortLine (IMAP_PORT self);
                     ImapUserLine (IMAP_USER self)] in
    match py_len (IMAP_PASS self) with
    | inl e => (inl e, tr)
    | inr n =>
        (inr tt, tr ++ [ImapPassLine (stars n); ImapDirLine (IMAP_DIR self)]
                    ++ rest)
    end
  else
    (inr tt, tr ++ [TempMailLine (TEMP_MAIL self) (TEMP_MAIL_EXT self)] ++ rest).

(** The [__main__] block: only [ValueError] is caught. *)
Definition main (env : environ) : result unit * list config_line :=
  match Config_init py_int env with
  | inl ValueError => (inr tt, [ErrorLine ValueError])
  | inl e => (inl e, [])
  | inr config =>
      let '(r, tr) := print_config config in
      (r, EnvironmentLoaded :: tr)
  end.

End WithInt.
End ConfigPrinting.

(** A string with a character that [strip()] keeps. *)
Definition has_visible (s : str) : Prop :=
  Exists (fun c => PyChar.isspace c = false) s.

(** ** [utils/utils.py]: [generate_account_info] *)

Module AccountInfo.
Section WithInt.
Import Random.
Local Open Scope rand_scope.

Variable py_int : str -> option Z.

(** The dictionary [{'email': ..., 'password': ...}]. *)
Record account_info : Type := {
  email : str;
  password : str
}.

Definition generate_account_info (domain : str) (env : environ) : M account_info :=
  let* email := Credentials.generate_email py_int env in
  let* password := Credentials.generate_password in
  ret {| email := email; password := password |}.

End WithInt.
End AccountInfo.

Module RunObserved.
Import TavilyAutoRegister.

Definition is_browser_start (e : run_event) : bool :=
  match e with BrowserStart => true | _ => false end.

Definition is_browser_close (e : run_event) : bool :=
  match e with BrowserClose => true | _ => false end.

Definition is_open_file (e : run_event) : bool :=
  match e with OpenFile _ => true | _ => false end.

(** A decoded value that is neither an array nor an object. *)
Definition is_scalar (data : json) : bool :=
  match data with
  | JArr _ | JObj _ => false
  | _ => true
  end.

End RunObserved.

(** ** [core/captcha_handler.py]: [CaptchaHandler.verify_captcha]

    The loop has no bound; the model runs it for at most [fuel] rounds and
    answers [None] when the loop is still running after them.  Of the
    calls in the loop only [page.run_js] is outside a [try] of its own. *)

Module CaptchaLoop.
Import Captcha.

(** What the page and the recognizer do in one round. *)
Record round : Type := {
(** is [_get_captcha_image()] an element? *)
captcha_image : bool;
ocr : ocr_env;
(** [_input_captcha(text)] and [_click_continue_button()] *)
input_captcha : str -> bool;
click_continue : bool;
(** the truth value of [page.run_js(js_code)], unless it raises *)
verification : result bool
}.

Inductive message : Type :=
| RoundStarts (attempt : nat)
| SearchingImage
| ImageNotFound
| NothingRecognized
| AboutToType
| TypingFailed
| AboutToClick
| ClickFailed
| Verified (attempt : nat)
| NotVerified (attempt : nat)
| HandlerFailed (e : exn).

Inductive event : Type :=
| Wait (seconds : Z)
| GetImage
| Recognize (lines : list log_line)
| TypeCaptcha (text : str)
| ClickContinue
| CheckResult
| Logged (l : level) (m : message).

Definition text_truthy (text : option str) : bool :=
  match text with
  | Some s => PyStr.truthy s
  | None => false
  end.

(** How one pass through the loop body ends. *)
Inductive pass : Type :=
| Continue
| Return (b : bool).

(** The loop body, [captcha_attempts] already incremented. *)
Definition one_round (rd : round) (captcha_attempts : nat) (tr : list event)
    : pass * list event :=
  let tr := tr ++ [Logged INFO (RoundStarts captcha_attempts); Wait 3;
                   Logged INFO SearchingImage; GetImage] in
  if negb (captcha_image rd)
  then (Continue, tr ++ [Logged ERROR ImageNotFound; Wait 3]) else
  let '(captcha_text, lines) := _recognize_captcha (Some tt) (ocr rd) in
  let tr := tr ++ [Recognize lines] in
  match captcha_text with
  | None => (Continue, tr ++ [Logged ERROR NothingRecognized; Wait 3])
  | Some text =>
      if negb (PyStr.truthy text)
      then (Continue, tr ++ [Logged ERROR NothingRecognized; Wait 3]) else
      let tr := tr ++ [Wait 1; Logged INFO AboutToType; TypeCaptcha text] in
      if negb (input_captcha rd text)
      then (Continue, tr ++ [Logged ERROR TypingFailed; Wait 3]) else
      let tr := tr ++ [Wait 1; Logged INFO AboutToClick; ClickContinue] in
      if negb (click_continue rd)
      then (Continue, tr ++ [Logged ERROR ClickFailed; Wait 3]) else
      let tr := tr ++ [Wait 3; CheckResult] in
      match verification rd with
      | inl e => (Return false, tr ++ [Logged ERROR (HandlerFailed e); Wait 3])
      | inr true =>
          (Return true,
           tr ++ [Logged INFO (Verified captcha_attempts); Wait 2])
      | inr false =>
          (Continue,
           tr ++ [Logged WARNING (NotVerified captcha_attempts); Wait 3])
      end
  end.

(** The loop from round [k] on, for at most [fuel] rounds.  The second
    component is [self.captcha_attempts] afterwards. *)
Fixpoint rounds_from (fuel : nat) (rounds : nat -> round) (k : nat)
    (captcha_attempts : nat) (tr : list event)
    : option bool * nat * list event :=
  match fuel with
  | O => (None, captcha_attempts, tr)
  | S fuel' =>
      let captcha_attempts := captcha_attempts + 1 in
      match one_round (rounds k) captcha_attempts tr with
      | (Return b, tr) => (Some b, captcha_attempts, tr)
      | (Continue, tr) => rounds_from fuel' rounds (S k) captcha_attempts tr
      end
  end.

Definition verify_captcha (fuel : nat) (rounds : nat -> round)
    (captcha_attempts : nat) : option bool * nat * list event :=
  rounds_from fuel rounds 0 captcha_attempts [].

(** *** Observations *)

(** The text handed to [_input_captcha] in a round, if the round gets
    that far. *)
Definition recognized (rd : round) : option str :=
  if captcha_image rd then fst (_recognize_captcha (Some tt) (ocr rd))
  else None.

(** Does the round get as far as the check of the result? *)
Definition reaches_check (rd : round) : bool :=
  match recognized rd with
  | Some text =>
      PyStr.truthy text && input_captcha rd text && click_continue rd
  | None => false
  end.

(** The value a round makes the method return, if any. *)
Definition settles (rd : round) : option bool :=
  if reaches_check rd then
    match verification rd with
    | inr true => Some true
    | inr false => None
    | inl _ => Some false
    end
  else None.

Definition is_typing (e : event) : bool :=
  match e with TypeCaptcha _ => true | _ => false end.

(** A typed text is what the recognizer returned in that round: not
    empty, letters and digits only. *)
Definition typed_ok (rd : round) (e : event) : Prop :=
  forall text, e = TypeCaptcha text ->
    text <> [] /\ recognized rd = Some text
    /\ Forall (fun c => PyChar.isalnum c = true) text.

End CaptchaLoop.

(** ** [core/captcha_handler.py]: [CaptchaHandler.handle_password_input]

    [js_code] is assigned only in the branch of the [#password] element,
    which always returns; on every other path reading it raises
    [UnboundLocalError]. *)

Definition UnboundLocalError : exn := Exception "UnboundLocalError".

Module PasswordInput.

(** How the password field was looked for: [page.ele('#password')],
    [page.ele(alternative_selectors[i])], [page.run_js(js_code_input)]. *)
Inductive locator : Type :=
| ById
| BySelector (i : nat)
| ByScript.

Record page : Type := {
(** [browser.config.PASSWORD]; [None] when the attribute was never set *)
config_password : option str;
(** is the field found? *)
ele : locator -> result bool;
(** [element.input(text)] on the field found that way *)
element_input : locator -> str -> result unit;
(** [page.run_js(js_code)] and [continue_button.click()] *)
continue_script : result bool;
continue_click : result unit
}.

Inductive message : Type :=
| PasswordMissing
| SearchingField
| FoundById
| SearchingButton
| ButtonFound
| Clicked
| ButtonMissing
| TryingSelector (i : nat)
| FoundBySelector (i : nat)
| TryingScript
| FoundByScript
| ScriptFailed (e : exn)
| FieldMissing
| PasswordFailed (e : exn)
| Typed (text : str)
| TypingFailed (e : exn).

Inductive event : Type :=
| Find (how : locator)
| TypeText (how : locator) (text : str)
| RunContinueScript
| Click
| Wait (seconds : Z)
| Logged (l : level) (m : message).

(** [_handle_input(input_element, text, field_name)] *)
Definition _handle_input (pg : page) (how : locator) (text : str)
    (tr : list event) : bool * list event :=
  let tr := tr ++ [Wait 1; TypeText how text] in
  match element_input pg how text with
  | inl e => (false, tr ++ [Logged ERROR (TypingFailed e)])
  | inr _ => (true, tr ++ [Logged INFO (Typed text); Wait 1])
  end.

(** The branch of [if password_input:] for the [#password] element. *)
Definition by_id_branch (pg : page) (password : str) (tr : list event)
    : result bool * list event :=
  let tr := tr ++ [Logged INFO FoundById; Wait 1] in
  let '(ok, tr) := _handle_input pg ById password tr in
  if negb ok then (inr false, tr) else
  let tr := tr ++ [Logged INFO SearchingButton; Wait 2; RunContinueScript] in
  match continue_script pg with
  | inl e => (inl e, tr)
  | inr true =>
      let tr := tr ++ [Logged INFO ButtonFound; Wait 1; Click] in
      match continue_click pg with
      | inl e => (inl e, tr)
      | inr _ => (inr true, tr ++ [Logged INFO Clicked; Wait 2])
      end
  | inr false => (inr false, tr ++ [Logged ERROR ButtonMissing])
  end.

Definition found_message (how : locator) : message :=
  match how with
  | ById => FoundById
  | BySelector i => FoundBySelector i
  | ByScript => FoundByScript
  end.

(** The same steps for a field found in another way: the argument of
    [run_js(js_code)] cannot be evaluated. *)
Definition fallback_branch (pg : page) (how : locator) (password : str)
    (tr : list event) : result bool * list event :=
  let tr := tr ++ [Logged INFO (found_message how); Wait 1] in
  let '(ok, tr) := _handle_input pg how password tr in
  if negb ok then (inr false, tr) else
  (inl UnboundLocalError, tr ++ [Logged INFO SearchingButton; Wait 2]).

(** [for selector in alternative_selectors]: [None] when the loop ends
    without leaving the method. *)
Fixpoint try_selectors (pg : page) (password : str) (selectors : list nat)
    (tr : list event) : option (result bool) * list event :=
  match selectors with
  | [] => (None, tr)
  | i :: rest =>
      let tr := tr ++ [Logged INFO (TryingSelector i); Find (BySelector i)] in
      match ele pg (BySelector i) with
      | inl e => (Some (inl e), tr)
      | inr true =>
          let '(r, tr) := fallback_branch pg (BySelector i) password tr in
          (Some r, tr)
      | inr false => try_selectors pg password rest tr
      end
  end.

(** The indices of the four [alternative_selectors]. *)
Definition alternative_selectors : list nat := [0; 1; 2; 3].

(** The inner [try] around the search by script: [Some b] when it
    returns [b]. *)
Definition script_branch (pg : page) (password : str) (tr : list event)
    : option bool * list event :=
  let tr := tr ++ [Logged INFO TryingScript; Find ByScript] in
  match ele pg ByScript with
  | inl e => (None, tr ++ [Logged WARNING (ScriptFailed e)])
  | inr false => (None, tr)
  | inr true =>
      match fallback_branch pg ByScript password tr with
      | (inr b, tr) => (Some b, tr)
      | (inl e, tr) => (None, tr ++ [Logged WARNING (ScriptFailed e)])
      end
  end.

(** The body of the outer [try]. *)
Definition handle_password_input_body (pg : page) (tr : list event)
    : result bool * list event :=
  match config_password pg with
  | None => (inl AttributeError, tr)
  | Some password =>
      if negb (PyStr.truthy password)
      then (inr false, tr ++ [Logged ERROR PasswordMissing]) else
      let tr := tr ++ [Logged INFO SearchingField; Find ById] in
      match ele pg ById with
      | inl e => (inl e, tr)
      | inr true => by_id_branch pg password tr
      | inr false =>
          match try_selectors pg password alternative_selectors tr with
          | (Some r, tr) => (r, tr)
          | (None, tr) =>
              match script_branch pg password tr with
              | (Some b, tr) => (inr b, tr)
              | (None, tr) => (inr false, tr ++ [Logged ERROR FieldMissing])
              end
          end
      end
  end.

Definition handle_password_input (pg : page) : bool * list event :=
  match handle_password_input_body pg [] with
  | (inr b, tr) => (b, tr)
  | (inl e, tr) => (false, tr ++ [Logged ERROR (PasswordFailed e)])
  end.

(** *** Observations *)

Definition is_typing (e : event) : bool :=
  match e with TypeText _ _ => true | _ => false end.

Definition is_click (e : event) : bool :=
  match e with Click => true | _ => false end.

Definition is_continue_script (e : event) : bool :=
  match e with RunContinueScript => true | _ => false end.

(** Whatever is typed is [password]. *)
Definition types_only (password : str) (e : event) : Prop :=
  forall how text, e = TypeText how text -> text = password.

(** The log reports that a text was typed into the field. *)
Definition typed_logged (tr : list event) : Prop :=
  exists text, Logged INFO (Typed text) ∈ tr.

(** The log reports the [UnboundLocalError]. *)
Definition unbound_reported (tr : list event) : Prop :=
  Logged ERROR (PasswordFailed UnboundLocalError) ∈ tr
  \/ Logged WARNING (ScriptFailed UnboundLocalError) ∈ tr.

End PasswordInput.

(** ** [core/browser_utils.py]: [BrowserUtils.navigate_to] *)

Module Navigation.

(** What [page.get(url)] and the ready check do at each attempt. *)
Record page : Type := {
  get_reply : nat -> result unit;
  loaded_reply : nat -> result bool
}.

Inductive message : Type :=
| Navigating
| Retrying (attempt : Z)
| AttemptFailed (attempt : Z) (e : exn)
| GaveUp.

Inductive event : Type :=
| Get
| ReadyCheck
| Wait (seconds : Z)
| Logged (l : level) (m : message).

(** The [try] statement of one iteration: [Some true] when it returns. *)
Definition try_block (pg : page) (attempt : nat) (wait_time : Z)
    (tr : list event) : bool * list event :=
  let tr := if (0 <? Z.of_nat attempt)%Z
            then tr ++ [Logged INFO (Retrying (Z.of_nat attempt + 1))]
            else tr in
  let tr := tr ++ [Get] in
  match get_reply pg attempt with
  | inl e =>
      (false, tr ++ [Logged WARNING (AttemptFailed (Z.of_nat attempt + 1) e)])
  | inr _ =>
      let tr := tr ++ [Wait wait_time; ReadyCheck] in
      match loaded_reply pg attempt with
      | inl e =>
          (false,
           tr ++ [Logged WARNING (AttemptFailed (Z.of_nat attempt + 1) e)])
      | inr true => (true, tr ++ [Wait 2])
      | inr false => (false, tr)
      end
  end.

(** [for attempt in range(max_retries)], from [attempt] on, and what
    follows the loop. *)
Fixpoint attempts_from (pg : page) (remaining attempt : nat) (wait_time : Z)
    (tr : list event) : bool * list event :=
  match remaining with
  | O => (false, tr ++ [Logged ERROR GaveUp])
  | S remaining' =>
      match try_block pg attempt wait_time tr with
      | (true, tr) => (true, tr)
      | (false, tr) =>
          attempts_from pg remaining' (S attempt) wait_time
            (tr ++ [Wait wait_time])
      end
  end.

Definition navigate_to (pg : page) (max_retries wait_time : Z)
    : bool * list event :=
  attempts_from pg (Z.to_nat max_retries) 0 wait_time [Logged INFO Navigating].

(** *** Observations *)



(** The time slept, in seconds. *)
Fixpoint slept (tr : list event) : Z :=
  match tr with
  | [] => 0
  | Wait seconds :: tr' => seconds + slept tr'
  | _ :: tr' => slept tr'
  end.

End Navigation.

(** ** [tavily_auto.py]: [_handle_email_input], [_fill_registration_form]
    and [verify_email] *)

Module PyStrIn.

(** [needle in hay] on strings *)
Fixpoint contains (needle hay : str) : bool :=
  PyStr.startswith needle hay
  || match hay with
     | [] => false
     | _ :: hay' => contains needle hay'
     end.

End PyStrIn.

Module RegistrationForm.

(** What the sign-up page does: the script that looks for the e-mail
    field, the field's [clear()] and [input(email)], the captcha rounds
    and the password page. *)
Record form : Type := {
  email_script : result bool;
  email_clear : result unit;
  email_input : str -> result unit;
  captcha_rounds : nat -> CaptchaLoop.round;
  password_page : PasswordInput.page
}.

Inductive message : Type :=
| SearchingEmailField
| EmailFieldFound
| EmailTyped
| EmailFieldMissing
| CaptchaFailed
| CaptchaDone
| PasswordStepFailed
| PasswordStepDone
| FormFailed (e : exn).

(** Pauses are in milliseconds here, for [time.sleep(0.5)]. *)
Inductive event : Type :=
| FindEmailField
| ClearEmail
| TypeEmail (email : str)
| Pause (milliseconds : Z)
| Captcha (e : CaptchaLoop.event)
| Password (e : PasswordInput.event)
| Logged (l : level) (m : message).

(** [_handle_email_input(email)]: nothing is caught here. *)
Definition _handle_email_input (frm : form) (email : str) (tr : list event)
    : result bool * list event :=
  let tr := tr ++ [Logged INFO SearchingEmailField; FindEmailField] in
  match email_script frm with
  | inl e => (inl e, tr)
  | inr false => (inr false, tr ++ [Logged ERROR EmailFieldMissing])
  | inr true =>
      let tr := tr ++ [Logged INFO EmailFieldFound; Pause 1000; ClearEmail] in
      match email_clear frm with
      | inl e => (inl e, tr)
      | inr _ =>
          let tr := tr ++ [Pause 500; TypeEmail email] in
          match email_input frm email with
          | inl e => (inl e, tr)
          | inr _ => (inr true, tr ++ [Logged INFO EmailTyped])
          end
      end
  end.

(** The [try] block of [_fill_registration_form(email, password)];
    [None] while the captcha loop is still running. *)
Definition form_body (fuel : nat) (frm : form) (email password : str)
    (captcha_attempts : nat) : option (result bool) * nat * list event :=
  match _handle_email_input frm email [] with
  | (inl e, tr) => (Some (inl e), captcha_attempts, tr)
  | (inr false, tr) => (Some (inr false), captcha_attempts, tr)
  | (inr true, tr) =>
      let '(verified, captcha_attempts, captcha_events) :=
        CaptchaLoop.verify_captcha fuel (captcha_rounds frm) captcha_attempts in
      let tr := tr ++ map Captcha captcha_events in
      match verified with
      | None => (None, captcha_attempts, tr)
      | Some false =>
          (Some (inr false), captcha_attempts, tr ++ [Logged ERROR CaptchaFailed])
      | Some true =>
          let tr := tr ++ [Logged INFO CaptchaDone; Pause 2000] in
          let '(ok, password_events) :=
            PasswordInput.handle_password_input (password_page frm) in
          let tr := tr ++ map Password password_events in
          if ok
          then (Some (inr true), captcha_attempts,
                tr ++ [Logged INFO PasswordStepDone])
          else (Some (inr false), captcha_attempts,
                tr ++ [Logged ERROR PasswordStepFailed])
      end
  end.

Definition _fill_registration_form (fuel : nat) (frm : form)
    (email password : str) (captcha_attempts : nat)
    : option bool * nat * list event :=
  match form_body fuel frm email password captcha_attempts with
  | (Some (inl e), n, tr) => (Some false, n, tr ++ [Logged ERROR (FormFailed e)])
  | (Some (inr b), n, tr) => (Some b, n, tr)
  | (None, n, tr) => (None, n, tr)
  end.

(** *** Observations *)

(** The e-mail field is found, cleared and filled. *)
Definition email_entered (frm : form) (email : str) : Prop :=
  email_script frm = inr true
  /\ email_clear frm = inr tt
  /\ email_input frm email = inr tt.

Definition is_captcha (e : event) : bool :=
  match e with Captcha _ => true | _ => false end.

Definition is_password (e : event) : bool :=
  match e with Password _ => true | _ => false end.

End RegistrationForm.

Module EmailVerification.

(** [browser.wait_and_type], [browser.wait_and_click] (both catch their
    exceptions) and [browser.page.url]. *)
Record page : Type := {
  wait_and_type : str -> bool;
  wait_and_click : bool;
  url : result str
}.

Inductive message : Type :=
| WaitingForMail
| GotCode (code : str)
| EmailVerified
| EmailNotVerified
| VerificationFailed (e : exn).

Inductive event : Type :=
| Poll (e : retry_event)
| TypeCode (code : str)
| ClickSubmit
| Wait (seconds : Z)
| ReadUrl
| Logged (l : level) (m : message).

(** [self.dashboard_url] *)
Definition dashboard_url : str := lit "https://app.tavily.com/home".

(** [verify_email()]; the handler is called with its defaults. *)
Definition verify_email (w : TempMail.world) (pg : page)
    : bool * TempMail.world * list event :=
  let tr := [Logged INFO WaitingForMail] in
  let '(verification_code, w, polled) :=
    EmailVerificationHandler.get_verification_code 5 10 w in
  let tr := tr ++ map Poll polled in
  match verification_code with
  | None => (false, w, tr)
  | Some code =>
      if negb (PyStr.truthy code) then (false, w, tr) else
      let tr := tr ++ [Logged INFO (GotCode code); TypeCode code] in
      if negb (wait_and_type pg code) then (false, w, tr) else
      let tr := tr ++ [ClickSubmit] in
      if negb (wait_and_click pg) then (false, w, tr) else
      let tr := tr ++ [Wait 3; ReadUrl] in
      match url pg with
      | inl e => (false, w, tr ++ [Logged ERROR (VerificationFailed e)])
      | inr current =>
          if PyStrIn.contains (lit "dashboard") current
          then (true, w, tr ++ [Logged INFO EmailVerified])
          else (false, w, tr ++ [Logged ERROR EmailNotVerified])
      end
  end.

(** *** Observations *)

Definition is_poll_fetch (e : event) : bool :=
  match e with Poll p => is_fetch p | _ => false end.

Definition touches_page (e : event) : bool :=
  match e with
  | TypeCode _ | ClickSubmit | ReadUrl => true
  | _ => false
  end.

End EmailVerification.

(** ** [tavily_register.py]: [TavilyRegister.register_account]

    The helpers of [browser_manager.py] catch their own exceptions:
    [navigate_to], [input_text] and [click_element] answer with a
    boolean, [find_element] and [get_element_text] with a value or
    [None]. *)

Module TavilyRegister.

Inductive target : Type := SignupPage | ApiPage.

Inductive field : Type :=
| EmailField | PasswordField | CodeField | SubmitButton | KeyElement.

Record site : Type := {
(** does [BrowserManager(...)] come up? *)
browser_setup : bool;
navigate_to : target -> bool;
(** [find_element]: the [n]-th search for an element of that kind *)
find_element : field -> nat -> bool;
input_text : field -> str -> bool;
click_element : nat -> bool;
get_element_text : option str;
mail : Imap.server
}.

Inductive message : Type :=
| SetupFailed
| FormNotFound
| SubmitFailed
| NoCode
| CodeInputFailed
| VerifyFailed
| NoKey
| Registered.

Inductive event : Type :=
| Setup
| Navigate (t : target)
| Find (f : field)
| TypeInto (f : field) (text : str)
| Click
| Wait (seconds : Z)
| Mail (e : mail_event str)
| CloseBrowser
| CloseMail
| Logged (l : level) (m : message).

(** [_get_api_key()] *)
Definition _get_api_key (st : site) (tr : list event)
    : option str * list event :=
  let tr := tr ++ [Navigate ApiPage] in
  if negb (navigate_to st ApiPage) then (None, tr) else
  let tr := tr ++ [Find KeyElement] in
  if negb (find_element st KeyElement 0) then (None, tr) else
  (get_element_text st, tr).

Definition key_truthy (api_key : option str) : bool :=
  match api_key with
  | Some s => PyStr.truthy s
  | None => false
  end.

(** The [try] block of [register_account(email, password)], after a
    successful [setup()]. *)
Definition register_body (st : site) (email password : str)
    (tr : list event) : option str * list event :=
  let tr := tr ++ [Navigate SignupPage] in
  if negb (navigate_to st SignupPage) then (None, tr) else
  let tr := tr ++ [Find EmailField; Find PasswordField] in
  if negb (find_element st EmailField 0 && find_element st PasswordField 0)
  then (None, tr ++ [Logged ERROR FormNotFound]) else
  let tr := tr ++ [TypeInto EmailField email; TypeInto PasswordField password] in
  if negb (input_text st EmailField email && input_text st PasswordField password)
  then (None, tr) else
  let tr := tr ++ [Find SubmitButton] in
  if negb (find_element st SubmitButton 0)
  then (None, tr ++ [Logged ERROR SubmitFailed]) else
  let tr := tr ++ [Click] in
  if negb (click_element st 0)
  then (None, tr ++ [Logged ERROR SubmitFailed]) else
  let tr := tr ++ [Wait 5] in
  let '(verification_code, mail_events) :=
    Imap.get_verification_code (mail st) false 5 10 in
  let tr := tr ++ map Mail mail_events in
  match verification_code with
  | None => (None, tr ++ [Logged ERROR NoCode])
  | Some code =>
      if negb (PyStr.truthy code) then (None, tr ++ [Logged ERROR NoCode]) else
      let tr := tr ++ [Find CodeField] in
      if negb (find_element st CodeField 0)
      then (None, tr ++ [Logged ERROR CodeInputFailed]) else
      let tr := tr ++ [TypeInto CodeField code] in
      if negb (input_text st CodeField code)
      then (None, tr ++ [Logged ERROR CodeInputFailed]) else
      let tr := tr ++ [Find SubmitButton] in
      if negb (find_element st SubmitButton 1)
      then (None, tr ++ [Logged ERROR VerifyFailed]) else
      let tr := tr ++ [Click] in
      if negb (click_element st 1)
      then (None, tr ++ [Logged ERROR VerifyFailed]) else
      let tr := tr ++ [Wait 5] in
      let '(api_key, tr) := _get_api_key st tr in
      if negb (key_truthy api_key)
      then (None, tr ++ [Logged ERROR NoKey])
      else (api_key, tr ++ [Logged INFO Registered])
  end.

(** [register_account]: [Some key] stands for [(True, key)], [None] for
    [(False, None)].  [cleanup()] closes what [setup()] created. *)
Definition register_account (st : site) (email password : str)
    : option str * list event :=
  if negb (browser_setup st)
  then (None, [Setup; Logged ERROR SetupFailed])
  else
    let '(r, tr) := register_body st email password [Setup] in
    (r, tr ++ [CloseBrowser; CloseMail]).

(** *** Observations *)

Definition is_mail_select (e : event) : bool :=
  match e with Mail m => ImapObserved.is_select m | _ => false end.

Definition is_close (e : event) : bool :=
  match e with CloseBrowser | CloseMail => true | _ => false end.

Definition is_email_typing (e : event) : bool :=
  match e with TypeInto EmailField _ => true | _ => false end.

Definition is_password_typing (e : event) : bool :=
  match e with TypeInto PasswordField _ => true | _ => false end.

End TavilyRegister.

(** ** [tavily_auto.py]: [TavilyAutoRegister._handle_navigation] *)

Module HomeNavigation.

Record page : Type := {
(** [page.get(home)], the script that waits for the load, the script
    that looks for the sign-up link, [signup_link.click()], [page.url] *)
get_home : result unit;
ready_script : result unit;
signup_link : result bool;
link_click : result unit;
url : result str
}.

Inductive message : Type :=
| GoingHome
| WaitingForLoad
| SearchingLink
| LinkFound
| OnSignupPage
| NotSignupPage
| LinkMissing
| NavigationFailed (e : exn).

Inductive event : Type :=
| Get
| RunReadyScript
| FindLink
| ClickLink
| ReadUrl
| Wait (seconds : Z)
| Logged (l : level) (m : message).

(** ["sign-up" in current_url.lower() or "signup" in current_url.lower()] *)
Definition is_signup_url (current_url : str) : bool :=
  PyStrIn.contains (lit "sign-up") (PyStr.lower current_url)
  || PyStrIn.contains (lit "signup") (PyStr.lower current_url).

(** The [try] block. *)
Definition navigation_body (pg : page) : result bool * list event :=
  let tr := [Logged INFO GoingHome; Get] in
  match get_home pg with
  | inl e => (inl e, tr)
  | inr _ =>
  let tr := tr ++ [Logged INFO WaitingForLoad; Wait 10; RunReadyScript] in
  match ready_script pg with
  | inl e => (inl e, tr)
  | inr _ =>
  let tr := tr ++ [Logged INFO SearchingLink; FindLink] in
  match signup_link pg with
  | inl e => (inl e, tr)
  | inr false => (inr false, tr ++ [Logged ERROR LinkMissing])
  | inr true =>
  let tr := tr ++ [Logged INFO LinkFound; ClickLink] in
  match link_click pg with
  | inl e => (inl e, tr)
  | inr _ =>
  let tr := tr ++ [Wait 5; ReadUrl] in
  match url pg with
  | inl e => (inl e, tr)
  | inr current_url =>
      if is_signup_url current_url
      then (inr true, tr ++ [Logged INFO OnSignupPage; Wait 3])
      else (inr false, tr ++ [Logged ERROR NotSignupPage])
  end end end end end.

Definition _handle_navigation (pg : page) : bool * list event :=
  match navigation_body pg with
  | (inr b, tr) => (b, tr)
  | (inl e, tr) => (false, tr ++ [Logged ERROR (NavigationFailed e)])
  end.

(** *** Observations *)

Fixpoint slept (tr : list event) : Z :=
  match tr with
  | [] => 0
  | Wait seconds :: tr' => seconds + slept tr'
  | _ :: tr' => slept tr'
  end.

Definition is_click (e : event) : bool :=
  match e with ClickLink => true | _ => false end.

End HomeNavigation.

(** ** [core/captcha_handler.py]: [CaptchaHandler._get_captcha_image] *)

Module CaptchaImage.

(** An image element and its [src] attribute. *)
Record element : Type := {
  element_id : nat;
  src : option str
}.

Record page : Type := {
(** [page.run_js(js_code)]: an element, or [null] *)
script_image : result (option element);
(** [page.eles(selectors[i])] *)
eles : nat -> result (list element)
}.

Inductive message : Type :=
| TryingScript
| ScriptFoundNothing
| TryingSelector (i : nat)
| FoundBySelector (i : nat)
| ImageFailed (e : exn).

Inductive event : Type :=
| RunScript
| Eles (i : nat)
| Logged (l : level) (m : message).

(** [src and ('captcha' in src.lower() or 'svg' in src.lower())] *)
Definition src_matches (el : element) : bool :=
  match src el with
  | Some s =>
      PyStr.truthy s
      && (PyStrIn.contains (lit "captcha") (PyStr.lower s)
          || PyStrIn.contains (lit "svg") (PyStr.lower s))
  | None => false
  end.

(** [for element in elements]: the first element that matches. *)
Fixpoint first_match (elements : list element) : option element :=
  match elements with
  | [] => None
  | el :: rest => if src_matches el then Some el else first_match rest
  end.

(** [for selector in selectors], from the selector of index [i] on:
    [Some el] when the method returns [el] from inside the loop. *)
Fixpoint try_selectors (pg : page) (selectors : list nat) (tr : list event)
    : result (option element) * list event :=
  match selectors with
  | [] => (inr None, tr)
  | i :: rest =>
      let tr := tr ++ [Logged INFO (TryingSelector i); Eles i] in
      match eles pg i with
      | inl e => (inl e, tr)
      | inr elements =>
          match first_match elements with
          | Some el => (inr (Some el), tr ++ [Logged INFO (FoundBySelector i)])
          | None => try_selectors pg rest tr
          end
      end
  end.

(** The indices of the four [selectors]. *)
Definition selectors : list nat := [0; 1; 2; 3].


(** *** Observations *)



End CaptchaImage.

(** ** [tavily_auto.py]: [main] *)

Module Program.
Section Main.

Variable py_int : str -> option Z.
Variable to_number : json -> float.

(** How [check_and_create_config()] ends: it returns, it calls
    [sys.exit(1)] itself, or it raises. *)
Inductive config_step : Type :=
| ConfigReady
| ConfigExit
| ConfigRaises (e : exn).

(** How [main()] ends: it returns, or the process exits. *)
Inductive outcome : Type :=
| Finished
| Exit (status : Z).

Inductive event : Type :=
| Started
| ConfigLoaded
| Printed (l : ConfigPrinting.config_line)
| Run (e : TavilyAutoRegister.run_event)
| Failed (e : exn).

(** [TavilyAutoRegister()]: [Config()] is built for the instance, and
    once more by [EmailVerificationHandler()]. *)
Definition TavilyAutoRegister_init (env : environ) : result unit :=
  match Config_init py_int env with
  | inl e => inl e
  | inr _ =>
      match Config_init py_int env with
      | inl e => inl e
      | inr _ => inr tt
      end
  end.

(** [main()]: [SystemExit] is not an [Exception], every other failure is
    logged and turned into [sys.exit(1)]; what [start()] returns is not
    looked at. *)
Definition main (step : config_step) (env : environ)
    (st : TavilyAutoRegister.site) (g : Random.rng)
    (f : TavilyAutoRegister.file)
    : outcome * TavilyAutoRegister.file * list event :=
  let tr := [Started] in
  match step with
  | ConfigExit => (Exit 1, f, tr)
  | ConfigRaises e => (Exit 1, f, tr ++ [Failed e])
  | ConfigReady =>
      match Config_init py_int env with
      | inl e => (Exit 1, f, tr ++ [Failed e])
      | inr config =>
          let tr := tr ++ [ConfigLoaded] in
          let '(printed, lines) := ConfigPrinting.print_config config in
          let tr := tr ++ map Printed lines in
          match printed with
          | inl e => (Exit 1, f, tr ++ [Failed e])
          | inr _ =>
              match TavilyAutoRegister_init env with
              | inl e => (Exit 1, f, tr ++ [Failed e])
              | inr _ =>
                  let '(_, f, run) :=
                    TavilyAutoRegister.start py_int to_number env st g f in
                  (Finished, f, tr ++ map Run run)
              end
          end
      end
  end.

(** *** Observations *)

Definition is_run (e : event) : bool :=
  match e with Run _ => true | _ => false end.

End Main.
End Program.

(** ** Concrete inputs used to run the model *)

Module Examples.

(** A temp-mail configuration with a domain written with its ['@']. *)
Definition example_environ : environ :=
  <["TEMP_MAIL"%string := lit "box"]>
    (<["DOMAIN"%string := lit "@example.com"]> ∅).

(** A complete IMAP configuration, selected by [TEMP_MAIL=null]. *)
Definition imap_environ : environ :=
  <["TEMP_MAIL"%string := lit "null"]>
    (<["IMAP_SERVER"%string := lit "imap.example.com"]>
       (<["IMAP_PORT"%string := lit "993"]>
          (<["IMAP_USER"%string := lit "user@example.com"]>
             (<["IMAP_PASS"%string := lit "secret"]> ∅)))).


(** An IMAP mailbox whose only matching message, number 7, carries a
    code. *)
Definition imap_server : Imap.server :=
  {| Imap.login_ok := true;
     Imap.select_reply := fun _ => inr tt;
     Imap.search_reply := fun _ => inr (lit "7");
     Imap.fetch_reply := fun _ _ => inr (Some (lit "Your code is 728193.")) |}.

(** A mailbox with one mail carrying a code, on a server that refuses
    every [DELETE]. *)
Definition refusing_world : TempMail.world :=
  {| TempMail.replies := fun k =>
       match k with
       | 0 => TempMail.Response 200 (inr (JArr [JStr (lit "m1")]))
       | 1 => TempMail.Response 200
                (inr (JObj [(lit "text", JStr (lit "Your code is 728193."))]))
       | 3 => TempMail.NoReply OSError
       | _ => TempMail.Response 500 (inl ValueError)
       end;
     TempMail.trace := [] |}.

(** A run in which every phase succeeds and the keys endpoint answers
    with one key, but [accounts.csv] cannot be opened. *)
Definition unwritable_site : TavilyAutoRegister.site :=
  {| TavilyAutoRegister.browser_start := true;
     TavilyAutoRegister.captcha_handler_init := inr tt;
     TavilyAutoRegister.handle_navigation := true;
     TavilyAutoRegister.fill_registration_form := fun _ _ => true;
     TavilyAutoRegister.run_js :=
       inr (KeyScript.FetchJson
              (JArr [JObj [(lit "key", JStr (lit "tvly-abc123"))]]));
     TavilyAutoRegister.strftime := lit "2024-01-01 00:00:00";
     TavilyAutoRegister.open_raises := true |}.

(** The same run with an endpoint that returns no key. *)
Definition keyless_site : TavilyAutoRegister.site :=
  {| TavilyAutoRegister.browser_start := true;
     TavilyAutoRegister.captcha_handler_init := inr tt;
     TavilyAutoRegister.handle_navigation := true;
     TavilyAutoRegister.fill_registration_form := fun _ _ => true;
     TavilyAutoRegister.run_js := inr (KeyScript.FetchJson (JArr []));
     TavilyAutoRegister.strftime := lit "2024-01-01 00:00:00";
     TavilyAutoRegister.open_raises := false |}.

(** [ToNumber] is irrelevant on these inputs. *)
Definition to_number_zero (v : json) : float := 0%float.

(** An empty mailbox: every request is answered with an empty list. *)
Definition empty_mailbox : TempMail.world :=
  {| TempMail.replies := fun _ => TempMail.Response 200 (inr (JArr []));
     TempMail.trace := [] |}.

(** An IMAP mailbox with three matching messages; none carries a code. *)
Definition imap_server_many : Imap.server :=
  {| Imap.login_ok := true;
     Imap.select_reply := fun _ => inr tt;
     Imap.search_reply := fun _ => inr (lit "3 5 12");
     Imap.fetch_reply := fun _ _ => inr (Some (lit "Welcome!")) |}.

(** A temp-mail configuration that also names an IMAP server, without a
    password for it. *)
Definition mixed_environ : environ :=
  <["TEMP_MAIL"%string := lit "box"]>
    (<["IMAP_SERVER"%string := lit "imap.example.com"]> ∅).

(** A configuration whose domain is wrapped in several ['@']. *)
Definition wrapped_environ : environ :=
  <["TEMP_MAIL"%string := lit "box"]>
    (<["DOMAIN"%string := lit "@@example.com@"]> ∅).

(** A captcha round in which everything works and the check passes. *)
Definition solved_round : CaptchaLoop.round :=
  {| CaptchaLoop.captcha_image := true;
     CaptchaLoop.ocr :=
       {| Captcha.get_screenshot := inr tt;
          Captcha.read_image := inr tt;
          Captcha.classification := inr (lit "aB3-dE9") |};
     CaptchaLoop.input_captcha := fun _ => true;
     CaptchaLoop.click_continue := true;
     CaptchaLoop.verification := inr true |}.

(** A round whose recognition leaves no letter or digit. *)
Definition blank_round : CaptchaLoop.round :=
  {| CaptchaLoop.captcha_image := true;
     CaptchaLoop.ocr :=
       {| Captcha.get_screenshot := inr tt;
          Captcha.read_image := inr tt;
          Captcha.classification := inr (lit "?!") |};
     CaptchaLoop.input_captcha := fun _ => true;
     CaptchaLoop.click_continue := true;
     CaptchaLoop.verification := inr true |}.

(** A password page on which everything is found and works. *)
Definition password_page : PasswordInput.page :=
  {| PasswordInput.config_password := Some (lit "aB3@aB3@aB3@");
     PasswordInput.ele := fun _ => inr true;
     PasswordInput.element_input := fun _ _ => inr tt;
     PasswordInput.continue_script := inr true;
     PasswordInput.continue_click := inr tt |}.

(** The same page without an element [#password]: the field is found by
    the first alternative selector. *)
Definition fallback_page : PasswordInput.page :=
  {| PasswordInput.config_password := Some (lit "aB3@aB3@aB3@");
     PasswordInput.ele := fun how =>
       match how with
       | PasswordInput.ById => inr false
       | _ => inr true
       end;
     PasswordInput.element_input := fun _ _ => inr tt;
     PasswordInput.continue_script := inr true;
     PasswordInput.continue_click := inr tt |}.

(** A sign-up page on which every step works at once. *)
Definition signup_form : RegistrationForm.form :=
  {| RegistrationForm.email_script := inr true;
     RegistrationForm.email_clear := inr tt;
     RegistrationForm.email_input := fun _ => inr tt;
     RegistrationForm.captcha_rounds := fun _ => solved_round;
     RegistrationForm.password_page := password_page |}.

(** The page of the older flow with a form that cannot be typed into. *)
Definition legacy_site : TavilyRegister.site :=
  {| TavilyRegister.browser_setup := true;
     TavilyRegister.navigate_to := fun _ => true;
     TavilyRegister.find_element := fun _ _ => true;
     TavilyRegister.input_text := fun _ _ => false;
     TavilyRegister.click_element := fun _ => true;
     TavilyRegister.get_element_text := Some (lit "tvly-abc123");
     TavilyRegister.mail := imap_server |}.


End Examples.

(** * Properties *)

(** ** Code extraction *)

Module CodeRegexFacts.
Import PyChar CodeRegex.

Lemma digit_is_word c : is_decimal c = true -> is_word c = true.
Proof.
  unfold is_word, isalnum, is_decimal. intros ->.
  rewrite orb_true_r. reflexivity.
Qed.

Lemma take_digits_Some n s d r :
  take_digits n s = Some (d, r) ->
  s = d ++ r /\ length d = n /\ Forall (fun c => is_decimal c = true) d.
Proof.
  revert s d r. induction n as [|n IH]; intros s d r H; simpl in H.
  - injection H as <- <-. repeat split. constructor.
  - destruct s as [|c s]; [discriminate|].
    destruct (is_decimal c) eqn:Hc; [|discriminate].
    destruct (take_digits n s) as [[d' r']|] eqn:Ht; [|discriminate].
    injection H as <- <-.
    destruct (IH _ _ _ Ht) as (-> & <- & Hd).
    repeat split. constructor; assumption.
Qed.

Lemma take_digits_complete d r :
  Forall (fun c => is_decimal c = true) d ->
  take_digits (length d) (d ++ r) = Some (d, r).
Proof.
  induction 1 as [|c d Hc _ IH]; simpl; [reflexivity|].
  rewrite Hc, IH. reflexivity.
Qed.

Lemma head_digits d r :
  d <> [] -> Forall (fun c => is_decimal c = true) d ->
  word_at (head (d ++ r)) = true.
Proof.
  intros Hne Hd. destruct d as [|c d]; [congruence|].
  simpl. apply digit_is_word. inversion Hd; assumption.
Qed.

Lemma last_digits (d : str) :
  d <> [] -> Forall (fun c => is_decimal c = true) d ->
  word_at (last d) = true.
Proof.
  intros Hne Hd.
  destruct (last d) as [c|] eqn:Hl.
  - simpl. apply digit_is_word.
    rewrite Forall_forall in Hd. apply Hd.
    apply last_Some_elem_of. exact Hl.
  - apply last_None in Hl. congruence.
Qed.

Lemma six_nonempty (d : str) : length d = 6 -> d <> [].
Proof. destruct d; simpl; congruence. Qed.

Lemma agree_temp_mail : agree lookbehind_ok is_at_or_dot.
Proof.
  intros [c|] Hw; simpl in *; [|tauto].
  assert (is_ascii_letter c = false) as Hl.
  { unfold is_word, isalnum in Hw.
    destruct (is_ascii_letter c); [simpl in Hw; discriminate | reflexivity]. }
  unfold is_at_or_dot. rewrite Hl. simpl. rewrite negb_true_iff.
  split; [intros; split; assumption | intros [_ H]; exact H].
Qed.

Lemma agree_imap : agree no_lookbehind none_excluded.
Proof.
  intros [c|] Hw; simpl in *; unfold no_lookbehind, none_excluded; tauto.
Qed.

Lemma free_side_not_word excl nb : free_side excl nb -> word_at nb = false.
Proof. destruct nb; simpl; tauto. Qed.

Lemma free_right nb : free_side none_excluded nb <-> word_at nb = false.
Proof. destruct nb; simpl; unfold none_excluded; tauto. Qed.

Section Search.
Variables (lb : option ascii -> bool) (excl : ascii -> bool).
Hypothesis Hagree : agree lb excl.

Lemma match_here_Some prev s d :
  match_here lb prev s = Some d ->
  exists post, s = d ++ post /\ isolated excl prev d (head post).
Proof.
  unfold match_here. intros H.
  destruct (lb prev && at_boundary prev (head s)) eqn:Hb; [|discriminate].
  destruct (take_digits 6 s) as [[d' rest]|] eqn:Ht; [|discriminate].
  destruct (at_boundary (last d') (head rest)) eqn:Hr; [|discriminate].
  injection H as <-.
  apply take_digits_Some in Ht as (-> & Hlen & Hd).
  apply andb_true_iff in Hb as [Hlb Hbl].
  pose proof (six_nonempty _ Hlen) as Hne.
  unfold at_boundary in Hbl, Hr.
  rewrite (head_digits _ rest Hne Hd) in Hbl.
  rewrite (last_digits _ Hne Hd) in Hr.
  assert (word_at prev = false) as Hp by (destruct (word_at prev); auto).
  assert (word_at (head rest) = false) as Hn
    by (destruct (word_at (head rest)); auto).
  exists rest. split; [reflexivity|].
  repeat split; auto.
  - apply Hagree; assumption.
  - apply free_right; assumption.
Qed.

Lemma match_here_complete prev d post :
  isolated excl prev d (head post) ->
  match_here lb prev (d ++ post) = Some d.
Proof.
  intros (Hlen & Hd & Hl & Hr).
  pose proof (six_nonempty _ Hlen) as Hne.
  pose proof (free_side_not_word _ _ Hl) as Hp.
  apply free_right in Hr.
  pose proof (take_digits_complete _ post Hd) as Ht.
  rewrite Hlen in Ht.
  unfold match_here, at_boundary.
  rewrite Ht, (head_digits _ post Hne Hd), Hp.
  apply Hagree in Hl; [|assumption]. rewrite Hl.
  rewrite (last_digits _ Hne Hd), Hr. reflexivity.
Qed.

Lemma neighbour_cons prev c pre :
  neighbour prev (c :: pre) = neighbour (Some c) pre.
Proof.
  unfold neighbour. rewrite last_cons. destruct (last pre); reflexivity.
Qed.

Lemma search_from_eq prev s :
  search_from lb prev s =
  match match_here lb prev s with
  | Some d => Some d
  | None =>
      match s with
      | [] => None
      | c :: s' => search_from lb (Some c) s'
      end
  end.
Proof. destruct s; reflexivity. Qed.

Lemma found_here prev s d :
  match_here lb prev s = Some d ->
  exists pre post,
    s = pre ++ d ++ post
    /\ isolated excl (neighbour prev pre) d (head post)
    /\ forall pre' d' post',
         s = pre' ++ d' ++ post' ->
         isolated excl (neighbour prev pre') d' (head post') ->
         length pre <= length pre'.
Proof.
  intros Hm. apply match_here_Some in Hm as (post & Hs & Hiso).
  exists [], post. split; [exact Hs|]. split; [exact Hiso|].
  intros; simpl; lia.
Qed.

Lemma search_from_spec s : forall prev,
  match search_from lb prev s with
  | Some d =>
      exists pre post,
        s = pre ++ d ++ post
        /\ isolated excl (neighbour prev pre) d (head post)
        /\ forall pre' d' post',
             s = pre' ++ d' ++ post' ->
             isolated excl (neighbour prev pre') d' (head post') ->
             length pre <= length pre'
  | None =>
      forall pre d post,
        s = pre ++ d ++ post ->
        ~ isolated excl (neighbour prev pre) d (head post)
  end.
Proof.
  induction s as [|c s IH]; intros prev; rewrite search_from_eq.
  - destruct (match_here lb prev []) as [d|] eqn:Hm.
    + apply found_here. assumption.
    + intros pre d post Hs Hiso.
      symmetry in Hs. apply app_eq_nil in Hs as [-> Hs].
      apply app_eq_nil in Hs as [-> _].
      destruct Hiso as (Hlen & _). simpl in Hlen. lia.
  - destruct (match_here lb prev (c :: s)) as [d|] eqn:Hm.
    + apply found_here. assumption.
    + specialize (IH (Some c)).
      destruct (search_from lb (Some c) s) as [d|].
      * destruct IH as (pre & post & -> & Hiso & Hmin).
        exists (c :: pre), post. split; [reflexivity|].
        split; [rewrite neighbour_cons; assumption|].
        intros pre' d' post' Hs' Hiso'.
        destruct pre' as [|c' pre'].
        -- simpl in Hs'. unfold neighbour in Hiso'. simpl in Hiso'.
           rewrite Hs' in Hm.
           rewrite (match_here_complete _ _ _ Hiso') in Hm. discriminate.
        -- simpl in Hs'. injection Hs' as <- Hs'.
           rewrite neighbour_cons in Hiso'.
           simpl. apply le_n_S. eapply Hmin; eassumption.
      * intros pre d post Hs Hiso.
        destruct pre as [|c' pre].
        -- simpl in Hs. unfold neighbour in Hiso. simpl in Hiso.
           rewrite Hs in Hm.
           rewrite (match_here_complete _ _ _ Hiso) in Hm. discriminate.
        -- simpl in Hs. injection Hs as <- Hs.
           rewrite neighbour_cons in Hiso.
           eapply IH; eassumption.
Qed.

Lemma search_leftmost text :
  leftmost_isolated excl text (search_from lb None text).
Proof.
  pose proof (search_from_spec text None) as H.
  unfold leftmost_isolated, occurs_isolated.
  assert (Hn : forall pre, neighbour None pre = last pre)
    by (intros pre; unfold neighbour; destruct (last pre); reflexivity).
  destruct (search_from lb None text) as [d|].
  - destruct H as (pre & post & Hs & Hiso & Hmin).
    exists pre, post. rewrite Hn in Hiso.
    split; [split; assumption|].
    intros pre' d' post' [Hs' Hiso']. eapply Hmin; [eassumption|].
    rewrite Hn. assumption.
  - intros pre d post [Hs Hiso]. eapply H; [eassumption|].
    rewrite Hn. assumption.
Qed.

End Search.

End CodeRegexFacts.

(** C1 (as stated, refuted): on the body of the specification's own
    example the temp-mail extractor returns ["482913"], the first isolated
    six-digit run, and not ["728193"]. *)
Lemma extraction_example_returns_first_run :
  CodeRegex.search_temp_mail (lit "...order 482913 confirmed, code: 728193...")
    = Some (lit "482913")
  /\ CodeRegex.search_temp_mail (lit "...order 482913 confirmed, code: 728193...")
    <> Some (lit "728193").
Proof. split; [reflexivity | discriminate]. Qed.

(** C1 (amended): for every mail body the temp-mail extractor returns the
    leftmost run of six decimal digits whose left neighbour, if any, is not
    a letter, digit, underscore, ['@'] or ['.'] and whose right neighbour,
    if any, is not a letter, digit or underscore, and returns no match when
    there is no such run; the IMAP extractor does the same without the
    ['@']/['.'] exclusion.  On ["...order 482913 confirmed, code:
    728193..."] the result is ["482913"]; on ["id12345678"] there is no
    match. *)
Theorem extraction_returns_leftmost_isolated_run :
  (forall text,
     CodeRegex.leftmost_isolated CodeRegex.is_at_or_dot text
       (CodeRegex.search_temp_mail text))
  /\ (forall text,
        CodeRegex.leftmost_isolated CodeRegex.none_excluded text
          (CodeRegex.search_imap text))
  /\ CodeRegex.search_temp_mail
       (lit "...order 482913 confirmed, code: 728193...") = Some (lit "482913")
  /\ CodeRegex.search_temp_mail (lit "id12345678") = None
  /\ CodeRegex.search_imap (lit "id12345678") = None.
Proof.
  split; [|split; [|repeat split]].
  - intros text. apply CodeRegexFacts.search_leftmost.
    exact CodeRegexFacts.agree_temp_mail.
  - intros text. apply CodeRegexFacts.search_leftmost.
    exact CodeRegexFacts.agree_imap.
Qed.

(** ** The captcha recognizer *)

Module CaptchaFacts.
Import Captcha.

Lemma keep_alnum_cons c raw :
  keep_alnum (c :: raw) =
  if PyChar.isalnum c then c :: keep_alnum raw else keep_alnum raw.
Proof. reflexivity. Qed.

Lemma keep_alnum_all raw :
  Forall (fun c => PyChar.isalnum c = true) (keep_alnum raw).
Proof.
  induction raw as [|c raw IH]; [constructor|].
  rewrite keep_alnum_cons. destruct (PyChar.isalnum c) eqn:Hc; auto.
Qed.

Lemma keep_alnum_sublist raw : sublist (keep_alnum raw) raw.
Proof.
  induction raw as [|c raw IH]; [constructor|].
  rewrite keep_alnum_cons. destruct (PyChar.isalnum c).
  - apply sublist_skip. exact IH.
  - apply sublist_cons. exact IH.
Qed.

(** Nothing alphanumeric is dropped: every alphanumeric subsequence of
    the raw text survives the filter. *)
Lemma keep_alnum_greatest l raw :
  sublist l raw -> Forall (fun c => PyChar.isalnum c = true) l ->
  sublist l (keep_alnum raw).
Proof.
  induction 1 as [|x l1 l2 _ IH|x l1 l2 _ IH]; intros Hall.
  - constructor.
  - inversion Hall as [|? ? Hx Hl]; subst.
    rewrite keep_alnum_cons, Hx. apply sublist_skip. auto.
  - rewrite keep_alnum_cons. destruct (PyChar.isalnum x).
    + apply sublist_cons. auto.
    + auto.
Qed.

Lemma warnings_are_warnings filtered :
  Forall (fun l => log_level l = WARNING) (warnings filtered).
Proof.
  unfold warnings. apply Forall_app. split.
  - destruct (Nat.eqb _ 6); repeat constructor.
  - destruct (existsb _ _); repeat constructor.
Qed.

End CaptchaFacts.

(** C8: when the screenshot is taken and classified, [_recognize_captcha]
    returns the raw OCR text with exactly its non-alphanumeric characters
    removed (["a1 B2#c3"] gives ["a1B2c3"]), whatever the length of the
    filtered text and whether or not it has an uppercase letter; a length
    other than 6 and a missing uppercase letter each add one WARNING log
    line and no log line of the call is an ERROR. *)
Theorem recognizer_filters_and_never_rejects :
  forall (Elt : Type) (captcha_img : Elt) (raw : str),
    let env := {| Captcha.get_screenshot := inr tt;
                  Captcha.read_image := inr tt;
                  Captcha.classification := inr raw |} in
    let filtered := Captcha.keep_alnum raw in
    let out := Captcha._recognize_captcha (Some captcha_img) env in
    fst out = Some filtered
    /\ sublist filtered raw
    /\ Forall (fun c => PyChar.isalnum c = true) filtered
    /\ (forall l, sublist l raw ->
          Forall (fun c => PyChar.isalnum c = true) l -> sublist l filtered)
    /\ Forall (fun l => Captcha.log_level l <> ERROR) (snd out)
    /\ (length filtered <> 6 <->
          Captcha.LengthIsNotSix (length filtered) ∈ snd out)
    /\ (existsb PyChar.isupper filtered = false <->
          Captcha.NoUppercaseLetter ∈ snd out)
    /\ Captcha.keep_alnum (lit "a1 B2#c3") = lit "a1B2c3"
    /\ fst (Captcha._recognize_captcha (Some captcha_img)
              {| Captcha.get_screenshot := inr tt;
                 Captcha.read_image := inr tt;
                 Captcha.classification := inr (lit "a-b") |}) = Some (lit "ab").
Proof.
  intros Elt captcha_img raw env filtered out.
  split; [reflexivity|].
  split; [apply CaptchaFacts.keep_alnum_sublist|].
  split; [apply CaptchaFacts.keep_alnum_all|].
  split; [intros l; apply CaptchaFacts.keep_alnum_greatest|].
  assert (Hout : snd out =
    [Captcha.ImageSaved; Captcha.RawResult raw; Captcha.FilteredResult filtered]
    ++ Captcha.warnings filtered ++ [Captcha.FinalResult filtered])
    by reflexivity.
  rewrite Hout. clear Hout out.
  split; [|split; [|split; [|split; reflexivity]]].
  - repeat (apply Forall_cons; split; [discriminate|]).
    apply Forall_app. split.
    + eapply Forall_impl; [apply CaptchaFacts.warnings_are_warnings|].
      intros l Hl. simpl in Hl. rewrite Hl. discriminate.
    + repeat constructor. discriminate.
  - unfold Captcha.warnings.
    destruct (Nat.eqb (length filtered) 6) eqn:Hlen;
      [apply Nat.eqb_eq in Hlen | apply Nat.eqb_neq in Hlen];
      destruct (existsb PyChar.isupper filtered); simpl;
      rewrite ?elem_of_cons, elem_of_nil;
      intuition (try discriminate; try congruence; try lia).
  - unfold Captcha.warnings.
    destruct (existsb PyChar.isupper filtered) eqn:Hup;
      destruct (Nat.eqb (length filtered) 6); simpl;
      rewrite ?elem_of_cons, elem_of_nil;
      intuition (try discriminate; try congruence; try lia).
Qed.

(** ** The random source *)

Module RandomFacts.
Import Random.

Lemma choice_returns {A} (seq : list A) (g : rng) :
  seq <> [] ->
  exists c, choice seq g = (inr c, advance g) /\ c ∈ seq.
Proof.
  intros Hne. destruct seq as [|a seq]; [congruence|].
  unfold choice, bind, randbelow.
  assert (Hlt : g 0 mod length (a :: seq) < length (a :: seq))
    by (apply Nat.mod_upper_bound; simpl; lia).
  destruct (lookup_lt_is_Some_2 _ _ Hlt) as [c Hc].
  exists c. rewrite Hc. split; [reflexivity|].
  eapply list_elem_of_lookup_2. exact Hc.
Qed.

Lemma choices_return {A} (n : nat) (seq : list A) : forall g,
  seq <> [] ->
  exists cs,
    choices n seq g = (inr cs, advance_by n g)
    /\ length cs = n /\ Forall (fun c => c ∈ seq) cs.
Proof.
  induction n as [|n IH]; intros g Hne.
  - exists []. repeat split. constructor.
  - destruct (choice_returns seq g Hne) as (c & Hc & Hin).
    destruct (IH (advance g) Hne) as (cs & Hcs & Hlen & Hall).
    exists (c :: cs). simpl. unfold bind at 1. rewrite Hc.
    unfold bind at 1. rewrite Hcs. unfold ret.
    repeat split; simpl; auto.
Qed.

Lemma swap_items_permutes {A} (i j : nat) (x : list A) :
  i < length x -> j < length x ->
  exists y, swap_items i j x = inr y /\ y ≡ₚ x.
Proof.
  intros Hi Hj.
  destruct (lookup_lt_is_Some_2 _ _ Hi) as [xi Hxi].
  destruct (lookup_lt_is_Some_2 _ _ Hj) as [xj Hxj].
  unfold swap_items. rewrite Hxi, Hxj.
  eexists. split; [reflexivity|].
  apply Permutation_insert_swap; assumption.
Qed.

Lemma shuffle_from_permutes {A} (i : nat) : forall (x : list A) g,
  i < length x \/ i = 0 ->
  exists y g', shuffle_from i x g = (inr y, g') /\ y ≡ₚ x.
Proof.
  induction i as [|i IH]; intros x g Hi.
  - exists x, g. split; reflexivity.
  - destruct Hi as [Hi|Hi]; [|discriminate].
    assert (Hj : g 0 mod (S i + 1) < length x).
    { pose proof (Nat.mod_upper_bound (g 0) (S i + 1)). lia. }
    destruct (swap_items_permutes (S i) _ x Hi Hj) as (x' & Hsw & Hperm).
    destruct (IH x' (advance g)) as (y & g' & Hy & Hperm').
    { left. rewrite (Permutation_length Hperm). lia. }
    exists y, g'. split; [|etransitivity; eassumption].
    cbn [shuffle_from]. unfold bind, randbelow, lift. cbv beta iota.
    rewrite Hsw. exact Hy.
Qed.

Lemma shuffle_permutes {A} (x : list A) g :
  exists y g', shuffle x g = (inr y, g') /\ y ≡ₚ x.
Proof.
  unfold shuffle. apply shuffle_from_permutes.
  destruct x; simpl; [right; reflexivity | left; lia].
Qed.

End RandomFacts.

(** ** Credentials *)

Module CredentialFacts.
Import Random Credentials.

Lemma nonempty_lit (s : str) : 0 < length s -> s <> [].
Proof. destruct s; simpl; [lia | discriminate]. Qed.

Ltac alphabet_nonempty := apply nonempty_lit; vm_compute; lia.



Lemma characters_are_alnum :
  Forall (fun c => PyChar.is_ascii_letter c || PyChar.is_ascii_digit c = true)
    (PyString.ascii_letters ++ PyString.digits).
Proof. vm_compute. repeat constructor. Qed.

End CredentialFacts.

(** C5: for every state of the random source [generate_password] returns
    a password of length 12 that contains a character of
    [ascii_lowercase], one of [ascii_uppercase], one of [digits] and one of
    the symbols ["@#$%"]; the password is a permutation of those four
    guaranteed characters followed by 8 characters of the full alphabet. *)
Theorem generate_password_composition :
  forall g : Random.rng,
    exists (password : str) (g' : Random.rng) (c1 c2 c3 c4 : ascii) (more : str),
      Credentials.generate_password g = (inr password, g')
      /\ length password = 12
      /\ c1 ∈ PyString.ascii_lowercase /\ c1 ∈ password
      /\ c2 ∈ PyString.ascii_uppercase /\ c2 ∈ password
      /\ c3 ∈ PyString.digits /\ c3 ∈ password
      /\ c4 ∈ Credentials.special /\ c4 ∈ password
      /\ length more = 8
      /\ Forall (fun c => c ∈ PyString.ascii_lowercase ++ PyString.ascii_uppercase
                              ++ PyString.digits ++ Credentials.special) more
      /\ password ≡ₚ [c1; c2; c3; c4] ++ more.
Proof.
  intros g. unfold Credentials.generate_password. cbv zeta.
  destruct (RandomFacts.choice_returns PyString.ascii_lowercase g)
    as (c1 & H1 & Hin1); [CredentialFacts.alphabet_nonempty|].
  set (g1 := Random.advance g) in *.
  destruct (RandomFacts.choice_returns PyString.ascii_uppercase g1)
    as (c2 & H2 & Hin2); [CredentialFacts.alphabet_nonempty|].
  set (g2 := Random.advance g1) in *.
  destruct (RandomFacts.choice_returns PyString.digits g2)
    as (c3 & H3 & Hin3); [CredentialFacts.alphabet_nonempty|].
  set (g3 := Random.advance g2) in *.
  destruct (RandomFacts.choice_returns Credentials.special g3)
    as (c4 & H4 & Hin4); [CredentialFacts.alphabet_nonempty|].
  set (g4 := Random.advance g3) in *.
  set (all_chars := PyString.ascii_lowercase ++ PyString.ascii_uppercase
                      ++ PyString.digits ++ Credentials.special).
  destruct (RandomFacts.choices_return 8 all_chars g4)
    as (more & Hm & Hlen & Hall); [CredentialFacts.alphabet_nonempty|].
  destruct (RandomFacts.shuffle_permutes ([c1; c2; c3; c4] ++ more)
              (Random.advance_by 8 g4)) as (password & g' & Hs & Hperm).
  exists password, g', c1, c2, c3, c4, more.
  assert (Hrun : Random.bind (Random.choice PyString.ascii_lowercase)
            (fun c1 => Random.bind (Random.choice PyString.ascii_uppercase)
            (fun c2 => Random.bind (Random.choice PyString.digits)
            (fun c3 => Random.bind (Random.choice Credentials.special)
            (fun c4 => Random.bind
               (Random.choices (12 - length [c1; c2; c3; c4]) all_chars)
            (fun more => Random.bind
               (Random.shuffle ([c1; c2; c3; c4] ++ more))
            (fun password => Random.ret password)))))) g
          = (inr password, g')).
  { unfold Random.bind at 1. rewrite H1.
    unfold Random.bind at 1. rewrite H2.
    unfold Random.bind at 1. rewrite H3.
    unfold Random.bind at 1. rewrite H4.
    unfold Random.bind at 1.
    change (12 - length [c1; c2; c3; c4]) with 8. rewrite Hm.
    unfold Random.bind at 1. rewrite Hs. reflexivity. }
  split; [exact Hrun|].
  assert (Hmem : forall c, c ∈ [c1; c2; c3; c4] ++ more -> c ∈ password)
    by (intros c Hc; rewrite Hperm; exact Hc).
  split.
  { rewrite (Permutation_length Hperm), length_app, Hlen. reflexivity. }
  repeat split; auto; apply Hmem; rewrite elem_of_app; left;
    rewrite !elem_of_cons; auto.
Qed.



(** ** Configuration *)

Module ConfigFacts.

Lemma int_env_error py_int env key dflt e :
  int_env py_int env key dflt = inl e -> e = ValueError.
Proof.
  unfold int_env. destruct (py_int _); [discriminate|]. congruence.
Qed.

Lemma check_all_error self keys e :
  check_all self keys = inl e -> e = ValueError.
Proof.
  induction keys as [|k keys IH]; simpl; [discriminate|].
  destruct (check_is_valid _); [exact IH | congruence].
Qed.

Lemma imap_branch_fails self : check_all self imap_configs = inl ValueError.
Proof.
  unfold imap_configs. simpl.
  destruct (check_is_valid (of_getenv (IMAP_SERVER self))); reflexivity.
Qed.

Lemma null_is_null : is_not_null (Some (lit "null")) = false.
Proof. reflexivity. Qed.

Lemma check_config_null self :
  TEMP_MAIL self = Some (lit "null") -> check_config self = inl ValueError.
Proof.
  intros Hn. unfold check_config. rewrite Hn, null_is_null.
  destruct (check_all self required_configs) as [e|[]] eqn:Hreq.
  - apply check_all_error in Hreq. congruence.
  - apply imap_branch_fails.
Qed.

End ConfigFacts.

(** C10: in every environment where [TEMP_MAIL] is the string ["null"],
    whatever [int] does, building [Config] raises [ValueError]:
    [check_is_valid] rejects every integer, [IMAP_PORT] is an integer, and
    so the IMAP branch of [check_config] fails for every configuration. *)
Theorem null_temp_mail_raises_ValueError :
  forall (py_int : str -> option Z) (env : environ),
    env !! "TEMP_MAIL"%string = Some (lit "null") ->
    Config_init py_int env = inl ValueError
    /\ (forall z, check_is_valid (PyInt z) = false)
    /\ (forall self : Config, check_all self imap_configs = inl ValueError).
Proof.
  intros py_int env Hnull.
  split; [|split; [reflexivity | apply ConfigFacts.imap_branch_fails]].
  unfold Config_init.
  destruct (int_env py_int env "BROWSER_WIDTH" "1920") as [e|width] eqn:Hw.
  { apply ConfigFacts.int_env_error in Hw. congruence. }
  destruct (int_env py_int env "BROWSER_HEIGHT" "1080") as [e|height] eqn:Hh.
  { apply ConfigFacts.int_env_error in Hh. congruence. }
  destruct (int_env py_int env "IMAP_PORT" "993") as [e|port] eqn:Hp.
  { apply ConfigFacts.int_env_error in Hp. congruence. }
  cbv zeta. rewrite ConfigFacts.check_config_null; [reflexivity|].
  simpl. unfold getenv. exact Hnull.
Qed.

Lemma null_temp_mail_raises_ValueError_witness :
  Examples.imap_environ !! "TEMP_MAIL"%string = Some (lit "null")
  /\ Config_init PyBuiltin.int_decimal Examples.imap_environ = inl ValueError.
Proof.
  assert (H : Examples.imap_environ !! "TEMP_MAIL"%string = Some (lit "null"))
    by (vm_compute; reflexivity).
  split; [exact H|].
  exact (proj1 (null_temp_mail_raises_ValueError PyBuiltin.int_decimal Examples.imap_environ H)).
Defined.

(** ** The retry loop *)

Module RetryLoopFacts.
Import RetryLoop RetryTrace.

Lemma count_events_app {E} (p : E -> bool) (a b : list E) :
  count_events p (a ++ b) = count_events p a + count_events p b.
Proof. unfold count_events. rewrite List.filter_app, length_app. reflexivity. Qed.

Section Loop.
Context {S : Type}.
Variable fetch : S -> result (option str) * S.
Variables max_retries retry_interval : Z.

Lemma state_before_shift k s :
  state_before fetch k (snd (fetch s)) = state_before fetch (Datatypes.S k) s.
Proof.
  induction k as [|k IH]; [reflexivity|].
  simpl in *. rewrite IH. reflexivity.
Qed.

Lemma yield_shift k s :
  yield fetch k (snd (fetch s)) = yield fetch (Datatypes.S k) s.
Proof. unfold yield. rewrite state_before_shift. reflexivity. Qed.





End Loop.

End RetryLoopFacts.



(** ** The temp-mail poller *)

Module TempMailFacts.
Import TempMail.

Lemma deletes_sent_bounds n : forall r,
  deletes_sent n r <= n /\ (0 < n -> 1 <= deletes_sent n r).
Proof.
  induction n as [|n IH]; intros r; simpl; [lia|].
  destruct (deleted_ok (r 0)); [lia|].
  destruct (IH (fun k => r (S k))). lia.
Qed.

(** One iteration of the cleanup loop, by the reply it gets. *)
Lemma cleanup_attempt_cases id w :
  cleanup_attempt id w =
  match replies w 0 with
  | NoReply _ =>
      (inr None,
       {| replies := fun k => replies w (S k);
          trace := (trace w ++ [DeleteRequest id]) ++ [Log ERROR "delete raised"] |})
  | Response status_code _ =>
      if (status_code =? 200)%Z then
        (inr (Some true),
         {| replies := fun k => replies w (S k);
            trace := (trace w ++ [DeleteRequest id]) ++ [Log INFO "mail deleted"] |})
      else
        (inr None,
         {| replies := fun k => replies w (S k);
            trace := ((trace w ++ [DeleteRequest id])
                        ++ [Log WARNING "delete failed"]) ++ [Sleep 1] |})
  end.
Proof.
  unfold cleanup_attempt, try_except, bind, requests_send, request, bind,
    lift, ret, logging, sleep, emit.
  cbv beta iota.
  destruct (replies w 0) as [e|status_code body]; [reflexivity|].
  cbn [fst]. destruct (status_code =? 200)%Z; reflexivity.
Qed.

Lemma cleanup_loop_trace n : forall id w,
  exists b w' tail,
    _cleanup_mail_loop n id w = (inr b, w')
    /\ trace w' = trace w ++ tail
    /\ count_events is_delete tail = deletes_sent n (replies w)
    /\ only_deletes_of id tail
    /\ (0 < n -> head tail = Some (DeleteRequest id)).
Proof.
  induction n as [|n IH]; intros id w.
  - exists false, w, []. rewrite app_nil_r.
    repeat split; [constructor | intros; lia].
  - cbn [_cleanup_mail_loop deletes_sent]. unfold bind at 1.
    rewrite cleanup_attempt_cases. unfold deleted_ok.
    destruct (replies w 0) as [e|status_code body].
    + match goal with
      | |- context [_cleanup_mail_loop n id ?w1] =>
          destruct (IH id w1) as (b & w' & tail & Hrun & Htr & Hcnt & Hall & _)
      end.
      exists b, w', ([DeleteRequest id; Log ERROR "delete raised"] ++ tail).
      rewrite Hrun, Htr. cbn [trace replies] in *.
      split; [reflexivity|]. split; [rewrite <- !app_assoc; reflexivity|].
      split; [rewrite RetryLoopFacts.count_events_app, Hcnt; reflexivity|].
      split; [|reflexivity].
      apply Forall_app. split; [|exact Hall].
      repeat constructor; simpl; discriminate.
    + destruct (status_code =? 200)%Z.
      * eexists true, _, [DeleteRequest id; Log INFO "mail deleted"].
        split; [reflexivity|]. cbn [trace].
        split; [rewrite <- !app_assoc; reflexivity|].
        split; [reflexivity|]. split; [|reflexivity].
        repeat constructor; simpl; discriminate.
      * match goal with
        | |- context [_cleanup_mail_loop n id ?w1] =>
            destruct (IH id w1) as (b & w' & tail & Hrun & Htr & Hcnt & Hall & _)
        end.
        exists b, w',
          ([DeleteRequest id; Log WARNING "delete failed"; Sleep 1] ++ tail).
        rewrite Hrun, Htr. cbn [trace replies] in *.
        split; [reflexivity|]. split; [rewrite <- !app_assoc; reflexivity|].
        split; [rewrite RetryLoopFacts.count_events_app, Hcnt; reflexivity|].
        split; [|reflexivity].
        apply Forall_app. split; [|exact Hall].
        repeat constructor; simpl; discriminate.
Qed.

Ltac poll_step := cbv beta iota; cbn [replies trace fst snd negb].

(** One poll, by what the two [GET] replies contain: with a code in the
    latest mail the poll returns it after a cleanup of at most 3 tries,
    whatever the replies to the [DELETE] requests; otherwise it returns
    [None]. *)
Lemma poll_cases w :
  match extraction (replies w 0) (replies w 1) with
  | Some (id, code) =>
      exists w' tail,
        _get_latest_mail_code w = (inr (Some code), w')
        /\ trace w' = trace w
             ++ [ListRequest; ContentRequest id; Log INFO "code extracted"]
             ++ tail
        /\ count_events is_delete tail
           = deletes_sent 3 (fun k => replies w (2 + k))
        /\ only_deletes_of id tail
        /\ head tail = Some (DeleteRequest id)
  | None => fst (_get_latest_mail_code w) = inr None
  end.
Proof.
  unfold _get_latest_mail_code, extraction, ok_body, try_except, bind,
    requests_send, request, bind, lift, ret, logging, emit, re_search,
    _cleanup_mail.
  poll_step.
  destruct (replies w 0) as [e|sc body]; [reflexivity|].
  poll_step. destruct (sc =? 200)%Z; [|reflexivity].
  poll_step. destruct body as [e|mail_list]; [reflexivity|].
  destruct (Json.py_truthy mail_list); [|reflexivity].
  poll_step. destruct (Json.py_first mail_list) as [e|id]; [reflexivity|].
  poll_step. destruct (replies w 1) as [e|sc1 body1]; [reflexivity|].
  poll_step. destruct (sc1 =? 200)%Z; [|reflexivity].
  poll_step. destruct body1 as [e|mail_content]; [reflexivity|].
  destruct (Json.py_truthy mail_content); [|reflexivity].
  poll_step.
  destruct (Json.py_get mail_content (lit "text") (JStr [])) as [e|mail_text];
    [reflexivity|].
  destruct mail_text as [| | |mail_text| |]; try reflexivity.
  destruct (CodeRegex.search_temp_mail mail_text) as [code|]; [|reflexivity].
  poll_step.
  match goal with
  | |- context [_cleanup_mail_loop 3 id ?w2] =>
      destruct (cleanup_loop_trace 3 id w2)
        as (b & w' & tail & Hrun & Htr & Hcnt & Hall & Hhead)
  end.
  rewrite Hrun. exists w', tail. cbn [trace replies] in Htr, Hcnt.
  split; [reflexivity|].
  split; [rewrite Htr, <- !app_assoc; reflexivity|].
  split; [exact Hcnt|]. split; [exact Hall|]. apply Hhead. lia.
Qed.

End TempMailFacts.

(** ** The IMAP poller *)

Module ImapFacts.
Import Imap.

Lemma iteration_sends_no_delete srv attempt max_retries retry_interval tr :
  count_events is_delete
    (snd (iteration srv attempt max_retries retry_interval tr))
  = count_events is_delete tr.
Proof.
  unfold iteration. cbv zeta.
  repeat match goal with
         | |- context [match ?x with _ => _ end] => destruct x
         end;
    cbn [snd]; rewrite !RetryLoopFacts.count_events_app;
    unfold count_events; simpl; lia.
Qed.

Lemma attempts_send_no_delete srv max_retries retry_interval remaining :
  forall attempt tr,
    count_events is_delete
      (snd (attempts_from srv remaining attempt max_retries retry_interval tr))
    = count_events is_delete tr.
Proof.
  induction remaining as [|remaining IH]; intros attempt tr; [reflexivity|].
  cbn [attempts_from].
  pose proof (iteration_sends_no_delete srv attempt max_retries retry_interval tr)
    as Hit.
  destruct (iteration srv attempt max_retries retry_interval tr) as [[v|] tr'];
    cbn [snd] in *.
  - exact Hit.
  - rewrite IH. exact Hit.
Qed.

Lemma poll_sends_no_delete srv connected max_retries retry_interval :
  count_events is_delete
    (snd (get_verification_code srv connected max_retries retry_interval)) = 0.
Proof.
  unfold get_verification_code.
  destruct connected; [apply attempts_send_no_delete|].
  destruct (login_ok srv); [|reflexivity].
  rewrite attempts_send_no_delete. reflexivity.
Qed.

End ImapFacts.

(** C3 (as stated, refuted): an IMAP poll extracts the code of message 7
    and sends no delete request at all; its requests are one select, one
    search and one fetch. *)
Lemma imap_poll_never_deletes :
  Imap.get_verification_code Examples.imap_server false 5 10
    = (Some (lit "728193"),
       [Log INFO "connected"; SelectRequest; ListRequest;
        ContentRequest (lit "7"); Log INFO "code extracted"])
  /\ count_events is_delete
       (snd (Imap.get_verification_code Examples.imap_server false 5 10)) = 0.
Proof. split; reflexivity. Qed.

(** C3 (amended): in the temp-mail poller a poll never raises and its
    result is the code found in the latest mail, whatever the replies to
    the delete requests.  When a code is extracted, the events that follow
    the extraction start with a [DELETE] of that very mail; the poller
    sends one [DELETE] per try until one is answered with status 200, at
    least 1 and at most 3, and no [DELETE] for any other mail.  The IMAP
    poller never sends a delete request. *)
Theorem temp_mail_poll_deletes_at_most_three_times :
  (forall w : TempMail.world,
     fst (TempMail._get_latest_mail_code w)
     = inr (option_map snd
              (TempMail.extraction (TempMail.replies w 0) (TempMail.replies w 1))))
  /\ (forall (w : TempMail.world) (id : json) (code : str),
        TempMail.extraction (TempMail.replies w 0) (TempMail.replies w 1)
          = Some (id, code) ->
        exists tail,
          TempMail.trace (snd (TempMail._get_latest_mail_code w))
          = TempMail.trace w
              ++ [ListRequest; ContentRequest id; Log INFO "code extracted"]
              ++ tail
          /\ head tail = Some (DeleteRequest id)
          /\ count_events is_delete tail
             = TempMail.deletes_sent 3 (fun k => TempMail.replies w (2 + k))
          /\ 1 <= count_events is_delete tail <= 3
          /\ TempMail.only_deletes_of id tail)
  /\ (forall srv connected max_retries retry_interval,
        count_events is_delete
          (snd (Imap.get_verification_code srv connected
                  max_retries retry_interval)) = 0).
Proof.
  split; [|split].
  - intros w. pose proof (TempMailFacts.poll_cases w) as H.
    destruct (TempMail.extraction _ _) as [[id code]|].
    + destruct H as (w' & tail & Hrun & _). rewrite Hrun. reflexivity.
    + exact H.
  - intros w id code Hex. pose proof (TempMailFacts.poll_cases w) as H.
    rewrite Hex in H.
    destruct H as (w' & tail & Hrun & Htr & Hcnt & Hall & Hhead).
    exists tail. rewrite Hrun. cbn [snd].
    split; [exact Htr|]. split; [exact Hhead|]. split; [exact Hcnt|].
    split; [|exact Hall]. rewrite Hcnt.
    pose proof (TempMailFacts.deletes_sent_bounds 3
                  (fun k => TempMail.replies w (2 + k))). lia.
  - apply ImapFacts.poll_sends_no_delete.
Qed.

Lemma temp_mail_poll_deletes_at_most_three_times_witness :
  exists tail,
    TempMail.trace (snd (TempMail._get_latest_mail_code Examples.refusing_world))
    = [ListRequest; ContentRequest (JStr (lit "m1")); Log INFO "code extracted"]
        ++ tail
    /\ head tail = Some (DeleteRequest (JStr (lit "m1")))
    /\ count_events is_delete tail = 3.
Proof.
  destruct (proj1 (proj2 temp_mail_poll_deletes_at_most_three_times)
              Examples.refusing_world (JStr (lit "m1")) (lit "728193") eq_refl)
    as (tail & Htr & Hhead & Hcnt & _).
  exists tail. split; [exact Htr|]. split; [exact Hhead|].
  rewrite Hcnt. reflexivity.
Defined.

(** ** The key script *)

Module KeyScriptFacts.
Import KeyScript.

Lemma prefix_truthy k :
  PyStr.startswith (lit "tvly-") k = true -> PyStr.truthy k = true.
Proof. destruct k; [discriminate | reflexivity]. Qed.

Lemma prop_key_Some entry key :
  prop_key entry = inr (Some key) ->
  exists members, entry = Some (JObj members)
                  /\ Json.member (lit "key") members = Some key.
Proof.
  destruct entry as [[]|]; simpl; try discriminate.
  intros H. injection H as H. eauto.
Qed.

(** The script returns a key only from a first entry whose [key] is a
    string with the prefix. *)
Lemma getApiKey_Some to_number o k :
  getApiKey to_number o = Some k ->
  exists data entry,
    o = FetchJson data
    /\ item0 data = inr (Some entry)
    /\ prop_key (Some entry) = inr (Some (JStr k))
    /\ PyStr.startswith (lit "tvly-") k = true.
Proof.
  destruct o as [|data]; [discriminate|].
  unfold getApiKey, try_block.
  destruct (js_truthy data); cbn [negb]; [|discriminate].
  destruct (length_positive to_number data) as [e|[]]; try discriminate.
  destruct (item0 data) as [e|entry] eqn:Hitem; [discriminate|].
  destruct (prop_key entry) as [e|[key|]] eqn:Hkey; try discriminate.
  destruct (js_truthy key); cbn [negb]; [|discriminate].
  destruct key as [| | |s| |]; cbn [starts_with_prefix]; try discriminate.
  destruct (PyStr.startswith (lit "tvly-") s) eqn:Hpre; [|discriminate].
  cbn [key_text]. intros H. injection H as <-.
  destruct (prop_key_Some _ _ Hkey) as (members & -> & _).
  exists data, (JObj members). repeat split; assumption.
Qed.

(** An array whose first entry is an object with a prefixed string key
    is accepted. *)
Lemma getApiKey_array to_number members rest k :
  Json.member (lit "key") members = Some (JStr k) ->
  PyStr.startswith (lit "tvly-") k = true ->
  getApiKey to_number (FetchJson (JArr (JObj members :: rest))) = Some k.
Proof.
  intros Hm Hp. unfold getApiKey, try_block. cbn -[lit PyStr.startswith].
  rewrite Hm. cbn -[lit PyStr.startswith].
  rewrite (prefix_truthy _ Hp). cbn -[lit PyStr.startswith].
  rewrite Hp. reflexivity.
Qed.

End KeyScriptFacts.

(** ** The orchestrator *)

Module RunFacts.
Import TavilyAutoRegister.

Section Run.
Variable py_int : str -> option Z.
Variable to_number : json -> float.

(** The three ways a run can go: it stops before the key phase; it asks
    for the key once and misses; it asks once, gets the key and tries to
    save the record. *)
Lemma start_cases env st g f :
  let r := start py_int to_number env st g f in
  (returned r = false /\ file_after r = f
   /\ Forall (fun e => early_event e = true) (events r))
  \/ (exists email password post,
        events r = preamble email password ++ key_phase ++ post
        /\ ((key_of to_number st = None /\ returned r = false
             /\ file_after r = f /\ miss_tail post)
            \/ (exists k,
                  key_of to_number st = Some k /\ returned r = true
                  /\ hit_tail st f k post
                  /\ file_after r =
                     if open_raises st then f
                     else Some (appended f (Row email password k (strftime st)))))).
Proof.
  unfold start, start_body, key_of. cbv zeta.
  destruct (browser_start st); cbn [negb].
  2: { left. repeat split. repeat constructor. }
  destruct (captcha_handler_init st) as [e|[]].
  { left. repeat split. repeat constructor. }
  destruct (Credentials.generate_email py_int env g) as [[e|email] g1].
  { left. repeat split. repeat constructor. }
  destruct (Credentials.generate_password g1) as [[e|password] g2].
  { left. repeat split. repeat constructor. }
  destruct (handle_navigation st); cbn [negb].
  2: { left. repeat split. repeat constructor. }
  destruct (fill_registration_form st email password); cbn [negb].
  2: { left. repeat split. repeat constructor. }
  right. exists email, password.
  unfold _get_api_key.
  destruct (run_js st) as [e|o].
  { eexists. split; [reflexivity|]. left.
    repeat split. left. eexists. reflexivity. }
  destruct (KeyScript.getApiKey to_number o) as [k|] eqn:Hk.
  - destruct (KeyScriptFacts.getApiKey_Some _ _ _ Hk) as (_ & _ & _ & _ & _ & Hp).
    pose proof (KeyScriptFacts.prefix_truthy _ Hp) as Ht.
    cbn [key_truthy]. rewrite Ht. cbv beta iota. rewrite Ht. cbn [negb].
    unfold _save_account_info, hit_tail. cbv zeta.
    destruct (open_raises st).
    + eexists. split; [reflexivity|]. right. exists k.
      repeat split.
    + eexists. split; [reflexivity|]. right. exists k.
      repeat split.
  - eexists. split; [reflexivity|]. left.
    repeat split. right. reflexivity.
Qed.

End Run.
End RunFacts.

Module RunTraceFacts.
Import TavilyAutoRegister.

Ltac in_list :=
  rewrite ?elem_of_app, ?elem_of_cons, ?elem_of_nil.

Lemma early_events tr :
  Forall (fun e => early_event e = true) tr ->
  count_events is_key_request tr = 0
  /\ (KeyRequest ∉ tr)
  /\ (forall k, Logged INFO (KeyObtained k) ∉ tr)
  /\ (Logged ERROR SaveFailed ∉ tr).
Proof.
  intros Hall. split; [|rewrite Forall_forall in Hall; repeat split].
  - induction Hall as [|e tr He _ IH]; [reflexivity|].
    change (e :: tr) with ([e] ++ tr).
    rewrite RetryLoopFacts.count_events_app, IH.
    destruct e; try discriminate; reflexivity.
  - intros Hin. apply Hall in Hin. discriminate.
  - intros k Hin. apply Hall in Hin. discriminate.
  - intros Hin. apply Hall in Hin. discriminate.
Qed.

Lemma preamble_events email password :
  count_events is_key_request (preamble email password) = 0
  /\ (KeyRequest ∉ preamble email password)
  /\ (forall k, Logged INFO (KeyObtained k) ∉ preamble email password)
  /\ (Logged ERROR SaveFailed ∉ preamble email password).
Proof. apply early_events. repeat constructor. Qed.

Lemma miss_tail_events post :
  miss_tail post ->
  count_events is_key_request post = 0
  /\ (KeyRequest ∉ post)
  /\ (forall k, Logged INFO (KeyObtained k) ∉ post)
  /\ (Logged ERROR SaveFailed ∉ post)
  /\ exists e, Logged ERROR (RunFailed e) ∈ post.
Proof.
  intros [[e ->] | ->].
  - split; [reflexivity|].
    split; [in_list; intuition discriminate|].
    split; [intros k; in_list; intuition discriminate|].
    split; [in_list; intuition discriminate|].
    exists e. in_list. auto.
  - split; [reflexivity|].
    split; [in_list; intuition discriminate|].
    split; [intros k; in_list; intuition discriminate|].
    split; [in_list; intuition discriminate|].
    eexists. in_list. right. left. reflexivity.
Qed.

Lemma hit_tail_events st f k post :
  hit_tail st f k post ->
  count_events is_key_request post = 0
  /\ (KeyRequest ∉ post)
  /\ (Logged INFO (KeyObtained k) ∈ post)
  /\ (forall k', Logged INFO (KeyObtained k') ∈ post -> k' = k)
  /\ (Logged ERROR SaveFailed ∈ post <-> open_raises st = true).
Proof.
  unfold hit_tail. intros ->.
  destruct (open_raises st).
  - split; [reflexivity|].
    split; [in_list; intuition discriminate|].
    split; [in_list; auto|].
    split; [intros k'; in_list; intuition (try discriminate; congruence)|].
    in_list. intuition.
  - split; [reflexivity|].
    split; [in_list; intuition discriminate|].
    split; [in_list; auto|].
    split; [intros k'; in_list; intuition (try discriminate; congruence)|].
    in_list. intuition discriminate.
Qed.

Lemma key_phase_events :
  count_events is_key_request key_phase = 1
  /\ (forall k, Logged INFO (KeyObtained k) ∉ key_phase)
  /\ (Logged ERROR SaveFailed ∉ key_phase).
Proof.
  split; [reflexivity|].
  split; [intros k|]; unfold key_phase; in_list; intuition discriminate.
Qed.

End RunTraceFacts.

(** C7: in every run the keys endpoint is asked at most once, and always
    right after the fixed 5-second pause.  A run returns [True] only if
    it asked exactly once and the answer has a first entry whose [key] is
    a string starting with ["tvly-"].  If the run asks and gets no such
    key (or the script call raises), it is not asked again: the run logs
    the failure, returns [False] and leaves the file untouched. *)
Theorem api_key_asked_once_and_a_miss_fails_the_run :
  forall (py_int : str -> option Z) (to_number : json -> float)
         (env : environ) (st : TavilyAutoRegister.site)
         (g : Random.rng) (f : TavilyAutoRegister.file),
    let r := TavilyAutoRegister.start py_int to_number env st g f in
    let asked :=
      count_events TavilyAutoRegister.is_key_request (TavilyAutoRegister.events r) in
    asked <= 1
    /\ (TavilyAutoRegister.KeyRequest ∈ TavilyAutoRegister.events r ->
        exists pre post,
          TavilyAutoRegister.events r
            = pre ++ TavilyAutoRegister.key_phase ++ post
          /\ (TavilyAutoRegister.KeyRequest ∉ pre)
          /\ (TavilyAutoRegister.KeyRequest ∉ post))
    /\ (TavilyAutoRegister.returned r = true ->
        asked = 1
        /\ exists data entry key,
             TavilyAutoRegister.run_js st = inr (KeyScript.FetchJson data)
             /\ KeyScript.item0 data = inr (Some entry)
             /\ KeyScript.prop_key (Some entry) = inr (Some (JStr key))
             /\ PyStr.startswith (lit "tvly-") key = true)
    /\ (TavilyAutoRegister.KeyRequest ∈ TavilyAutoRegister.events r ->
        TavilyAutoRegister.key_of to_number st = None ->
        asked = 1
        /\ TavilyAutoRegister.returned r = false
        /\ TavilyAutoRegister.file_after r = f
        /\ exists e,
             TavilyAutoRegister.Logged ERROR (TavilyAutoRegister.RunFailed e)
               ∈ TavilyAutoRegister.events r).
Proof.
  intros py_int to_number env st g f r asked. subst asked r.
  pose proof (RunFacts.start_cases py_int to_number env st g f) as Hc.
  cbv zeta in Hc.
  destruct Hc as [(Hret & Hf & Hearly)
                 | (email & password & post & Hev & Hc)].
  - destruct (RunTraceFacts.early_events _ Hearly) as (Hcnt & Hno & _).
    rewrite Hcnt. split; [lia|].
    split; [intros Hin; contradiction|].
    split; [rewrite Hret; discriminate|].
    intros Hin; contradiction.
  - destruct (RunTraceFacts.preamble_events email password) as (Hp0 & Hpno & _).
    destruct RunTraceFacts.key_phase_events as (Hk1 & _).
    assert (Hpost : count_events TavilyAutoRegister.is_key_request post = 0
                    /\ (TavilyAutoRegister.KeyRequest ∉ post)).
    { destruct Hc as [(_ & _ & _ & Hmiss) | (k & _ & _ & Hhit & _)].
      - destruct (RunTraceFacts.miss_tail_events _ Hmiss) as (? & ? & _). auto.
      - destruct (RunTraceFacts.hit_tail_events _ _ _ _ Hhit) as (? & ? & _). auto. }
    destruct Hpost as (Hpost0 & Hpostno).
    assert (Hone : count_events TavilyAutoRegister.is_key_request
                     (TavilyAutoRegister.events
                        (TavilyAutoRegister.start py_int to_number env st g f)) = 1).
    { rewrite Hev, !RetryLoopFacts.count_events_app, Hp0, Hk1, Hpost0.
      reflexivity. }
    rewrite Hone. split; [lia|].
    split; [intros _; exists (TavilyAutoRegister.preamble email password), post;
            auto|].
    destruct Hc as [(Hkey & Hret & Hf & Hmiss) | (k & Hkey & Hret & Hhit & Hf)].
    + split; [rewrite Hret; discriminate|].
      intros _ _. split; [reflexivity|]. split; [exact Hret|].
      split; [exact Hf|].
      destruct (RunTraceFacts.miss_tail_events _ Hmiss) as (_ & _ & _ & _ & e & He).
      exists e. rewrite Hev, !elem_of_app. auto.
    + split; [|intros _ Hnone; congruence].
      intros _. split; [reflexivity|].
      unfold TavilyAutoRegister.key_of in Hkey.
      destruct (TavilyAutoRegister.run_js st) as [e|o]; [discriminate|].
      destruct (KeyScriptFacts.getApiKey_Some _ _ _ Hkey)
        as (data & entry & -> & Hitem & Hprop & Hpre).
      exists data, entry, k. auto.
Qed.

Lemma api_key_asked_once_and_a_miss_fails_the_run_witness :
  let r := TavilyAutoRegister.start PyBuiltin.int_decimal Examples.to_number_zero
             Examples.example_environ Examples.keyless_site (fun k => k) None in
  count_events TavilyAutoRegister.is_key_request (TavilyAutoRegister.events r) = 1
  /\ TavilyAutoRegister.returned r = false
  /\ TavilyAutoRegister.file_after r = None.
Proof.
  intros r.
  destruct (api_key_asked_once_and_a_miss_fails_the_run
              PyBuiltin.int_decimal Examples.to_number_zero
              Examples.example_environ Examples.keyless_site (fun k => k) None)
    as (_ & _ & _ & Hmiss).
  destruct Hmiss as (Hone & Hret & Hf & _).
  - vm_compute. do 8 apply list_elem_of_further. apply list_elem_of_here.
  - reflexivity.
  - repeat split; assumption.
Defined.

Module SaveFacts.
Import TavilyAutoRegister.

(** Whether [open] raises has no influence on the value a run returns. *)
Lemma returned_ignores_open py_int to_number env st g f b :
  returned (start py_int to_number env (set_open_raises b st) g f)
  = returned (start py_int to_number env st g f).
Proof.
  unfold returned, start, start_body, _get_api_key, _save_account_info,
    set_open_raises.
  cbv zeta.
  cbn [browser_start captcha_handler_init handle_navigation
       fill_registration_form run_js strftime open_raises].
  destruct (browser_start st); [|reflexivity].
  destruct (captcha_handler_init st) as [e|[]]; [reflexivity|].
  destruct (Credentials.generate_email py_int env g) as [[e|email] g1];
    [reflexivity|].
  destruct (Credentials.generate_password g1) as [[e|password] g2];
    [reflexivity|].
  destruct (handle_navigation st); [|reflexivity].
  destruct (fill_registration_form st email password); [|reflexivity].
  cbn [negb].
  destruct (run_js st) as [e|o]; [reflexivity|].
  destruct (KeyScript.getApiKey to_number o) as [k|]; [|reflexivity].
  cbn [key_truthy].
  destruct (PyStr.truthy k) eqn:Ht; [|reflexivity].
  cbv beta iota. rewrite Ht. cbn [negb].
  destruct b, (open_raises st); reflexivity.
Qed.

End SaveFacts.

(** C6: when the save is attempted and [open] raises, the failure is
    logged, the file is left as it was and the run still returns [True];
    a logged save failure only ever occurs in a run that returns [True];
    and the value a run returns is the same whether or not [open] raises. *)
Theorem save_failure_is_logged_and_swallowed :
  forall (py_int : str -> option Z) (to_number : json -> float)
         (env : environ) (st : TavilyAutoRegister.site)
         (g : Random.rng) (f : TavilyAutoRegister.file),
    let r := TavilyAutoRegister.start py_int to_number env st g f in
    ((exists a, TavilyAutoRegister.OpenFile a ∈ TavilyAutoRegister.events r) ->
     TavilyAutoRegister.open_raises st = true ->
     (TavilyAutoRegister.Logged ERROR TavilyAutoRegister.SaveFailed
        ∈ TavilyAutoRegister.events r)
     /\ TavilyAutoRegister.returned r = true
     /\ TavilyAutoRegister.file_after r = f)
    /\ (TavilyAutoRegister.Logged ERROR TavilyAutoRegister.SaveFailed
          ∈ TavilyAutoRegister.events r ->
        TavilyAutoRegister.open_raises st = true
        /\ TavilyAutoRegister.returned r = true
        /\ TavilyAutoRegister.file_after r = f)
    /\ (forall b,
          TavilyAutoRegister.returned
            (TavilyAutoRegister.start py_int to_number env
               (TavilyAutoRegister.set_open_raises b st) g f)
          = TavilyAutoRegister.returned r).
Proof.
  intros py_int to_number env st g f r. subst r.
  split; [|split; [|intros b; apply SaveFacts.returned_ignores_open]].
  - intros [a Hin] Hopen.
    pose proof (RunFacts.start_cases py_int to_number env st g f) as Hc.
    cbv zeta in Hc.
    destruct Hc as [(Hret & Hf & Hearly)
                   | (email & password & post & Hev & Hc)].
    + rewrite Forall_forall in Hearly. apply Hearly in Hin. discriminate.
    + destruct Hc as [(Hkey & Hret & Hf & Hmiss) | (k & Hkey & Hret & Hhit & Hf)].
      * exfalso. rewrite Hev in Hin.
        unfold TavilyAutoRegister.preamble, TavilyAutoRegister.key_phase in Hin.
        destruct Hmiss as [[e ->] | ->]; revert Hin; RunTraceFacts.in_list;
          intuition discriminate.
      * rewrite Hopen in Hf.
        destruct (RunTraceFacts.hit_tail_events _ _ _ _ Hhit)
          as (_ & _ & _ & _ & Hsave).
        split; [|split; assumption].
        rewrite Hev, !elem_of_app. right. right. apply Hsave. exact Hopen.
  - intros Hin.
    pose proof (RunFacts.start_cases py_int to_number env st g f) as Hc.
    cbv zeta in Hc.
    destruct Hc as [(Hret & Hf & Hearly)
                   | (email & password & post & Hev & Hc)].
    + destruct (RunTraceFacts.early_events _ Hearly) as (_ & _ & _ & Hno).
      contradiction.
    + rewrite Hev, !elem_of_app in Hin.
      destruct (RunTraceFacts.preamble_events email password) as (_ & _ & _ & Hp).
      destruct RunTraceFacts.key_phase_events as (_ & _ & Hk).
      destruct Hin as [Hin | [Hin | Hin]]; [contradiction | contradiction |].
      destruct Hc as [(Hkey & Hret & Hf & Hmiss) | (k & Hkey & Hret & Hhit & Hf)].
      * destruct (RunTraceFacts.miss_tail_events _ Hmiss) as (_ & _ & _ & Hno & _).
        contradiction.
      * destruct (RunTraceFacts.hit_tail_events _ _ _ _ Hhit)
          as (_ & _ & _ & _ & Hsave).
        apply Hsave in Hin. rewrite Hin in Hf. auto.
Qed.

Lemma save_failure_is_logged_and_swallowed_witness :
  let r := TavilyAutoRegister.start PyBuiltin.int_decimal Examples.to_number_zero
             Examples.example_environ Examples.unwritable_site (fun k => k) None in
  (TavilyAutoRegister.Logged ERROR TavilyAutoRegister.SaveFailed
     ∈ TavilyAutoRegister.events r)
  /\ TavilyAutoRegister.returned r = true
  /\ TavilyAutoRegister.file_after r = None.
Proof.
  intros r.
  destruct (save_failure_is_logged_and_swallowed
              PyBuiltin.int_decimal Examples.to_number_zero
              Examples.example_environ Examples.unwritable_site (fun k => k) None)
    as (Hswallow & _ & _).
  apply Hswallow.
  - exists false. vm_compute.
    do 10 apply list_elem_of_further. apply list_elem_of_here.
  - reflexivity.
Defined.

(** C2 (as stated, refuted): a run in which every phase succeeds and the
    key ["tvly-abc123"] is extracted, while [accounts.csv] cannot be
    opened, returns [True] and appends nothing: the file is still absent. *)
Lemma key_extracted_but_no_record_written :
  let r := TavilyAutoRegister.start PyBuiltin.int_decimal Examples.to_number_zero
             Examples.example_environ Examples.unwritable_site (fun k => k) None in
  (TavilyAutoRegister.Logged INFO
     (TavilyAutoRegister.KeyObtained (lit "tvly-abc123"))
     ∈ TavilyAutoRegister.events r)
  /\ TavilyAutoRegister.returned r = true
  /\ TavilyAutoRegister.file_after r = None.
Proof.
  intros r. split; [|split; reflexivity].
  vm_compute. do 9 apply list_elem_of_further. apply list_elem_of_here.
Qed.

(** C2 (amended): the persistence file changes only in a run that
    extracted an API key; a run that extracted a key and whose write does
    not raise appends exactly one row, holding that key, to the file
    (after a header when the file is new); a run that extracts no key
    returns [False] and leaves the file as it was. *)
Theorem record_written_only_after_key_extraction :
  forall (py_int : str -> option Z) (to_number : json -> float)
         (env : environ) (st : TavilyAutoRegister.site)
         (g : Random.rng) (f : TavilyAutoRegister.file),
    let r := TavilyAutoRegister.start py_int to_number env st g f in
    let extracted k :=
      TavilyAutoRegister.Logged INFO (TavilyAutoRegister.KeyObtained k)
        ∈ TavilyAutoRegister.events r in
    (TavilyAutoRegister.file_after r <> f -> exists k, extracted k)
    /\ (forall k,
          extracted k ->
          TavilyAutoRegister.open_raises st = false ->
          exists email password,
            TavilyAutoRegister.file_after r
            = Some (TavilyAutoRegister.appended f
                      (TavilyAutoRegister.Row email password k
                         (TavilyAutoRegister.strftime st))))
    /\ ((forall k, ~ extracted k) ->
        TavilyAutoRegister.file_after r = f
        /\ TavilyAutoRegister.returned r = false).
Proof.
  intros py_int to_number env st g f r extracted. subst extracted r.
  pose proof (RunFacts.start_cases py_int to_number env st g f) as Hc.
  cbv zeta in Hc.
  destruct Hc as [(Hret & Hf & Hearly)
                 | (email & password & post & Hev & Hc)].
  - destruct (RunTraceFacts.early_events _ Hearly) as (_ & _ & Hno & _).
    split; [intros Hne; congruence|].
    split; [intros k Hin; exfalso; exact (Hno k Hin)|].
    intros _. auto.
  - destruct (RunTraceFacts.preamble_events email password) as (_ & _ & Hp & _).
    destruct RunTraceFacts.key_phase_events as (_ & Hk & _).
    destruct Hc as [(Hkey & Hret & Hf & Hmiss) | (k & Hkey & Hret & Hhit & Hf)].
    + destruct (RunTraceFacts.miss_tail_events _ Hmiss) as (_ & _ & Hno & _).
      split; [intros Hne; congruence|].
      split; [|intros _; auto].
      intros k Hin. exfalso. rewrite Hev, !elem_of_app in Hin.
      destruct Hin as [Hin | [Hin | Hin]];
        [exact (Hp k Hin) | exact (Hk k Hin) | exact (Hno k Hin)].
    + destruct (RunTraceFacts.hit_tail_events _ _ _ _ Hhit)
        as (_ & _ & Hin & Huniq & _).
      assert (Hlogged :
        TavilyAutoRegister.Logged INFO (TavilyAutoRegister.KeyObtained k)
          ∈ TavilyAutoRegister.events
              (TavilyAutoRegister.start py_int to_number env st g f))
        by (rewrite Hev, !elem_of_app; auto).
      split; [intros _; exists k; exact Hlogged|].
      split; [|intros Hnone; exfalso; exact (Hnone k Hlogged)].
      intros k' Hin' Hopen. rewrite Hopen in Hf.
      rewrite Hev, !elem_of_app in Hin'.
      destruct Hin' as [Hin' | [Hin' | Hin']];
        [exfalso; exact (Hp k' Hin') | exfalso; exact (Hk k' Hin') |].
      apply Huniq in Hin'. subst k'.
      exists email, password. exact Hf.
Qed.

Lemma record_written_only_after_key_extraction_witness :
  let r := TavilyAutoRegister.start PyBuiltin.int_decimal Examples.to_number_zero
             Examples.example_environ
             (TavilyAutoRegister.set_open_raises false Examples.unwritable_site)
             (fun k => k) None in
  exists email password,
    TavilyAutoRegister.file_after r
    = Some [TavilyAutoRegister.Header;
            TavilyAutoRegister.Row email password (lit "tvly-abc123")
              (lit "2024-01-01 00:00:00")].
Proof.
  intros r.
  destruct (record_written_only_after_key_extraction
              PyBuiltin.int_decimal Examples.to_number_zero
              Examples.example_environ
              (TavilyAutoRegister.set_open_raises false Examples.unwritable_site)
              (fun k => k) None)
    as (_ & Hwrite & _).
  apply (Hwrite (lit "tvly-abc123")).
  - vm_compute. do 9 apply list_elem_of_further. apply list_elem_of_here.
  - reflexivity.
Defined.

(** * Further properties of the code *)

(** ** More on the two patterns *)

Module CodeRegexMore.
Import PyChar CodeRegex CodeRegexFacts.

Lemma forallb_Forall {A} (p : A -> bool) (l : list A) :
  forallb p l = true <-> Forall (fun c => p c = true) l.
Proof.
  induction l as [|c l IH]; simpl.
  - split; [constructor | reflexivity].
  - rewrite andb_true_iff, IH, Forall_cons. reflexivity.
Qed.

Lemma isolated_is_six_digits excl left d right :
  isolated excl left d right ->
  length d = 6 /\ Forall (fun c => is_decimal c = true) d.
Proof. intros (Hlen & Hd & _). auto. Qed.

(** Whatever either search returns is six decimal digits found in the
    text. *)
Lemma search_result_six_digits lb excl text d :
  agree lb excl ->
  search_from lb None text = Some d ->
  length d = 6 /\ Forall (fun c => is_decimal c = true) d
  /\ exists pre post, text = pre ++ d ++ post.
Proof.
  intros Hagree Hs.
  pose proof (search_leftmost lb excl Hagree text) as H.
  rewrite Hs in H. destruct H as (pre & post & [Htext Hiso] & _).
  destruct (isolated_is_six_digits _ _ _ _ Hiso). eauto.
Qed.

Section WordOnly.
Variables (lb : option ascii -> bool) (excl : ascii -> bool).
Hypothesis Hagree : agree lb excl.

Lemma word_only_text text :
  Forall (fun c => is_word c = true) text ->
  search_from lb None text
  = if Nat.eqb (length text) 6 && forallb is_decimal text
    then Some text else None.
Proof.
  intros Hword. rewrite Forall_forall in Hword.
  pose proof (search_leftmost lb excl Hagree text) as H.
  destruct (search_from lb None text) as [d|].
  - destruct H as (pre & post & [Htext (Hlen & Hd & Hl & Hr)] & _).
    assert (pre = []) as ->.
    { destruct (last pre) as [c|] eqn:Hlast.
      - exfalso. destruct Hl as [Hw _].
        rewrite Hword in Hw; [discriminate|].
        rewrite Htext, elem_of_app. left.
        apply last_Some_elem_of. exact Hlast.
      - apply last_None. exact Hlast. }
    assert (post = []) as ->.
    { destruct post as [|c post]; [reflexivity|]. exfalso.
      destruct Hr as [Hw _].
      rewrite Hword in Hw; [discriminate|].
      rewrite Htext, !elem_of_app. right. right. left. }
    rewrite app_nil_r in Htext. simpl in Htext. subst d.
    rewrite Hlen. apply forallb_Forall in Hd. rewrite Hd. reflexivity.
  - destruct (Nat.eqb (length text) 6 && forallb is_decimal text) eqn:Hc;
      [|reflexivity].
    exfalso. apply andb_true_iff in Hc as [Hlen Hd].
    apply Nat.eqb_eq in Hlen. apply forallb_Forall in Hd.
    apply (H [] text []). split; [rewrite app_nil_r; reflexivity|].
    repeat split; assumption.
Qed.

End WordOnly.

End CodeRegexMore.

(** X1: on a text made only of letters, digits and underscores (one
    "word"), either pattern matches exactly when the whole text is six
    decimal digits, and then returns the whole text; a longer run of
    digits is never matched, not even in part. *)
Theorem one_word_text_matches_only_as_a_whole :
  forall text : str,
    Forall (fun c => PyChar.is_word c = true) text ->
    let expected :=
      if Nat.eqb (length text) 6 && forallb PyChar.is_decimal text
      then Some text else None in
    CodeRegex.search_temp_mail text = expected
    /\ CodeRegex.search_imap text = expected.
Proof.
  intros text Hword expected. subst expected. split.
  - apply (CodeRegexMore.word_only_text _ _ CodeRegexFacts.agree_temp_mail).
    exact Hword.
  - apply (CodeRegexMore.word_only_text _ _ CodeRegexFacts.agree_imap).
    exact Hword.
Qed.

Lemma one_word_text_matches_only_as_a_whole_witness :
  CodeRegex.search_temp_mail (lit "1234567") = None
  /\ CodeRegex.search_imap (lit "1234567") = None.
Proof.
  apply (one_word_text_matches_only_as_a_whole (lit "1234567")).
  repeat constructor.
Defined.

(** X2: the pattern of the IMAP poller is the more permissive one: in
    every text where the temp-mail pattern finds a code the IMAP pattern
    finds one too, starting at the same place or further left; so where
    the IMAP pattern finds nothing, neither does the temp-mail pattern. *)
Theorem imap_pattern_matches_wherever_temp_mail_does :
  forall (text d : str),
    CodeRegex.search_temp_mail text = Some d ->
    exists d' pre post pre' post',
      CodeRegex.search_imap text = Some d'
      /\ text = pre ++ d ++ post
      /\ text = pre' ++ d' ++ post'
      /\ length pre' <= length pre.
Proof.
  intros text d Hs.
  pose proof (CodeRegexFacts.search_leftmost _ _ CodeRegexFacts.agree_temp_mail text)
    as Ht.
  pose proof (CodeRegexFacts.search_leftmost _ _ CodeRegexFacts.agree_imap text)
    as Hi.
  unfold CodeRegex.search_temp_mail in Hs. rewrite Hs in Ht.
  destruct Ht as (pre & post & [Htext (Hlen & Hd & Hl & Hr)] & _).
  assert (Hocc : CodeRegex.occurs_isolated CodeRegex.none_excluded text pre d post).
  { split; [exact Htext|]. repeat split; try assumption.
    destruct (last pre) as [c|]; simpl in *; [|exact I].
    split; [tauto | reflexivity]. }
  unfold CodeRegex.search_imap.
  destruct (CodeRegex.search_from CodeRegex.no_lookbehind None text) as [d'|].
  - destruct Hi as (pre' & post' & [Htext' _] & Hmin).
    exists d', pre, post, pre', post'.
    split; [reflexivity|]. split; [exact Htext|]. split; [exact Htext'|].
    eapply Hmin. exact Hocc.
  - exfalso. eapply Hi. exact Hocc.
Qed.

Lemma imap_pattern_matches_wherever_temp_mail_does_witness :
  exists d', CodeRegex.search_imap (lit "x@111111 222222") = Some d'.
Proof.
  destruct (imap_pattern_matches_wherever_temp_mail_does
              (lit "x@111111 222222") (lit "222222") eq_refl)
    as (d' & _ & _ & _ & _ & H & _).
  exists d'. exact H.
Defined.

(** ** More on the temp-mail poller *)

Module TempMailMore.
Import TempMail CleanupOutcome.

Lemma count_cons {E} (p : E -> bool) (e : E) (l : list E) :
  count_events p (e :: l) = (if p e then 1 else 0) + count_events p l.
Proof. unfold count_events. simpl. destruct (p e); reflexivity. Qed.

(** The whole cleanup: its value, the replies it consumes and its
    events. *)
Lemma cleanup_loop_full n : forall id w,
  exists b tail,
    _cleanup_mail_loop n id w
    = (inr b,
       {| replies := fun k => replies w (deletes_sent n (replies w) + k);
          trace := trace w ++ tail |})
    /\ b = deleted_within n (replies w)
    /\ count_events is_delete tail = deletes_sent n (replies w)
    /\ count_events is_request tail = deletes_sent n (replies w)
    /\ count_events is_sleep tail = refusals n (replies w)
    /\ cleanup_sleeps_one tail.
Proof.
  induction n as [|n IH]; intros id w.
  - exists false, []. rewrite app_nil_r. destruct w.
    repeat split; try constructor.
  - cbn [_cleanup_mail_loop deletes_sent deleted_within refusals].
    unfold bind at 1.
    rewrite TempMailFacts.cleanup_attempt_cases. unfold deleted_ok, refused.
    destruct (replies w 0) as [e|status_code body].
    + match goal with
      | |- context [_cleanup_mail_loop n id ?w1] =>
          destruct (IH id w1) as (b & tail & Hrun & Hb & Hd & Hr & Hs & Hall)
      end.
      cbn [replies trace] in Hrun, Hb, Hd, Hr, Hs.
      exists b, ([DeleteRequest id; Log ERROR "delete raised"] ++ tail).
      rewrite Hrun. cbn [orb].
      split; [rewrite <- !app_assoc; reflexivity|].
      split; [exact Hb|].
      rewrite !RetryLoopFacts.count_events_app, Hd, Hr, Hs.
      repeat split.
      apply Forall_app. split; [|exact Hall].
      repeat constructor; simpl; discriminate.
    + destruct (status_code =? 200)%Z.
      * exists true, [DeleteRequest id; Log INFO "mail deleted"].
        split; [rewrite <- !app_assoc; reflexivity|].
        repeat split. repeat constructor; simpl; discriminate.
      * match goal with
        | |- context [_cleanup_mail_loop n id ?w1] =>
            destruct (IH id w1) as (b & tail & Hrun & Hb & Hd & Hr & Hs & Hall)
        end.
        cbn [replies trace] in Hrun, Hb, Hd, Hr, Hs.
        exists b,
          ([DeleteRequest id; Log WARNING "delete failed"; Sleep 1] ++ tail).
        rewrite Hrun. cbn [orb negb].
        split; [rewrite <- !app_assoc; reflexivity|].
        split; [exact Hb|].
        rewrite !RetryLoopFacts.count_events_app, Hd, Hr, Hs.
        repeat split.
        apply Forall_app. split; [|exact Hall].
        repeat constructor; simpl; try discriminate; try reflexivity.
Qed.

End TempMailMore.

(** X3: [_cleanup_mail(mail_id, n)] returns [True] exactly when one of the
    first [n] replies to its [DELETE] requests has status 200.  It sends
    one [DELETE] per try up to that reply and nothing else, and it sleeps
    one second after each response with another status, but not after a
    request that raised. *)
Theorem cleanup_returns_whether_a_delete_succeeded :
  forall (n : nat) (mail_id : json) (w : TempMail.world),
    exists tail,
      TempMail._cleanup_mail mail_id n w
      = (inr (CleanupOutcome.deleted_within n (TempMail.replies w)),
         {| TempMail.replies := fun k =>
              TempMail.replies w
                (TempMail.deletes_sent n (TempMail.replies w) + k);
            TempMail.trace := TempMail.trace w ++ tail |})
      /\ count_events is_request tail
         = TempMail.deletes_sent n (TempMail.replies w)
      /\ count_events is_delete tail
         = TempMail.deletes_sent n (TempMail.replies w)
      /\ count_events is_sleep tail
         = CleanupOutcome.refusals n (TempMail.replies w)
      /\ CleanupOutcome.cleanup_sleeps_one tail.
Proof.
  intros n mail_id w. unfold TempMail._cleanup_mail.
  destruct (TempMailMore.cleanup_loop_full n mail_id w)
    as (b & tail & Hrun & -> & Hd & Hr & Hs & Hall).
  exists tail. rewrite Hrun. repeat split; assumption.
Qed.

Module PollMore.
Import TempMail.

Ltac quiet_leaf :=
  intros _; repeat (progress TempMailFacts.poll_step); eexists;
  split; [reflexivity|];
  split; [rewrite <- ?app_assoc; reflexivity|];
  split; [reflexivity|];
  split; [reflexivity|];
  unfold count_events; simpl; lia.

(** A poll that finds no code: its value and its events. *)
Lemma poll_without_code w :
  extraction (replies w 0) (replies w 1) = None ->
  exists tail,
    fst (_get_latest_mail_code w) = inr None
    /\ trace (snd (_get_latest_mail_code w)) = trace w ++ tail
    /\ head tail = Some ListRequest
    /\ count_events is_delete tail = 0
    /\ count_events is_request tail <= 2.
Proof.
  unfold _get_latest_mail_code, extraction, ok_body, try_except, bind,
    requests_send, request, bind, lift, ret, logging, emit, re_search,
    _cleanup_mail.
  TempMailFacts.poll_step.
  destruct (replies w 0) as [e|sc body]; [quiet_leaf|].
  TempMailFacts.poll_step. destruct (sc =? 200)%Z; [|quiet_leaf].
  TempMailFacts.poll_step. destruct body as [e|mail_list]; [quiet_leaf|].
  destruct (Json.py_truthy mail_list); [|quiet_leaf].
  TempMailFacts.poll_step.
  destruct (Json.py_first mail_list) as [e|id]; [quiet_leaf|].
  TempMailFacts.poll_step.
  destruct (replies w 1) as [e|sc1 body1]; [quiet_leaf|].
  TempMailFacts.poll_step. destruct (sc1 =? 200)%Z; [|quiet_leaf].
  TempMailFacts.poll_step. destruct body1 as [e|mail_content]; [quiet_leaf|].
  destruct (Json.py_truthy mail_content); [|quiet_leaf].
  TempMailFacts.poll_step.
  destruct (Json.py_get mail_content (lit "text") (JStr [])) as [e|mail_text];
    [quiet_leaf|].
  destruct mail_text as [| | |mail_text| |]; try quiet_leaf.
  destruct (CodeRegex.search_temp_mail mail_text) as [code|];
    [discriminate | quiet_leaf].
Qed.

Lemma extraction_Some listing content id code :
  extraction listing content = Some (id, code) ->
  exists mail_text, CodeRegex.search_temp_mail mail_text = Some code.
Proof.
  unfold extraction.
  destruct (ok_body listing) as [mail_list|]; [|discriminate].
  destruct (Json.py_truthy mail_list); [|discriminate].
  destruct (Json.py_first mail_list) as [e|id']; [discriminate|].
  destruct (ok_body content) as [mail_content|]; [|discriminate].
  destruct (Json.py_truthy mail_content); [|discriminate].
  destruct (Json.py_get mail_content (lit "text") (JStr []))
    as [e|[| | |mail_text| |]]; try discriminate.
  destruct (CodeRegex.search_temp_mail mail_text) as [code'|] eqn:Hs;
    [|discriminate].
  intros H. injection H as _ <-. eauto.
Qed.

(** A poll returns nothing but six decimal digits. *)
Lemma poll_yields_six_digits w code :
  fst (_get_latest_mail_code w) = inr (Some code) ->
  length code = 6 /\ Forall (fun c => PyChar.is_decimal c = true) code.
Proof.
  intros Hrun. pose proof (TempMailFacts.poll_cases w) as H.
  destruct (extraction (replies w 0) (replies w 1)) as [[id code']|] eqn:Hex.
  - destruct H as (w' & tail & Hp & _). rewrite Hp in Hrun.
    injection Hrun as ->.
    destruct (extraction_Some _ _ _ _ Hex) as (text & Hs).
    destruct (CodeRegexMore.search_result_six_digits _ _ _ _
                CodeRegexFacts.agree_temp_mail Hs) as (? & ? & _).
    auto.
  - rewrite H in Hrun. discriminate.
Qed.

End PollMore.

(** X4: one poll of the temp-mail mailbox starts with the list request and
    sends at most five requests (two [GET], three [DELETE]); a poll that
    returns no code sends at most the two [GET] requests and never a
    [DELETE]: a mail is only deleted once a code was taken from it. *)
Theorem poll_without_code_deletes_nothing :
  forall w : TempMail.world,
    exists tail,
      TempMail.trace (snd (TempMail._get_latest_mail_code w))
      = TempMail.trace w ++ tail
      /\ head tail = Some ListRequest
      /\ count_events is_request tail <= 5
      /\ (fst (TempMail._get_latest_mail_code w) = inr None ->
          count_events is_delete tail = 0
          /\ count_events is_request tail <= 2).
Proof.
  intros w. pose proof (TempMailFacts.poll_cases w) as H.
  destruct (TempMail.extraction (TempMail.replies w 0) (TempMail.replies w 1))
    as [[id code]|] eqn:Hex.
  - destruct H as (w' & tail & Hrun & _).
    pose proof (TempMailMore.cleanup_loop_full 3 id
      {| TempMail.replies := fun k => TempMail.replies w (S (S k));
         TempMail.trace :=
           ((TempMail.trace w ++ [ListRequest]) ++ [ContentRequest id])
             ++ [Log INFO "code extracted"] |})
      as (b & tail' & Hclean & _ & _ & Hreq & _).
    assert (Hpoll : TempMail._get_latest_mail_code w
              = (inr (Some code),
                 {| TempMail.replies := fun k =>
                      TempMail.replies w
                        (S (S (TempMail.deletes_sent 3
                                 (fun k => TempMail.replies w (S (S k))) + k)));
                    TempMail.trace :=
                      (((TempMail.trace w ++ [ListRequest])
                          ++ [ContentRequest id])
                         ++ [Log INFO "code extracted"]) ++ tail' |})).
    { clear Hrun.
      unfold TempMail._get_latest_mail_code, TempMail.try_except, TempMail.bind,
        TempMail.requests_send, TempMail.request, TempMail.bind, TempMail.lift,
        TempMail.ret, TempMail.logging, TempMail.emit, TempMail.re_search,
        TempMail._cleanup_mail.
      unfold TempMail.extraction, TempMail.ok_body in Hex.
      TempMailFacts.poll_step.
      destruct (TempMail.replies w 0) as [e|sc body]; [discriminate|].
      TempMailFacts.poll_step. destruct (sc =? 200)%Z; [|discriminate].
      TempMailFacts.poll_step. destruct body as [e|mail_list]; [discriminate|].
      destruct (Json.py_truthy mail_list); [|discriminate].
      TempMailFacts.poll_step.
      destruct (Json.py_first mail_list) as [e|id0]; [discriminate|].
      TempMailFacts.poll_step.
      destruct (TempMail.replies w 1) as [e|sc1 body1]; [discriminate|].
      TempMailFacts.poll_step. destruct (sc1 =? 200)%Z; [|discriminate].
      TempMailFacts.poll_step.
      destruct body1 as [e|mail_content]; [discriminate|].
      destruct (Json.py_truthy mail_content); [|discriminate].
      TempMailFacts.poll_step.
      destruct (Json.py_get mail_content (lit "text") (JStr []))
        as [e|[| | |mail_text| |]]; try discriminate.
      destruct (CodeRegex.search_temp_mail mail_text) as [code0|];
        [|discriminate].
      injection Hex as -> ->.
      TempMailFacts.poll_step. cbn [TempMail.replies TempMail.trace] in Hclean.
      rewrite Hclean. reflexivity. }
    rewrite Hpoll. cbn [fst snd TempMail.trace].
    cbn [TempMail.replies] in Hreq.
    exists ([ListRequest; ContentRequest id; Log INFO "code extracted"] ++ tail').
    split; [rewrite <- !app_assoc; reflexivity|].
    split; [reflexivity|].
    split; [|discriminate].
    rewrite RetryLoopFacts.count_events_app, Hreq.
    pose proof (TempMailFacts.deletes_sent_bounds 3
                  (fun k => TempMail.replies w (S (S k)))) as [Hle _].
    change (count_events is_request
              [ListRequest; ContentRequest id; Log INFO "code extracted"])
      with 2.
    lia.
  - destruct (PollMore.poll_without_code w Hex)
      as (tail & Hnone & Htr & Hhead & Hdel & Hreq).
    exists tail. split; [exact Htr|]. split; [exact Hhead|].
    split; [lia|]. intros _. split; assumption.
Qed.

Lemma poll_without_code_deletes_nothing_witness :
  exists tail,
    TempMail.trace (snd (TempMail._get_latest_mail_code Examples.empty_mailbox))
    = tail
    /\ count_events is_delete tail = 0
    /\ count_events is_request tail <= 2.
Proof.
  destruct (poll_without_code_deletes_nothing Examples.empty_mailbox)
    as (tail & Htr & _ & _ & Hquiet).
  exists tail. split; [exact Htr|]. apply Hquiet. reflexivity.
Defined.

(** ** More on the retry loop *)

Module RetryLoopMore.
Import RetryLoop.

Section Loop.
Context {S : Type}.
Variable fetch : S -> result (option str) * S.
Variables max_retries retry_interval : Z.

Lemma truthy_nonempty code :
  code_truthy (Some code) = true -> code <> [].
Proof. destruct code; [discriminate | discriminate]. Qed.

(** Everything the loop does from attempt [attempt] on, with [remaining]
    iterations left. *)
Lemma attempts_from_general remaining : forall attempt s tr,
  attempt + remaining = Z.to_nat max_retries ->
  exists added r,
    attempts_from fetch remaining attempt max_retries retry_interval s tr
    = (r, state_before fetch (count_events is_fetch added) s, tr ++ added)
    /\ count_events is_fetch added <= remaining
    /\ (1 <= remaining -> 1 <= count_events is_fetch added)
    /\ count_events is_wait added = count_events is_fetch added - 1
    /\ Forall (fun e => is_wait e = true -> e = Wait retry_interval) added
    /\ (forall code, r = inr (Some code) ->
          code <> []
          /\ exists k, count_events is_fetch added = Datatypes.S k
                       /\ yield fetch k s = inr (Some code))
    /\ (forall e, r = inl e ->
          exists k, count_events is_fetch added = Datatypes.S k
                    /\ yield fetch k s = inl e)
    /\ (r = inr None ->
          count_events is_fetch added = remaining
          /\ forall k, k < remaining -> falsy_at fetch s k).
Proof.
  induction remaining as [|remaining IH]; intros attempt s tr Hinv.
  - exists [Report ERROR "no code after all attempts"], (inr None).
    split; [reflexivity|].
    repeat split; try (unfold count_events; simpl; lia); try discriminate;
      try (repeat constructor; discriminate).
  - cbn [attempts_from].
    destruct (fetch s) as [[e|code] s1] eqn:Hf.
    + exists [Report INFO "attempt"; Fetch attempt], (inl e).
      change (count_events is_fetch [Report INFO "attempt"; Fetch attempt])
        with 1.
      cbn [state_before]. rewrite Hf. cbn [snd].
      split; [reflexivity|]. split; [lia|]. split; [lia|].
      split; [reflexivity|].
      split; [repeat constructor; discriminate|].
      split; [intros c Hc; discriminate|].
      split; [|intros Hr; discriminate].
      intros e' He'. injection He' as <-. exists 0.
      split; [reflexivity|]. unfold yield. cbn [state_before].
      rewrite Hf. reflexivity.
    + destruct (code_truthy code) eqn:Ht.
      * exists [Report INFO "attempt"; Fetch attempt], (inr code).
        change (count_events is_fetch [Report INFO "attempt"; Fetch attempt])
          with 1.
        cbn [state_before]. rewrite Hf. cbn [snd].
        split; [reflexivity|]. split; [lia|]. split; [lia|].
        split; [reflexivity|].
        split; [repeat constructor; discriminate|].
        split; [|split; [intros e He; discriminate|]].
        -- intros c Hc. injection Hc as ->.
           split; [apply truthy_nonempty; exact Ht|].
           exists 0. split; [reflexivity|]. unfold yield. cbn [state_before].
           rewrite Hf. reflexivity.
        -- intros Hr. injection Hr as ->. discriminate.
      * assert (Hs1 : s1 = snd (fetch s)) by (rewrite Hf; reflexivity).
        assert (Hfalsy0 : falsy_at fetch s 0).
        { exists code. unfold yield. cbn [state_before]. rewrite Hf. auto. }
        destruct (Z.of_nat attempt <? max_retries - 1)%Z eqn:Hlast.
        -- apply Z.ltb_lt in Hlast.
           match goal with
           | |- context [attempts_from fetch remaining ?a _ _ s1 ?t] =>
               destruct (IH a s1 t)
                 as (added & r & Hrun & Hle & Hpos & Hw & Hall & Hsome & Hexn & Hnone);
                 [lia|]
           end.
           exists ([Report INFO "attempt"; Fetch attempt;
                    Report INFO "waiting"; Wait retry_interval] ++ added), r.
           rewrite Hrun.
           rewrite RetryLoopFacts.count_events_app.
           change (count_events is_fetch
                     [Report INFO "attempt"; Fetch attempt;
                      Report INFO "waiting"; Wait retry_interval]) with 1.
           rewrite Hs1, RetryLoopFacts.state_before_shift.
           split; [rewrite <- !app_assoc; reflexivity|].
           split; [lia|]. split; [lia|].
           split.
           { rewrite RetryLoopFacts.count_events_app, Hw.
             change (count_events is_wait
                       [Report INFO "attempt"; Fetch attempt;
                        Report INFO "waiting"; Wait retry_interval]) with 1.
             assert (1 <= count_events is_fetch added) by (apply Hpos; lia).
             lia. }
           split.
           { apply Forall_app. split; [|exact Hall].
             repeat constructor; simpl; try discriminate; reflexivity. }
           split.
           { intros c Hc. destruct (Hsome c Hc) as (Hne & k & Hk & Hy).
             split; [exact Hne|]. exists (Datatypes.S k).
             split; [lia|]. rewrite <- RetryLoopFacts.yield_shift.
             rewrite <- Hs1. exact Hy. }
           split.
           { intros e He. destruct (Hexn e He) as (k & Hk & Hy).
             exists (Datatypes.S k). split; [lia|].
             rewrite <- RetryLoopFacts.yield_shift. rewrite <- Hs1. exact Hy. }
           intros Hr. destruct (Hnone Hr) as (Hc & Hq).
           split; [lia|]. intros k Hk. destruct k as [|k]; [exact Hfalsy0|].
           unfold falsy_at. rewrite <- RetryLoopFacts.yield_shift, <- Hs1.
           apply Hq. lia.
        -- apply Z.ltb_ge in Hlast.
           assert (remaining = 0) as -> by lia.
           exists [Report INFO "attempt"; Fetch attempt;
                   Report ERROR "no code after all attempts"], (inr None).
           cbn [attempts_from].
           change (count_events is_fetch
                     [Report INFO "attempt"; Fetch attempt;
                      Report ERROR "no code after all attempts"]) with 1.
           cbn [state_before]. rewrite Hf. cbn [snd].
           split; [rewrite <- !app_assoc; reflexivity|].
           split; [lia|]. split; [lia|]. split; [reflexivity|].
           split; [repeat constructor; discriminate|].
           split; [intros c Hc; discriminate|].
           split; [intros e He; discriminate|].
           intros _. split; [reflexivity|].
           intros k Hk. assert (k = 0) as -> by lia. exact Hfalsy0.
Qed.

End Loop.
End RetryLoopMore.





(** ** More on the IMAP poller *)

Module ImapMore.
Import Imap ImapObserved.

Lemma split_from_token (t : str) : forall (cur rest_tokens : list ascii) ,
  Forall (fun c => is_bytes_space c = false) t ->
  split_from cur (t ++ rest_tokens) = split_from (cur ++ t) rest_tokens.
Proof.
  induction t as [|c t IH]; intros cur rest Hall.
  - rewrite app_nil_r. reflexivity.
  - inversion Hall as [|? ? Hc Ht]; subst.
    simpl. rewrite Hc. rewrite IH by assumption.
    rewrite <- app_assoc. reflexivity.
Qed.

(** [split] undoes joining message numbers with single spaces. *)
Lemma split_join ids :
  Forall is_token ids -> split (join_ids ids) = ids.
Proof.
  unfold split. induction 1 as [|id ids [Hne Hall] Hrest IH]; [reflexivity|].
  destruct ids as [|id' ids].
  - simpl. rewrite <- (app_nil_r id) at 1.
    rewrite split_from_token by assumption. simpl.
    destruct id; [congruence | reflexivity].
  - change (join_ids (id :: id' :: ids))
      with (id ++ " "%char :: join_ids (id' :: ids)).
    rewrite split_from_token by assumption.
    cbn [split_from app].
    change (is_bytes_space " ") with true. cbv iota.
    destruct id as [|c id]; [congruence|].
    rewrite IH. reflexivity.
Qed.

Ltac imap_leaf :=
  eexists; split; [cbn [snd]; rewrite <- ?app_assoc; reflexivity|];
  cbn [fst];
  repeat split;
  try (unfold count_events; simpl; lia);
  try reflexivity;
  try discriminate;
  try (repeat constructor; simpl; try discriminate; reflexivity);
  try (intros id Hin; exfalso; revert Hin;
       rewrite ?elem_of_app, ?elem_of_cons, ?elem_of_nil;
       intuition discriminate).

(** One iteration of the IMAP loop: its outcome and its events. *)
Lemma iteration_general srv attempt max_retries retry_interval tr :
  exists added,
    snd (iteration srv attempt max_retries retry_interval tr) = tr ++ added
    /\ count_events is_select added = 1
    /\ count_events is_request added <= 3
    /\ count_events is_sleep added
       = match fst (iteration srv attempt max_retries retry_interval tr) with
         | Next => if (Z.of_nat attempt <? max_retries - 1)%Z then 1 else 0
         | Return _ => 0
         end
    /\ Forall (fun e => is_sleep e = true -> e = Sleep retry_interval) added
    /\ (forall code,
          fst (iteration srv attempt max_retries retry_interval tr)
            = Return (Some code) ->
          length code = 6 /\ Forall (fun c => PyChar.is_decimal c = true) code)
    /\ fetched_latest srv attempt added.
Proof.
  unfold iteration, fetched_latest. cbv zeta.
  destruct (select_reply srv attempt) as [e|[]].
  { destruct (Z.of_nat attempt <? max_retries - 1)%Z; imap_leaf. }
  destruct (search_reply srv attempt) as [e|messages0] eqn:Hsearch.
  { destruct (Z.of_nat attempt <? max_retries - 1)%Z; imap_leaf. }
  destruct (PyStr.truthy messages0); cbn [negb].
  2: { destruct (Z.of_nat attempt <? max_retries - 1)%Z; imap_leaf. }
  destruct (last (split messages0)) as [latest|] eqn:Hlast.
  2: { destruct (Z.of_nat attempt <? max_retries - 1)%Z; imap_leaf. }
  assert (Hfetch : forall id (l1 l2 : list (mail_event str)),
            ContentRequest id
              ∈ [SelectRequest; ListRequest; ContentRequest latest] ++ l2 ->
            (forall id', ContentRequest id' ∉ l2) ->
            exists m, (inr messages0 : result str) = inr m
                      /\ last (split m) = Some id).
  { intros id _ l2 Hin Hl2. exists messages0. split; [reflexivity|].
    rewrite elem_of_app, !elem_of_cons, elem_of_nil in Hin.
    destruct Hin as [[Hin|[Hin|[Hin|[]]]]|Hin]; try discriminate.
    - injection Hin as ->. exact Hlast.
    - exfalso. exact (Hl2 _ Hin). }
  destruct (fetch_reply srv attempt latest) as [e|body].
  { destruct (Z.of_nat attempt <? max_retries - 1)%Z;
      (eexists; split; [cbn [snd]; rewrite <- ?app_assoc; reflexivity|];
       cbn [fst];
       split; [reflexivity|]; split; [unfold count_events; simpl; lia|];
       split; [reflexivity|];
       split; [repeat constructor; simpl; try discriminate; reflexivity|];
       split; [discriminate|];
       intros id Hin; apply (Hfetch id [] _ Hin);
       intros id'; rewrite ?elem_of_cons, elem_of_nil; intuition discriminate). }
  destruct (if body_truthy body then CodeRegex.search_imap (default [] body)
            else None) as [code|] eqn:Hmatch.
  - eexists; split; [cbn [snd]; rewrite <- ?app_assoc; reflexivity|].
    cbn [fst].
    split; [reflexivity|]. split; [unfold count_events; simpl; lia|].
    split; [reflexivity|].
    split; [repeat constructor; simpl; discriminate|].
    split.
    + intros c Hc. injection Hc as <-.
      destruct (body_truthy body); [|discriminate].
      destruct (CodeRegexMore.search_result_six_digits _ _ _ _
                  CodeRegexFacts.agree_imap Hmatch) as (? & ? & _).
      auto.
    + intros id Hin. apply (Hfetch id [] _ Hin).
      intros id'. rewrite ?elem_of_cons, elem_of_nil. intuition discriminate.
  - destruct (Z.of_nat attempt <? max_retries - 1)%Z;
      (eexists; split; [cbn [snd]; rewrite <- ?app_assoc; reflexivity|];
       cbn [fst];
       split; [reflexivity|]; split; [unfold count_events; simpl; lia|];
       split; [reflexivity|];
       split; [repeat constructor; simpl; try discriminate; reflexivity|];
       split; [discriminate|];
       intros id Hin; apply (Hfetch id [] _ Hin);
       intros id'; rewrite ?elem_of_cons, elem_of_nil; intuition discriminate).
Qed.

End ImapMore.

Module ImapLoopMore.
Import Imap ImapObserved.

(** The whole loop from attempt [attempt] on. *)
Lemma attempts_general srv max_retries retry_interval remaining :
  forall attempt tr,
    attempt + remaining = Z.to_nat max_retries ->
    exists added,
      snd (attempts_from srv remaining attempt max_retries retry_interval tr)
      = tr ++ added
      /\ count_events is_select added <= remaining
      /\ (1 <= remaining -> 1 <= count_events is_select added)
      /\ count_events is_sleep added = count_events is_select added - 1
      /\ count_events is_request added <= 3 * count_events is_select added
      /\ Forall (fun e => is_sleep e = true -> e = Sleep retry_interval) added
      /\ (forall code,
            fst (attempts_from srv remaining attempt max_retries retry_interval tr)
              = Some code ->
            length code = 6
            /\ Forall (fun c => PyChar.is_decimal c = true) code)
      /\ (forall id, ContentRequest id ∈ added ->
            exists a messages0,
              search_reply srv a = inr messages0
              /\ last (split messages0) = Some id).
Proof.
  induction remaining as [|remaining IH]; intros attempt tr Hinv.
  - exists []. rewrite app_nil_r. cbn [attempts_from fst snd].
    split; [reflexivity|].
    split; [unfold count_events; simpl; lia|].
    split; [lia|]. split; [reflexivity|].
    split; [unfold count_events; simpl; lia|].
    split; [constructor|]. split; [discriminate|].
    intros id Hin. inversion Hin.
  - cbn [attempts_from].
    destruct (ImapMore.iteration_general srv attempt max_retries retry_interval tr)
      as (added1 & Hsnd & Hsel & Hreq & Hsl & Hall & Hsix & Hfetch).
    destruct (iteration srv attempt max_retries retry_interval tr)
      as [[v|] tr'] eqn:Hit; cbn [fst snd] in *; subst tr'.
    + exists added1. split; [reflexivity|].
      rewrite Hsel, Hsl.
      split; [lia|]. split; [lia|]. split; [reflexivity|].
      split; [lia|]. split; [exact Hall|].
      split; [intros code Hc; apply Hsix; congruence|].
      intros id Hin. destruct (Hfetch id Hin) as (m & Hm & Hl). eauto.
    + destruct (IH (S attempt) (tr ++ added1))
        as (added2 & Hsnd2 & Hle2 & Hpos2 & Hsl2 & Hreq2 & Hall2 & Hsix2 & Hfetch2);
        [lia|].
      exists (added1 ++ added2). rewrite Hsnd2.
      split; [rewrite app_assoc; reflexivity|].
      rewrite !RetryLoopFacts.count_events_app, Hsel, Hsl, Hsl2.
      split; [lia|]. split; [lia|].
      split.
      { destruct (Z.of_nat attempt <? max_retries - 1)%Z eqn:Hlast.
        - apply Z.ltb_lt in Hlast.
          assert (1 <= count_events is_select added2) by (apply Hpos2; lia).
          lia.
        - apply Z.ltb_ge in Hlast.
          assert (count_events is_select added2 = 0) by lia. lia. }
      split; [lia|].
      split; [apply Forall_app; split; assumption|].
      split; [exact Hsix2|].
      intros id Hin. apply elem_of_app in Hin as [Hin|Hin].
      * destruct (Hfetch id Hin) as (m & Hm & Hl). eauto.
      * apply Hfetch2. exact Hin.
Qed.

(** The same for the whole method, with or without the connection step. *)
Lemma poll_general srv connected max_retries retry_interval :
  let r := get_verification_code srv connected max_retries retry_interval in
  count_events is_select (snd r) <= Z.to_nat max_retries
  /\ count_events is_sleep (snd r) = count_events is_select (snd r) - 1
  /\ count_events is_request (snd r) <= 3 * count_events is_select (snd r)
  /\ Forall (fun e => is_sleep e = true -> e = Sleep retry_interval) (snd r)
  /\ (forall code, fst r = Some code ->
        length code = 6 /\ Forall (fun c => PyChar.is_decimal c = true) code)
  /\ (forall id, ContentRequest id ∈ snd r ->
        exists a messages0,
          search_reply srv a = inr messages0
          /\ last (split messages0) = Some id).
Proof.
  cbv zeta. unfold get_verification_code.
  destruct connected.
  - destruct (attempts_general srv max_retries retry_interval
                (Z.to_nat max_retries) 0 [] eq_refl)
      as (added & Hsnd & Hle & _ & Hsl & Hreq & Hall & Hsix & Hfetch).
    rewrite Hsnd. cbn [app].
    split; [exact Hle|]. split; [exact Hsl|]. split; [exact Hreq|].
    split; [exact Hall|]. split; [exact Hsix|exact Hfetch].
  - destruct (login_ok srv).
    + destruct (attempts_general srv max_retries retry_interval
                  (Z.to_nat max_retries) 0 [Log INFO "connected"] eq_refl)
        as (added & Hsnd & Hle & _ & Hsl & Hreq & Hall & Hsix & Hfetch).
      rewrite Hsnd. rewrite !RetryLoopFacts.count_events_app.
      change (count_events is_select [Log INFO "connected" : mail_event str])
        with 0.
      change (count_events is_sleep [Log INFO "connected" : mail_event str])
        with 0.
      change (count_events is_request [Log INFO "connected" : mail_event str])
        with 0.
      cbn [Nat.add].
      split; [exact Hle|]. split; [exact Hsl|]. split; [exact Hreq|].
      split; [apply Forall_app; split; [repeat constructor; discriminate|
                                        exact Hall]|].
      split; [exact Hsix|].
      intros id Hin. apply elem_of_app in Hin as [Hin|Hin].
      * rewrite elem_of_cons, elem_of_nil in Hin.
        destruct Hin as [Hin|[]]. discriminate.
      * apply Hfetch. exact Hin.
    + cbn [fst snd].
      split; [unfold count_events; simpl; lia|].
      split; [reflexivity|].
      split; [unfold count_events; simpl; lia|].
      split; [repeat constructor; discriminate|].
      split; [discriminate|].
      intros id Hin. rewrite elem_of_cons, elem_of_nil in Hin.
      destruct Hin as [Hin|[]]. discriminate.
Qed.

End ImapLoopMore.



(** X8: when the search replies list message numbers separated by single
    spaces, every message the IMAP poller fetches is the one listed last
    (and with an empty list it fetches nothing). *)
Theorem imap_poller_fetches_the_last_listed_message :
  forall (srv : Imap.server) (connected : bool) (max_retries retry_interval : Z)
         (ids : list str),
    Forall ImapObserved.is_token ids ->
    (forall attempt,
       Imap.search_reply srv attempt = inr (ImapObserved.join_ids ids)) ->
    forall id,
      ContentRequest id
        ∈ snd (Imap.get_verification_code srv connected max_retries retry_interval) ->
      last ids = Some id.
Proof.
  intros srv connected max_retries retry_interval ids Htok Hsearch id Hin.
  destruct (ImapLoopMore.poll_general srv connected max_retries retry_interval)
    as (_ & _ & _ & _ & _ & Hfetch).
  destruct (Hfetch id Hin) as (a & m & Hm & Hlast).
  rewrite Hsearch in Hm. injection Hm as <-.
  rewrite ImapMore.split_join in Hlast by exact Htok. exact Hlast.
Qed.

Lemma imap_poller_fetches_the_last_listed_message_witness :
  last [lit "3"; lit "5"; lit "12"] = Some (lit "12").
Proof.
  apply (imap_poller_fetches_the_last_listed_message
           Examples.imap_server_many false 1 10 [lit "3"; lit "5"; lit "12"]).
  - repeat constructor; try discriminate.
  - intros attempt. reflexivity.
  - vm_compute. do 3 apply list_elem_of_further. apply list_elem_of_here.
Defined.

(** ** More on the configuration and the generators *)

Module PyStrMore.
Import PyStr.

Lemma lstrip_by_split p s :
  exists pre,
    s = pre ++ lstrip_by p s
    /\ Forall (fun c => p c = true) pre
    /\ (forall c, head (lstrip_by p s) = Some c -> p c = false).
Proof.
  induction s as [|c s (pre & Hs & Hpre & Hhead)].
  - exists []. repeat split; [constructor | discriminate].
  - simpl. destruct (p c) eqn:Hc.
    + exists (c :: pre). split; [simpl; congruence|].
      split; [constructor; assumption | exact Hhead].
    + exists []. split; [reflexivity|]. split; [constructor|].
      simpl. intros c' H. congruence.
Qed.

Lemma rstrip_by_split p s :
  exists post,
    s = rstrip_by p s ++ post
    /\ Forall (fun c => p c = true) post
    /\ (forall c, last (rstrip_by p s) = Some c -> p c = false).
Proof.
  unfold rstrip_by.
  destruct (lstrip_by_split p (reverse s)) as (pre & Hs & Hpre & Hhead).
  exists (reverse pre). split; [|split].
  - rewrite <- reverse_app, <- Hs. symmetry. apply reverse_involutive.
  - apply Forall_reverse. exact Hpre.
  - intros c. rewrite last_reverse. apply Hhead.
Qed.

(** [strip] removes a prefix and a suffix of stripped characters, and
    what is left neither starts nor ends with one. *)
Lemma strip_by_split p s :
  exists pre post,
    s = pre ++ strip_by p s ++ post
    /\ Forall (fun c => p c = true) pre
    /\ Forall (fun c => p c = true) post
    /\ (forall c, head (strip_by p s) = Some c -> p c = false)
    /\ (forall c, last (strip_by p s) = Some c -> p c = false).
Proof.
  unfold strip_by.
  destruct (lstrip_by_split p s) as (pre & Hs & Hpre & Hhead).
  destruct (rstrip_by_split p (lstrip_by p s)) as (post & Ht & Hpost & Hlast).
  exists pre, post. split; [congruence|].
  split; [exact Hpre|]. split; [exact Hpost|]. split; [|exact Hlast].
  intros c Hc. apply Hhead. rewrite Ht.
  rewrite head_app, Hc. reflexivity.
Qed.

Lemma strip_by_nil p s :
  strip_by p s = [] <-> Forall (fun c => p c = true) s.
Proof.
  destruct (strip_by_split p s) as (pre & post & Hs & Hpre & Hpost & Hhead & _).
  split.
  - intros He. rewrite Hs, He. apply Forall_app. split; assumption.
  - intros Hall. destruct (strip_by p s) as [|c t] eqn:He; [reflexivity|].
    exfalso. specialize (Hhead c eq_refl).
    rewrite Hs in Hall. rewrite !Forall_app in Hall.
    destruct Hall as (_ & Hall & _). inversion Hall; subst. congruence.
Qed.

Lemma eqb_eq a : forall b, eqb a b = true <-> a = b.
Proof.
  induction a as [|x a IH]; intros [|y b]; simpl;
    try (split; [discriminate | congruence]); [tauto|].
  rewrite andb_true_iff, Ascii.eqb_eq, IH.
  split; [intros [-> ->]; reflexivity | intros H; injection H; auto].
Qed.

End PyStrMore.

Module ConfigMore.

Lemma all_or_one (p : ascii -> bool) (s : str) :
  Forall (fun c => p c = true) s \/ Exists (fun c => p c = false) s.
Proof.
  induction s as [|c s [IH|IH]].
  - left. constructor.
  - destruct (p c) eqn:Hc.
    + left. constructor; assumption.
    + right. apply Exists_cons_hd. exact Hc.
  - right. apply Exists_cons_tl. exact IH.
Qed.

Lemma check_is_valid_iff (value : pyval) :
  check_is_valid value = true
  <-> exists s, value = PyStr s /\ has_visible s.
Proof.
  destruct value as [|s|z]; simpl.
  - split; [discriminate | intros (s & H & _); discriminate].
  - unfold has_visible, PyStr.strip.
    rewrite Nat.ltb_lt.
    pose proof (PyStrMore.strip_by_nil PyChar.isspace s) as Hnil.
    split.
    + intros Hlen. exists s. split; [reflexivity|].
      destruct (all_or_one PyChar.isspace s) as [Hall|Hex]; [|exact Hex].
      apply Hnil in Hall. rewrite Hall in Hlen. simpl in Hlen. lia.
    + intros (s' & Hs & Hvis). injection Hs as <-.
      destruct (PyStr.strip_by PyChar.isspace s) eqn:He; [|simpl; lia].
      exfalso. pose proof (proj1 Hnil eq_refl) as Hall.
      apply Exists_exists in Hvis as (c & Hin & Hc).
      rewrite Forall_forall in Hall. specialize (Hall c Hin). congruence.
  - split; [discriminate | intros (s & H & _); discriminate].
Qed.

End ConfigMore.

Module ConfigInitMore.

Lemma valid_true_iff (s : str) :
  check_is_valid (PyStr s) = true <-> has_visible s.
Proof.
  rewrite ConfigMore.check_is_valid_iff. split.
  - intros (s' & Hs & Hv). injection Hs as <-. exact Hv.
  - intros Hv. exists s. split; [reflexivity | exact Hv].
Qed.

Lemma check_config_error self e :
  check_config self = inl e -> e = ValueError.
Proof.
  unfold check_config.
  destruct (check_all self required_configs) as [e'|[]] eqn:Hreq.
  - apply ConfigFacts.check_all_error in Hreq. congruence.
  - destruct (is_not_null (TEMP_MAIL self)).
    + destruct (check_is_valid _); congruence.
    + apply ConfigFacts.check_all_error.
Qed.

Lemma check_config_ok self :
  check_config self = inr tt
  <-> has_visible (BROWSER_TYPE self)
      /\ exists t, TEMP_MAIL self = Some t /\ t <> lit "null" /\ has_visible t.
Proof.
  unfold check_config, required_configs. cbn [check_all getattr].
  destruct (check_is_valid (PyStr (BROWSER_TYPE self))) eqn:Hb.
  - apply valid_true_iff in Hb.
    destruct (TEMP_MAIL self) as [t|]; cbn [is_not_null of_getenv].
    + destruct (PyStr.eqb t (lit "null")) eqn:Hn; cbn [negb].
      * apply PyStrMore.eqb_eq in Hn. rewrite ConfigFacts.imap_branch_fails.
        split; [discriminate|].
        intros (_ & t' & Ht & Hne & _). congruence.
      * assert (Hne : t <> lit "null").
        { intros He. apply PyStrMore.eqb_eq in He. congruence. }
        destruct (check_is_valid (PyStr t)) eqn:Ht.
        -- apply valid_true_iff in Ht. split; [|reflexivity].
           intros _. split; [exact Hb|]. exists t. auto.
        -- split; [discriminate|].
           intros (_ & t' & Ht' & _ & Hv). injection Ht' as <-.
           apply valid_true_iff in Hv. congruence.
    + cbn [check_is_valid]. split; [discriminate|].
      intros (_ & t' & Ht & _). discriminate.
  - split; [discriminate|].
    intros (Hv & _). apply valid_true_iff in Hv. congruence.
Qed.

Lemma Config_init_ok py_int env :
  (exists config, Config_init py_int env = inr config)
  <-> py_int (getenv_or env "BROWSER_WIDTH" "1920") <> None
      /\ py_int (getenv_or env "BROWSER_HEIGHT" "1080") <> None
      /\ py_int (getenv_or env "IMAP_PORT" "993") <> None
      /\ has_visible (getenv_or env "BROWSER_TYPE" "chrome")
      /\ exists t, env !! "TEMP_MAIL"%string = Some t
                   /\ t <> lit "null" /\ has_visible t.
Proof.
  unfold Config_init, int_env.
  destruct (py_int (getenv_or env "BROWSER_WIDTH" "1920")) as [width|].
  2: { split; [intros [c H]; discriminate | intros (H & _); congruence]. }
  destruct (py_int (getenv_or env "BROWSER_HEIGHT" "1080")) as [height|].
  2: { split; [intros [c H]; discriminate | intros (_ & H & _); congruence]. }
  destruct (py_int (getenv_or env "IMAP_PORT" "993")) as [port|].
  2: { split; [intros [c H]; discriminate | intros (_ & _ & H & _); congruence]. }
  cbv zeta.
  match goal with
  | |- context [check_config ?c] => set (self := c)
  end.
  pose proof (check_config_ok self) as Hok.
  cbn [BROWSER_TYPE TEMP_MAIL self] in Hok. unfold getenv in Hok.
  destruct (check_config self) as [e|[]].
  - split; [intros [c H]; discriminate|].
    intros (_ & _ & _ & Hb & Ht).
    assert (H : (inl e : result unit) = inr tt) by (apply Hok; auto).
    discriminate.
  - split.
    + intros _. destruct (proj1 Hok eq_refl) as (Hb & Ht).
      repeat split; try discriminate; assumption.
    + intros _. eexists. reflexivity.
Qed.

Lemma Config_init_error py_int env e :
  Config_init py_int env = inl e -> e = ValueError.
Proof.
  unfold Config_init.
  destruct (int_env py_int env "BROWSER_WIDTH" "1920") as [e'|width] eqn:Hw.
  { apply ConfigFacts.int_env_error in Hw. congruence. }
  destruct (int_env py_int env "BROWSER_HEIGHT" "1080") as [e'|height] eqn:Hh.
  { apply ConfigFacts.int_env_error in Hh. congruence. }
  destruct (int_env py_int env "IMAP_PORT" "993") as [e'|port] eqn:Hp.
  { apply ConfigFacts.int_env_error in Hp. congruence. }
  cbv zeta.
  match goal with
  | |- context [check_config ?c] => destruct (check_config c) as [e'|[]] eqn:Hc
  end; [|discriminate].
  apply check_config_error in Hc. congruence.
Qed.

(** The attributes of a configuration are what the environment holds. *)
Lemma Config_init_fields py_int env config :
  Config_init py_int env = inr config ->
  DOMAIN config = getenv_or env "DOMAIN" "@lzban8.me"
  /\ IMAP_SERVER config = env !! "IMAP_SERVER"%string
  /\ IMAP_PASS config = env !! "IMAP_PASS"%string
  /\ IMAP_USER config = env !! "IMAP_USER"%string
  /\ TEMP_MAIL config = env !! "TEMP_MAIL"%string.
Proof.
  unfold Config_init.
  destruct (int_env py_int env "BROWSER_WIDTH" "1920") as [e'|width];
    [discriminate|].
  destruct (int_env py_int env "BROWSER_HEIGHT" "1080") as [e'|height];
    [discriminate|].
  destruct (int_env py_int env "IMAP_PORT" "993") as [e'|port];
    [discriminate|].
  cbv zeta.
  match goal with
  | |- context [check_config ?c] => destruct (check_config c) as [e'|[]]
  end; [discriminate|].
  intros H. injection H as <-. repeat split.
Qed.

End ConfigInitMore.

(** X9: [check_is_valid] accepts a value exactly when it is a string with
    at least one character that is not whitespace; [None] and every
    integer are rejected. *)
Theorem check_is_valid_accepts_exactly_visible_strings :
  forall value : pyval,
    check_is_valid value = true
    <-> exists s, value = PyStr s /\ has_visible s.
Proof.
  intros value. split.
  - intros H. apply ConfigMore.check_is_valid_iff. exact H.
  - intros (s & -> & Hv). apply ConfigInitMore.valid_true_iff. exact Hv.
Qed.

(** X10: building [Config] succeeds exactly when the three integer
    settings parse, [BROWSER_TYPE] has a visible character, and
    [TEMP_MAIL] is set, is not ["null"] and has a visible character;
    every failure is a [ValueError]. *)
Theorem config_is_built_exactly_in_temp_mail_mode :
  forall (py_int : str -> option Z) (env : environ),
    ((exists config, Config_init py_int env = inr config)
     <-> py_int (getenv_or env "BROWSER_WIDTH" "1920") <> None
         /\ py_int (getenv_or env "BROWSER_HEIGHT" "1080") <> None
         /\ py_int (getenv_or env "IMAP_PORT" "993") <> None
         /\ has_visible (getenv_or env "BROWSER_TYPE" "chrome")
         /\ exists t, env !! "TEMP_MAIL"%string = Some t
                      /\ t <> lit "null" /\ has_visible t)
    /\ (forall e, Config_init py_int env = inl e -> e = ValueError).
Proof.
  intros py_int env. split.
  - apply ConfigInitMore.Config_init_ok.
  - intros e. apply ConfigInitMore.Config_init_error.
Qed.

Lemma config_is_built_exactly_in_temp_mail_mode_witness :
  exists t, Examples.example_environ !! "TEMP_MAIL"%string = Some t
            /\ t <> lit "null" /\ has_visible t.
Proof.
  destruct (config_is_built_exactly_in_temp_mail_mode
              PyBuiltin.int_decimal Examples.example_environ) as (Hiff & _).
  apply (proj1 Hiff).
  eexists. vm_compute. reflexivity.
Defined.

Module PrintMore.
Import ConfigPrinting.

Lemma print_config_cases (self : Config) :
  (getenv_truthy (IMAP_SERVER self) = true /\ IMAP_PASS self = None
   /\ fst (print_config self) = inl TypeError
   /\ forall mask, ImapPassLine mask ∉ snd (print_config self))
  \/ (fst (print_config self) = inr tt
      /\ (getenv_truthy (IMAP_SERVER self) = false \/ IMAP_PASS self <> None)
      /\ forall mask, ImapPassLine mask ∈ snd (print_config self) ->
           exists p, IMAP_PASS self = Some p /\ mask = stars (length p)).
Proof.
  unfold print_config. cbv zeta.
  destruct (getenv_truthy (IMAP_SERVER self)).
  - destruct (IMAP_PASS self) as [p|]; cbn [py_len fst snd].
    + right. split; [reflexivity|]. split; [right; discriminate|].
      intros mask.
      rewrite !elem_of_app, !elem_of_cons, !elem_of_nil.
      intros H. exists p. split; [reflexivity|].
      intuition (try discriminate; congruence).
    + left. split; [reflexivity|]. split; [reflexivity|].
      split; [reflexivity|]. intros mask.
      rewrite !elem_of_app, !elem_of_cons, !elem_of_nil.
      intuition discriminate.
  - right. cbn [fst snd]. split; [reflexivity|]. split; [left; reflexivity|].
    intros mask.
    rewrite !elem_of_app, !elem_of_cons, !elem_of_nil.
    intuition discriminate.
Qed.

Lemma getenv_truthy_iff (v : option str) :
  getenv_truthy v = true <-> exists s, v = Some s /\ s <> [].
Proof.
  destruct v as [[|c s]|]; simpl.
  - split; [discriminate | intros (s & H & Hne); congruence].
  - split; [intros _; eexists; split; [reflexivity | discriminate] | reflexivity].
  - split; [discriminate | intros (s & H & _); discriminate].
Qed.

End PrintMore.

(** X11: run as a script, [config.py] ends with an uncaught exception
    exactly when the configuration is accepted and names a non-empty
    [IMAP_SERVER] without an [IMAP_PASS]; the exception is then the
    [TypeError] of [len(None)].  A rejected configuration is reported and
    nothing is raised.  The password itself is never logged: the line for
    it is one ['*'] per character. *)
Theorem config_script_fails_without_an_imap_password :
  forall (py_int : str -> option Z) (env : environ),
    let r := ConfigPrinting.main py_int env in
    (forall e, fst r = inl e ->
       e = TypeError
       /\ (exists config, Config_init py_int env = inr config)
       /\ (exists s, env !! "IMAP_SERVER"%string = Some s /\ s <> [])
       /\ env !! "IMAP_PASS"%string = None)
    /\ (forall config s,
          Config_init py_int env = inr config ->
          env !! "IMAP_SERVER"%string = Some s -> s <> [] ->
          env !! "IMAP_PASS"%string = None ->
          fst r = inl TypeError)
    /\ (forall e, Config_init py_int env = inl e ->
          r = (inr tt, [ConfigPrinting.ErrorLine ValueError]))
    /\ (forall mask, ConfigPrinting.ImapPassLine mask ∈ snd r ->
          exists p, env !! "IMAP_PASS"%string = Some p
                    /\ mask = ConfigPrinting.stars (length p)).
Proof.
  intros py_int env r. subst r. unfold ConfigPrinting.main.
  destruct (Config_init py_int env) as [e|config] eqn:Hc.
  - pose proof (ConfigInitMore.Config_init_error _ _ _ Hc) as ->.
    cbn [fst snd].
    split; [discriminate|]. split; [discriminate|].
    split; [reflexivity|].
    intros mask. rewrite elem_of_cons, elem_of_nil. intuition discriminate.
  - destruct (ConfigInitMore.Config_init_fields _ _ _ Hc)
      as (_ & Hserver & Hpass & _ & _).
    pose proof (PrintMore.print_config_cases config) as Hcases.
    destruct (ConfigPrinting.print_config config) as [res tr].
    cbn [fst snd] in *. rewrite Hserver, Hpass in Hcases.
    destruct Hcases as [(Ht & Hnone & Hres & Hno) | (Hres & Hside & Hmask)].
    + apply PrintMore.getenv_truthy_iff in Ht.
      split; [intros e He; split; [congruence|]; split; [eauto|]; auto|].
      split; [intros; exact Hres|]. split; [discriminate|].
      intros mask. rewrite elem_of_cons. intros [H|H]; [discriminate|].
      exfalso. exact (Hno mask H).
    + split; [intros e He; congruence|].
      split.
      { intros config' s _ Hs Hne Hp. exfalso.
        destruct Hside as [Hf|Hp']; [|congruence].
        assert (Ht : ConfigPrinting.getenv_truthy (env !! "IMAP_SERVER"%string) = true)
          by (apply PrintMore.getenv_truthy_iff; eauto).
        congruence. }
      split; [discriminate|].
      intros mask. rewrite elem_of_cons. intros [H|H]; [discriminate|].
      apply Hmask. exact H.
Qed.

Lemma config_script_fails_without_an_imap_password_witness :
  fst (ConfigPrinting.main PyBuiltin.int_decimal Examples.mixed_environ)
  = inl TypeError.
Proof.
  destruct (Config_init PyBuiltin.int_decimal Examples.mixed_environ)
    as [e|config] eqn:Hc; [vm_compute in Hc; discriminate|].
  destruct (config_script_fails_without_an_imap_password
              PyBuiltin.int_decimal Examples.mixed_environ) as (_ & Hfail & _).
  apply (Hfail config (lit "imap.example.com") Hc).
  - vm_compute. reflexivity.
  - discriminate.
  - vm_compute. reflexivity.
Defined.

Module CredentialMore.
Import Random Credentials.

Lemma char_in_at (c : ascii) :
  PyStr.char_in (lit "@") c = true <-> c = "@"%char.
Proof.
  unfold PyStr.char_in. simpl. rewrite orb_false_r. apply Ascii.eqb_eq.
Qed.

(** [DOMAIN.strip('@')]: the domain without the ['@'] around it. *)
Lemma strip_at_split (d : str) :
  exists pre post,
    d = pre ++ PyStr.strip_chars (lit "@") d ++ post
    /\ Forall (fun c => c = "@"%char) pre
    /\ Forall (fun c => c = "@"%char) post
    /\ head (PyStr.strip_chars (lit "@") d) <> Some "@"%char
    /\ last (PyStr.strip_chars (lit "@") d) <> Some "@"%char.
Proof.
  unfold PyStr.strip_chars.
  destruct (PyStrMore.strip_by_split (PyStr.char_in (lit "@")) d)
    as (pre & post & Hd & Hpre & Hpost & Hhead & Hlast).
  exists pre, post. split; [exact Hd|].
  split; [eapply Forall_impl; [exact Hpre|]; intros c; apply char_in_at|].
  split; [eapply Forall_impl; [exact Hpost|]; intros c; apply char_in_at|].
  split.
  - intros H. specialize (Hhead _ H). vm_compute in Hhead. discriminate.
  - intros H. specialize (Hlast _ H). vm_compute in Hlast. discriminate.
Qed.

Lemma random_string_returns (n : nat) (g : rng) :
  exists s,
    generate_random_string n g = (inr s, advance_by n g)
    /\ length s = n
    /\ Forall (fun c => PyChar.is_ascii_letter c || PyChar.is_ascii_digit c = true) s.
Proof.
  unfold generate_random_string. cbv zeta.
  destruct (RandomFacts.choices_return n
              (PyString.ascii_letters ++ PyString.digits) g)
    as (s & Hs & Hlen & Hall); [CredentialFacts.alphabet_nonempty|].
  exists s. split; [exact Hs|]. split; [exact Hlen|].
  pose proof CredentialFacts.characters_are_alnum as Hc.
  rewrite Forall_forall in Hc, Hall. apply Forall_forall.
  intros c Hin. apply Hc, Hall, Hin.
Qed.

Lemma generate_email_runs py_int env config g :
  Config_init py_int env = inr config ->
  exists username,
    generate_email py_int env g
    = (inr (username ++ "@"%char :: PyStr.strip_chars (lit "@") (DOMAIN config)),
       advance_by 8 g)
    /\ length username = 8
    /\ Forall (fun c => PyChar.is_ascii_letter c || PyChar.is_ascii_digit c = true)
         username.
Proof.
  intros Hc. destruct (random_string_returns 8 g) as (username & Hu & Hlen & Hall).
  exists username. split; [|split; assumption].
  unfold generate_email. cbv zeta.
  unfold bind at 1. unfold lift. rewrite Hc.
  unfold bind at 1. rewrite Hu. reflexivity.
Qed.

Lemma generate_email_fails py_int env e g :
  Config_init py_int env = inl e ->
  generate_email py_int env g = (inl ValueError, g).
Proof.
  intros Hc. pose proof (ConfigInitMore.Config_init_error _ _ _ Hc) as ->.
  unfold generate_email. cbv zeta.
  unfold bind at 1. unfold lift. rewrite Hc. reflexivity.
Qed.

Lemma generate_password_returns (g : rng) :
  exists password g',
    generate_password g = (inr password, g')
    /\ length password = 12
    /\ Forall (fun c => c ∈ PyString.ascii_lowercase ++ PyString.ascii_uppercase
                            ++ PyString.digits ++ special) password.
Proof.
  unfold generate_password. cbv zeta.
  set (all_chars := PyString.ascii_lowercase ++ PyString.ascii_uppercase
                      ++ PyString.digits ++ special).
  destruct (RandomFacts.choice_returns PyString.ascii_lowercase g)
    as (c1 & H1 & Hin1); [CredentialFacts.alphabet_nonempty|].
  destruct (RandomFacts.choice_returns PyString.ascii_uppercase (advance g))
    as (c2 & H2 & Hin2); [CredentialFacts.alphabet_nonempty|].
  destruct (RandomFacts.choice_returns PyString.digits (advance (advance g)))
    as (c3 & H3 & Hin3); [CredentialFacts.alphabet_nonempty|].
  destruct (RandomFacts.choice_returns special (advance (advance (advance g))))
    as (c4 & H4 & Hin4); [CredentialFacts.alphabet_nonempty|].
  destruct (RandomFacts.choices_return 8 all_chars
              (advance (advance (advance (advance g)))))
    as (more & Hm & Hlen & Hall); [CredentialFacts.alphabet_nonempty|].
  destruct (RandomFacts.shuffle_permutes ([c1; c2; c3; c4] ++ more)
              (advance_by 8 (advance (advance (advance (advance g))))))
    as (password & g' & Hs & Hperm).
  exists password, g'.
  split.
  { unfold bind at 1. rewrite H1.
    unfold bind at 1. rewrite H2.
    unfold bind at 1. rewrite H3.
    unfold bind at 1. rewrite H4.
    unfold bind at 1.
    change (12 - length [c1; c2; c3; c4]) with 8. fold all_chars. rewrite Hm.
    unfold bind at 1. rewrite Hs. reflexivity. }
  split.
  { rewrite (Permutation_length Hperm), length_app, Hlen. reflexivity. }
  rewrite Hperm. apply Forall_app. split; [|exact Hall].
  unfold all_chars. apply Forall_forall. intros c.
  rewrite !elem_of_cons, elem_of_nil, !elem_of_app.
  intros [->|[->|[->|[->|[]]]]]; auto.
Qed.

End CredentialMore.

(** X12: for every accepted configuration [generate_email] returns eight
    ASCII letters or digits, one ['@'], and the configured [DOMAIN]
    without the ['@'] characters at its two ends, so the domain part
    never starts or ends with ['@']; it uses eight random draws.  When
    the configuration is rejected it raises [ValueError] and draws
    nothing. *)
Theorem generate_email_strips_the_domain :
  forall (py_int : str -> option Z) (env : environ) (g : Random.rng),
    (forall config, Config_init py_int env = inr config ->
       exists username domain pre post,
         Credentials.generate_email py_int env g
         = (inr (username ++ "@"%char :: domain), Random.advance_by 8 g)
         /\ length username = 8
         /\ Forall (fun c => PyChar.is_ascii_letter c || PyChar.is_ascii_digit c = true)
              username
         /\ DOMAIN config = pre ++ domain ++ post
         /\ Forall (fun c => c = "@"%char) pre
         /\ Forall (fun c => c = "@"%char) post
         /\ head domain <> Some "@"%char
         /\ last domain <> Some "@"%char)
    /\ (forall e, Config_init py_int env = inl e ->
          Credentials.generate_email py_int env g = (inl ValueError, g)).
Proof.
  intros py_int env g. split.
  - intros config Hc.
    destruct (CredentialMore.generate_email_runs py_int env config g Hc)
      as (username & Hrun & Hlen & Hall).
    destruct (CredentialMore.strip_at_split (DOMAIN config))
      as (pre & post & Hd & Hpre & Hpost & Hhead & Hlast).
    exists username, (PyStr.strip_chars (lit "@") (DOMAIN config)), pre, post.
    repeat (split; [assumption|]). assumption.
  - intros e. apply CredentialMore.generate_email_fails.
Qed.

Lemma generate_email_strips_the_domain_witness :
  exists username domain,
    Credentials.generate_email PyBuiltin.int_decimal Examples.wrapped_environ
      (fun k => k)
    = (inr (username ++ "@"%char :: domain), Random.advance_by 8 (fun k => k))
    /\ length username = 8
    /\ head domain <> Some "@"%char
    /\ last domain <> Some "@"%char.
Proof.
  destruct (Config_init PyBuiltin.int_decimal Examples.wrapped_environ)
    as [e|config] eqn:Hc; [vm_compute in Hc; discriminate|].
  destruct (generate_email_strips_the_domain
              PyBuiltin.int_decimal Examples.wrapped_environ (fun k => k))
    as (Hrun & _).
  destruct (Hrun config Hc)
    as (username & domain & pre & post & Heq & Hlen & _ & _ & _ & _
        & Hhead & Hlast).
  exists username, domain. auto.
Defined.

(** X13: [generate_random_string(n)] never fails: for every state of the
    random source it returns exactly [n] characters, each an ASCII letter
    or digit (so none is ['@']), and uses [n] draws. *)
Theorem generate_random_string_length_and_alphabet :
  forall (n : nat) (g : Random.rng),
    exists s,
      Credentials.generate_random_string n g = (inr s, Random.advance_by n g)
      /\ length s = n
      /\ Forall (fun c => PyChar.is_ascii_letter c || PyChar.is_ascii_digit c = true) s
      /\ ("@"%char ∉ s).
Proof.
  intros n g.
  destruct (CredentialMore.random_string_returns n g) as (s & Hs & Hlen & Hall).
  exists s. split; [exact Hs|]. split; [exact Hlen|]. split; [exact Hall|].
  intros Hin. rewrite Forall_forall in Hall. specialize (Hall _ Hin).
  vm_compute in Hall. discriminate.
Qed.

(** X14: [generate_account_info(domain)] ignores its argument: for every
    accepted configuration the e-mail is eight random characters, ['@']
    and the stripped [DOMAIN] of the configuration, whatever [domain] is,
    and the password has twelve characters of the password alphabet.
    When the configuration is rejected it raises [ValueError] before any
    random draw. *)
Theorem account_info_ignores_the_domain_argument :
  forall (py_int : str -> option Z) (domain : str) (env : environ)
         (g : Random.rng),
    (forall config, Config_init py_int env = inr config ->
       exists username password g',
         AccountInfo.generate_account_info py_int domain env g
         = (inr {| AccountInfo.email :=
                     username ++ "@"%char
                       :: PyStr.strip_chars (lit "@") (DOMAIN config);
                   AccountInfo.password := password |}, g')
         /\ length username = 8
         /\ length password = 12
         /\ Forall (fun c => c ∈ PyString.ascii_lowercase
                                 ++ PyString.ascii_uppercase
                                 ++ PyString.digits ++ Credentials.special)
              password
         /\ (forall other,
               AccountInfo.generate_account_info py_int other env g
               = AccountInfo.generate_account_info py_int domain env g))
    /\ (forall e, Config_init py_int env = inl e ->
          AccountInfo.generate_account_info py_int domain env g
          = (inl ValueError, g)).
Proof.
  intros py_int domain env g. split.
  - intros config Hc.
    destruct (CredentialMore.generate_email_runs py_int env config g Hc)
      as (username & Hrun & Hlen & _).
    destruct (CredentialMore.generate_password_returns (Random.advance_by 8 g))
      as (password & g' & Hp & Hplen & Hpall).
    exists username, password, g'.
    split; [|split; [exact Hlen|split; [exact Hplen|split; [exact Hpall|]]]].
    + unfold AccountInfo.generate_account_info.
      unfold Random.bind at 1. rewrite Hrun.
      unfold Random.bind at 1. rewrite Hp. reflexivity.
    + intros other. reflexivity.
  - intros e Hc. unfold AccountInfo.generate_account_info.
    unfold Random.bind at 1.
    rewrite (CredentialMore.generate_email_fails py_int env e g Hc).
    reflexivity.
Qed.

Lemma account_info_ignores_the_domain_argument_witness :
  AccountInfo.generate_account_info PyBuiltin.int_decimal (lit "other.org")
    Examples.imap_environ (fun k => k)
  = (inl ValueError, fun k => k).
Proof.
  destruct (Config_init PyBuiltin.int_decimal Examples.imap_environ)
    as [e|config] eqn:Hc; [|vm_compute in Hc; discriminate].
  destruct (account_info_ignores_the_domain_argument
              PyBuiltin.int_decimal (lit "other.org") Examples.imap_environ
              (fun k => k)) as (_ & Hfail).
  exact (Hfail e Hc).
Defined.

(** ** More on the key script and the orchestrator *)

Module KeyScriptMore.
Import KeyScript RunObserved.

Lemma getApiKey_array_Some to_number items k :
  getApiKey to_number (FetchJson (JArr items)) = Some k ->
  exists members rest,
    items = JObj members :: rest
    /\ Json.member (lit "key") members = Some (JStr k)
    /\ PyStr.startswith (lit "tvly-") k = true.
Proof.
  intros Hk.
  destruct (KeyScriptFacts.getApiKey_Some _ _ _ Hk)
    as (data & entry & Hd & Hitem & Hprop & Hpre).
  injection Hd as <-. cbn [item0] in Hitem.
  destruct items as [|first rest]; [discriminate|].
  cbn [head] in Hitem. injection Hitem as ->.
  destruct (KeyScriptFacts.prop_key_Some _ _ Hprop) as (members & He & Hm).
  injection He as ->. exists members, rest. auto.
Qed.

Lemma getApiKey_first_only to_number entry rest rest' :
  getApiKey to_number (FetchJson (JArr (entry :: rest)))
  = getApiKey to_number (FetchJson (JArr (entry :: rest'))).
Proof. reflexivity. Qed.

Lemma getApiKey_scalar to_number data :
  is_scalar data = true -> getApiKey to_number (FetchJson data) = None.
Proof.
  destruct data as [|b|x|s| |]; try discriminate; intros _.
  - reflexivity.
  - destruct b; reflexivity.
  - unfold getApiKey, try_block. cbn [length_positive].
    destruct (negb (js_truthy (JNum x))); reflexivity.
  - destruct s as [|c s]; reflexivity.
Qed.

End KeyScriptMore.

(** X15: on an array the key script looks at the first entry only: it
    returns a key exactly when that entry is an object whose [key] is a
    string starting with ["tvly-"], and then returns that string; the
    other entries never matter, an empty array gives no key, and neither
    does a failed fetch or a value that is not an array or an object. *)
Theorem key_script_reads_only_the_first_entry :
  forall (to_number : json -> float),
    (forall items k,
       KeyScript.getApiKey to_number (KeyScript.FetchJson (JArr items)) = Some k
       <-> exists members rest,
             items = JObj members :: rest
             /\ Json.member (lit "key") members = Some (JStr k)
             /\ PyStr.startswith (lit "tvly-") k = true)
    /\ (forall entry rest rest',
          KeyScript.getApiKey to_number (KeyScript.FetchJson (JArr (entry :: rest)))
          = KeyScript.getApiKey to_number
              (KeyScript.FetchJson (JArr (entry :: rest'))))
    /\ KeyScript.getApiKey to_number (KeyScript.FetchJson (JArr [])) = None
    /\ KeyScript.getApiKey to_number KeyScript.FetchThrows = None
    /\ (forall data, RunObserved.is_scalar data = true ->
          KeyScript.getApiKey to_number (KeyScript.FetchJson data) = None).
Proof.
  intros to_number.
  split; [|split; [|split; [reflexivity|split; [reflexivity|]]]].
  - intros items k. split.
    + apply KeyScriptMore.getApiKey_array_Some.
    + intros (members & rest & -> & Hm & Hp).
      apply KeyScriptFacts.getApiKey_array; assumption.
  - apply KeyScriptMore.getApiKey_first_only.
  - apply KeyScriptMore.getApiKey_scalar.
Qed.

Lemma key_script_reads_only_the_first_entry_witness :
  KeyScript.getApiKey Examples.to_number_zero
    (KeyScript.FetchJson
       (JArr [JObj [(lit "key", JStr (lit "tvly-abc123"))]; JNull]))
  = Some (lit "tvly-abc123").
Proof.
  destruct (key_script_reads_only_the_first_entry Examples.to_number_zero)
    as (Hiff & _).
  apply Hiff. exists [(lit "key", JStr (lit "tvly-abc123"))], [JNull].
  repeat split.
Defined.

Module RunMore.
Import TavilyAutoRegister RunObserved.

Section Run.
Variable py_int : str -> option Z.
Variable to_number : json -> float.

Ltac leaf := cbn [fst snd app head last count_events]; repeat split.

Lemma start_brackets env st g f :
  let r := start py_int to_number env st g f in
  head (events r) = Some BrowserStart
  /\ last (events r) = Some BrowserClose
  /\ count_events is_browser_start (events r) = 1
  /\ count_events is_browser_close (events r) = 1
  /\ count_events is_open_file (events r) <= 1
  /\ (browser_start st = false ->
      events r = [BrowserStart; BrowserClose] /\ returned r = false).
Proof.
  unfold start, start_body, events, returned. cbv zeta.
  destruct (browser_start st); cbn [negb].
  2: { repeat split; unfold count_events; simpl; lia. }
  destruct (captcha_handler_init st) as [e|[]].
  { repeat split; try discriminate; unfold count_events; simpl; lia. }
  destruct (Credentials.generate_email py_int env g) as [[e|email] g1].
  { repeat split; try discriminate; unfold count_events; simpl; lia. }
  destruct (Credentials.generate_password g1) as [[e|password] g2].
  { repeat split; try discriminate; unfold count_events; simpl; lia. }
  destruct (handle_navigation st); cbn [negb].
  2: { repeat split; try discriminate; unfold count_events; simpl; lia. }
  destruct (fill_registration_form st email password); cbn [negb].
  2: { repeat split; try discriminate; unfold count_events; simpl; lia. }
  unfold _get_api_key.
  destruct (run_js st) as [e|o].
  { repeat split; try discriminate; unfold count_events; simpl; lia. }
  destruct (KeyScript.getApiKey to_number o) as [k|] eqn:Hk.
  2: { repeat split; try discriminate; unfold count_events; simpl; lia. }
  destruct (KeyScriptFacts.getApiKey_Some _ _ _ Hk) as (_ & _ & _ & _ & _ & Hp).
  pose proof (KeyScriptFacts.prefix_truthy _ Hp) as Ht.
  cbn [key_truthy]. rewrite Ht. cbv beta iota. rewrite Ht. cbn [negb].
  unfold _save_account_info. cbv zeta.
  destruct (open_raises st);
    repeat split; try discriminate; unfold count_events; simpl; lia.
Qed.

Lemma start_file env st g f :
  let r := start py_int to_number env st g f in
  (file_after r = f
   /\ (returned r = true -> open_raises st = true))
  \/ exists email password k g1 g2,
       Credentials.generate_email py_int env g = (inr email, g1)
       /\ Credentials.generate_password g1 = (inr password, g2)
       /\ fill_registration_form st email password = true
       /\ key_of to_number st = Some k
       /\ PyStr.startswith (lit "tvly-") k = true
       /\ open_raises st = false
       /\ returned r = true
       /\ file_after r = Some (appended f (Row email password k (strftime st))).
Proof.
  unfold start, start_body, file_after, returned, key_of. cbv zeta.
  destruct (browser_start st); cbn [negb].
  2: { left. split; [reflexivity | discriminate]. }
  destruct (captcha_handler_init st) as [e|[]].
  { left. split; [reflexivity | discriminate]. }
  destruct (Credentials.generate_email py_int env g) as [[e|email] g1].
  { left. split; [reflexivity | discriminate]. }
  destruct (Credentials.generate_password g1) as [[e|password] g2] eqn:Hpw.
  { left. split; [reflexivity | discriminate]. }
  destruct (handle_navigation st); cbn [negb].
  2: { left. split; [reflexivity | discriminate]. }
  destruct (fill_registration_form st email password) eqn:Hfill; cbn [negb].
  2: { left. split; [reflexivity | discriminate]. }
  unfold _get_api_key.
  destruct (run_js st) as [e|o].
  { left. split; [reflexivity | discriminate]. }
  destruct (KeyScript.getApiKey to_number o) as [k|] eqn:Hk.
  2: { left. split; [reflexivity | discriminate]. }
  destruct (KeyScriptFacts.getApiKey_Some _ _ _ Hk) as (_ & _ & _ & _ & _ & Hp).
  pose proof (KeyScriptFacts.prefix_truthy _ Hp) as Ht.
  cbn [key_truthy]. rewrite Ht. cbv beta iota. rewrite Ht. cbn [negb].
  unfold _save_account_info. cbv zeta.
  destruct (open_raises st).
  - left. split; reflexivity.
  - right. exists email, password, k, g1, g2.
    cbn [fst snd]. unfold appended. repeat split; assumption.
Qed.

End Run.
End RunMore.

(** X16: whatever happens in a run, the browser is started first and
    closed last, each exactly once, and [accounts.csv] is opened at most
    once; when the browser does not start nothing else is attempted. *)
Theorem run_starts_and_closes_the_browser_once :
  forall (py_int : str -> option Z) (to_number : json -> float)
         (env : environ) (st : TavilyAutoRegister.site)
         (g : Random.rng) (f : TavilyAutoRegister.file),
    let r := TavilyAutoRegister.start py_int to_number env st g f in
    head (TavilyAutoRegister.events r) = Some TavilyAutoRegister.BrowserStart
    /\ last (TavilyAutoRegister.events r) = Some TavilyAutoRegister.BrowserClose
    /\ count_events RunObserved.is_browser_start (TavilyAutoRegister.events r) = 1
    /\ count_events RunObserved.is_browser_close (TavilyAutoRegister.events r) = 1
    /\ count_events RunObserved.is_open_file (TavilyAutoRegister.events r) <= 1
    /\ (TavilyAutoRegister.browser_start st = false ->
        TavilyAutoRegister.events r
        = [TavilyAutoRegister.BrowserStart; TavilyAutoRegister.BrowserClose]
        /\ TavilyAutoRegister.returned r = false).
Proof.
  intros py_int to_number env st g f. apply RunMore.start_brackets.
Qed.

Lemma run_starts_and_closes_the_browser_once_witness :
  TavilyAutoRegister.events
    (TavilyAutoRegister.start PyBuiltin.int_decimal Examples.to_number_zero
       Examples.example_environ
       (TavilyAutoRegister.Build_site false (inr tt) true (fun _ _ => true)
          (inr KeyScript.FetchThrows) [] false)
       (fun k => k) None)
  = [TavilyAutoRegister.BrowserStart; TavilyAutoRegister.BrowserClose].
Proof.
  destruct (run_starts_and_closes_the_browser_once
              PyBuiltin.int_decimal Examples.to_number_zero
              Examples.example_environ
              (TavilyAutoRegister.Build_site false (inr tt) true (fun _ _ => true)
                 (inr KeyScript.FetchThrows) [] false)
              (fun k => k) None) as (_ & _ & _ & _ & _ & Hoff).
  apply Hoff. reflexivity.
Defined.

(** X17: a run never removes or rewrites what [accounts.csv] holds.  The
    file either stays as it was, or gets exactly one more row (after a
    header when the file was absent): the e-mail and password generated in
    this run and accepted by the form, the key returned by the page, which
    starts with ["tvly-"], and the time stamp; the run then returns
    [True].  A run that returns [True] without writing is one whose
    [open] raised. *)
Theorem run_only_appends_to_the_accounts_file :
  forall (py_int : str -> option Z) (to_number : json -> float)
         (env : environ) (st : TavilyAutoRegister.site)
         (g : Random.rng) (f : TavilyAutoRegister.file),
    let r := TavilyAutoRegister.start py_int to_number env st g f in
    (TavilyAutoRegister.file_after r <> f ->
     exists email password k g1 g2,
       Credentials.generate_email py_int env g = (inr email, g1)
       /\ Credentials.generate_password g1 = (inr password, g2)
       /\ TavilyAutoRegister.fill_registration_form st email password = true
       /\ TavilyAutoRegister.key_of to_number st = Some k
       /\ PyStr.startswith (lit "tvly-") k = true
       /\ TavilyAutoRegister.returned r = true
       /\ TavilyAutoRegister.file_after r
          = Some (TavilyAutoRegister.appended f
                    (TavilyAutoRegister.Row email password k
                       (TavilyAutoRegister.strftime st))))
    /\ (forall rows, f = Some rows ->
          exists added,
            TavilyAutoRegister.file_after r = Some (rows ++ added)
            /\ length added <= 1
            /\ (TavilyAutoRegister.Header ∉ added))
    /\ (f = None ->
        TavilyAutoRegister.file_after r = None
        \/ exists row,
             TavilyAutoRegister.file_after r
             = Some [TavilyAutoRegister.Header; row]
             /\ row <> TavilyAutoRegister.Header)
    /\ (TavilyAutoRegister.returned r = true ->
        TavilyAutoRegister.file_after r = f ->
        TavilyAutoRegister.open_raises st = true).
Proof.
  intros py_int to_number env st g f r. subst r.
  pose proof (RunMore.start_file py_int to_number env st g f) as Hc.
  cbv zeta in Hc.
  destruct Hc as [(Hsame & Hopen)
                 | (email & password & k & g1 & g2 & He & Hp & Hfill & Hk
                    & Hpre & Hopen & Hret & Hfile)].
  - split; [intros Hne; congruence|].
    split.
    { intros rows ->. exists []. rewrite app_nil_r.
      split; [exact Hsame|]. split; [simpl; lia|]. apply not_elem_of_nil. }
    split; [intros ->; left; exact Hsame|].
    intros Hret _. apply Hopen, Hret.
  - split.
    { intros _. exists email, password, k, g1, g2. repeat split; assumption. }
    split.
    { intros rows ->. eexists. split; [exact Hfile|].
      split; [simpl; lia|].
      rewrite elem_of_cons, elem_of_nil. intuition discriminate. }
    split.
    { intros ->. right. eexists. split; [exact Hfile | discriminate]. }
    intros _ Hsame. exfalso. rewrite Hfile in Hsame.
    destruct f as [rows|]; [|discriminate].
    injection Hsame as Hsame.
    apply (f_equal length) in Hsame. rewrite length_app in Hsame.
    simpl in Hsame. lia.
Qed.

Lemma run_only_appends_to_the_accounts_file_witness :
  let r := TavilyAutoRegister.start PyBuiltin.int_decimal Examples.to_number_zero
             Examples.example_environ
             (TavilyAutoRegister.set_open_raises false Examples.unwritable_site)
             (fun k => k) (Some [TavilyAutoRegister.Header]) in
  exists added,
    TavilyAutoRegister.file_after r = Some ([TavilyAutoRegister.Header] ++ added)
    /\ length added <= 1
    /\ (TavilyAutoRegister.Header ∉ added).
Proof.
  intros r.
  destruct (run_only_appends_to_the_accounts_file
              PyBuiltin.int_decimal Examples.to_number_zero
              Examples.example_environ
              (TavilyAutoRegister.set_open_raises false Examples.unwritable_site)
              (fun k => k) (Some [TavilyAutoRegister.Header]))
    as (_ & Hkeep & _).
  apply Hkeep. reflexivity.
Defined.

(** ** More on the browser helpers *)

Module NavigationMore.
Import Navigation.

Lemma slept_app a b : slept (a ++ b) = (slept a + slept b)%Z.
Proof.
  induction a as [|e a IH]; [reflexivity|].
  destruct e; simpl; rewrite IH; lia.
Qed.

Ltac tally :=
  rewrite ?RetryLoopFacts.count_events_app, ?slept_app;
  unfold count_events; simpl; try lia.



End NavigationMore.



(** ** More on the captcha handler *)

Module CaptchaLoopMore.
Import Captcha CaptchaLoop.

(** What the recognizer returns is the filtered text. *)
Lemma recognized_is_filtered {Elt} (img : option Elt) env text :
  fst (_recognize_captcha img env) = Some text ->
  Forall (fun c => PyChar.isalnum c = true) text.
Proof.
  unfold _recognize_captcha.
  destruct img; [|discriminate].
  destruct (get_screenshot env); [discriminate|].
  destruct (read_image env); [discriminate|].
  destruct (classification env) as [|raw]; [discriminate|].
  cbn [fst]. intros H. injection H as <-. apply CaptchaFacts.keep_alnum_all.
Qed.

Ltac members Hev :=
  rewrite ?elem_of_app, ?elem_of_cons, ?elem_of_nil in Hev;
  repeat match goal with H : _ \/ _ |- _ => destruct H end;
  try discriminate; try contradiction.

Ltac leaf :=
  rewrite <- ?app_assoc; eexists; split; [reflexivity|];
  split; [reflexivity|];
  split; [|unfold count_events; simpl; lia];
  apply Forall_forall; intros ev Hev text' ->; members Hev;
  match goal with
  | H : TypeCaptcha _ = TypeCaptcha _ |- _ => injection H as ->
  end; auto.

Lemma one_round_spec rd n tr :
  exists added,
    snd (one_round rd n tr) = tr ++ added
    /\ fst (one_round rd n tr)
       = match settles rd with Some b => Return b | None => Continue end
    /\ Forall (typed_ok rd) added
    /\ count_events is_typing added <= 1.
Proof.
  unfold one_round, settles, reaches_check. cbv zeta.
  destruct (captcha_image rd) eqn:Himg; cbn [negb].
  2: { unfold recognized. rewrite Himg. leaf. }
  pose proof (recognized_is_filtered (Some tt) (ocr rd)) as Hfil.
  assert (Hr : recognized rd = fst (_recognize_captcha (Some tt) (ocr rd)))
    by (unfold recognized; rewrite Himg; reflexivity).
  rewrite Hr.
  destruct (_recognize_captcha (Some tt) (ocr rd)) as [[text|] lines];
    cbn [fst] in *; [|leaf].
  specialize (Hfil text eq_refl).
  destruct (PyStr.truthy text) eqn:Ht; cbn [negb andb]; [|leaf].
  assert (Hne : text <> []) by (destruct text; discriminate).
  destruct (input_captcha rd text); cbn [negb andb]; [|leaf].
  destruct (click_continue rd); cbn [negb andb]; [|leaf].
  destruct (verification rd) as [e|[]]; leaf.
Qed.

Lemma rounds_from_spec rounds fuel :
  forall k n tr,
    let r := rounds_from fuel rounds k n tr in
    exists added,
      snd r = tr ++ added
      /\ Forall (fun e => exists j, typed_ok (rounds j) e) added
      /\ count_events is_typing added <= fuel
      /\ match fst (fst r) with
         | Some b =>
             exists j, k <= j < k + fuel
                       /\ settles (rounds j) = Some b
                       /\ (forall i, k <= i < j -> settles (rounds i) = None)
                       /\ snd (fst r) = n + (j - k) + 1
         | None =>
             (forall j, k <= j < k + fuel -> settles (rounds j) = None)
             /\ snd (fst r) = n + fuel
         end.
Proof.
  induction fuel as [|fuel IH]; intros k n tr; cbv zeta.
  - cbn [rounds_from fst snd]. exists []. rewrite app_nil_r.
    split; [reflexivity|]. split; [constructor|].
    split; [unfold count_events; simpl; lia|].
    split; [intros j Hj; lia | lia].
  - cbn [rounds_from].
    destruct (one_round_spec (rounds k) (n + 1) tr)
      as (added1 & Hsnd & Hfst & Htyped & Hcount).
    assert (Htyped1 : Forall (fun e => exists j, typed_ok (rounds j) e) added1).
    { eapply Forall_impl; [exact Htyped|]. intros e He. exists k. exact He. }
    destruct (one_round (rounds k) (n + 1) tr) as [[|b] tr1];
      cbn [fst snd] in *; subst tr1.
    + destruct (settles (rounds k)) as [b|] eqn:Hs; [discriminate|].
      specialize (IH (S k) (n + 1) (tr ++ added1)). cbv zeta in IH.
      destruct IH as (added2 & Hsnd2 & Htyped2 & Hcount2 & Hres).
      exists (added1 ++ added2).
      split; [rewrite Hsnd2, app_assoc; reflexivity|].
      split; [apply Forall_app; split; assumption|].
      split; [rewrite RetryLoopFacts.count_events_app; lia|].
      destruct (fst (fst (rounds_from fuel rounds (S k) (n + 1) (tr ++ added1))))
        as [b|].
      * destruct Hres as (j & Hj & Hsj & Hfirst & Hn).
        exists j. split; [lia|]. split; [exact Hsj|].
        split; [|lia].
        intros i Hi. destruct (decide (i = k)) as [->|Hne];
          [exact Hs | apply Hfirst; lia].
      * destruct Hres as (Hnone & Hn). split; [|lia].
        intros j Hj. destruct (decide (j = k)) as [->|Hne];
          [exact Hs | apply Hnone; lia].
    + destruct (settles (rounds k)) as [b'|] eqn:Hs; [|discriminate].
      injection Hfst as ->.
      exists added1. split; [reflexivity|]. split; [exact Htyped1|].
      split; [lia|].
      exists k. split; [lia|]. split; [exact Hs|].
      split; [intros i Hi; lia | lia].
Qed.

Lemma settles_false rd :
  settles rd = Some false -> exists e, verification rd = inl e.
Proof.
  unfold settles. destruct (reaches_check rd); [|discriminate].
  destruct (verification rd) as [e|[]]; try discriminate. eauto.
Qed.

End CaptchaLoopMore.

(** X19: every text that [verify_captcha] types into the captcha field
    is what the recognizer returned in that round: it is not empty and
    holds letters and digits only.  A recognition that leaves no letter
    or digit is treated like a failed one and nothing is typed.  At most
    one text is typed per round. *)
Theorem captcha_texts_typed_are_nonempty_alphanumeric :
  forall (fuel : nat) (rounds : nat -> CaptchaLoop.round)
         (captcha_attempts : nat) (text : str),
    CaptchaLoop.TypeCaptcha text
      ∈ snd (CaptchaLoop.verify_captcha fuel rounds captcha_attempts) ->
    text <> []
    /\ Forall (fun c => PyChar.isalnum c = true) text
    /\ (exists j, CaptchaLoop.recognized (rounds j) = Some text)
    /\ count_events CaptchaLoop.is_typing
         (snd (CaptchaLoop.verify_captcha fuel rounds captcha_attempts))
       <= fuel.
Proof.
  intros fuel rounds captcha_attempts text Hin.
  unfold CaptchaLoop.verify_captcha in *.
  pose proof (CaptchaLoopMore.rounds_from_spec rounds fuel 0 captcha_attempts [])
    as H.
  cbv zeta in H. destruct H as (added & Hsnd & Htyped & Hcount & _).
  rewrite Hsnd in *. cbn [app] in *.
  rewrite Forall_forall in Htyped.
  destruct (Htyped _ Hin) as (j & Hj).
  destruct (Hj text eq_refl) as (Hne & Hrec & Hall).
  repeat split; eauto.
Qed.

Lemma captcha_texts_typed_are_nonempty_alphanumeric_witness :
  lit "aB3dE9" <> []
  /\ Forall (fun c => PyChar.isalnum c = true) (lit "aB3dE9").
Proof.
  destruct (captcha_texts_typed_are_nonempty_alphanumeric 1
              (fun _ => Examples.solved_round) 0 (lit "aB3dE9"))
    as (Hne & Hall & _).
  - vm_compute. do 7 apply list_elem_of_further. apply list_elem_of_here.
  - split; assumption.
Defined.

(** X20: [verify_captcha] never gives up on its own.  Within any number
    of rounds it returns the value of the first round that settles the
    matter: [True] when that round got as far as the check and the check
    passed, [False] only when the check itself raised; while no round
    settles it the loop is still running.  [captcha_attempts] grows by
    one per round started. *)
Theorem captcha_loop_ends_only_by_success_or_exception :
  forall (fuel : nat) (rounds : nat -> CaptchaLoop.round)
         (captcha_attempts : nat),
    let r := CaptchaLoop.verify_captcha fuel rounds captcha_attempts in
    (fst (fst r) = None
     <-> forall j, j < fuel -> CaptchaLoop.settles (rounds j) = None)
    /\ (forall b,
          fst (fst r) = Some b
          <-> exists j, j < fuel
                /\ CaptchaLoop.settles (rounds j) = Some b
                /\ forall i, i < j -> CaptchaLoop.settles (rounds i) = None)
    /\ (fst (fst r) = Some false ->
        exists j e, j < fuel
                    /\ CaptchaLoop.verification (rounds j) = inl e)
    /\ (fst (fst r) = None -> snd (fst r) = captcha_attempts + fuel)
    /\ (forall b, fst (fst r) = Some b ->
          captcha_attempts < snd (fst r) <= captcha_attempts + fuel).
Proof.
  intros fuel rounds captcha_attempts r. subst r.
  unfold CaptchaLoop.verify_captcha.
  pose proof (CaptchaLoopMore.rounds_from_spec rounds fuel 0 captcha_attempts [])
    as H.
  cbv zeta in H. destruct H as (added & _ & _ & _ & Hres).
  destruct (fst (fst (CaptchaLoop.rounds_from fuel rounds 0 captcha_attempts [])))
    as [b|].
  - destruct Hres as (j & Hj & Hs & Hfirst & Hn).
    assert (Huniq : forall b' j', j' < fuel ->
              CaptchaLoop.settles (rounds j') = Some b' ->
              (forall i, i < j' -> CaptchaLoop.settles (rounds i) = None) ->
              b' = b).
    { intros b' j' Hj' Hs' Hfirst'.
      destruct (lt_eq_lt_dec j j') as [[Hlt|Heq]|Hgt].
      - rewrite Hfirst' in Hs by lia. discriminate.
      - subst j'. congruence.
      - rewrite Hfirst in Hs' by lia. discriminate. }
    split.
    { split; [discriminate|]. intros Hnone.
      rewrite Hnone in Hs by lia. discriminate. }
    split.
    { intros b'. split.
      - intros Hb. injection Hb as <-. exists j.
        split; [lia|]. split; [exact Hs|]. intros i Hi. apply Hfirst. lia.
      - intros (j' & Hj' & Hs' & Hfirst').
        f_equal. symmetry. eapply Huniq; eauto. }
    split.
    { intros Hb. injection Hb as ->.
      destruct (CaptchaLoopMore.settles_false _ Hs) as [e He].
      exists j, e. split; [lia | exact He]. }
    split; [discriminate|].
    intros b' _. lia.
  - destruct Hres as (Hnone & Hn).
    split.
    { split; [intros _ j Hj; apply Hnone; lia | reflexivity]. }
    split.
    { intros b. split; [discriminate|].
      intros (j & Hj & Hs & _). rewrite Hnone in Hs by lia. discriminate. }
    split; [discriminate|].
    split; [intros _; exact Hn | discriminate].
Qed.

Lemma captcha_loop_ends_only_by_success_or_exception_witness :
  fst (fst (CaptchaLoop.verify_captcha 3
              (fun j => if Nat.ltb j 2 then Examples.blank_round
                        else Examples.solved_round) 0))
  = Some true.
Proof.
  destruct (captcha_loop_ends_only_by_success_or_exception 3
              (fun j => if Nat.ltb j 2 then Examples.blank_round
                        else Examples.solved_round) 0) as (_ & Hiff & _).
  apply Hiff. exists 2. split; [lia|]. split; [reflexivity|].
  intros i Hi. destruct i as [|[|i]]; [reflexivity | reflexivity | lia].
Defined.

Module PasswordInputMore.
Import PasswordInput.

Ltac members Hev :=
  rewrite ?elem_of_app, ?elem_of_cons, ?elem_of_nil in Hev;
  repeat match goal with H : _ \/ _ |- _ => destruct H end;
  try discriminate; try contradiction.

Ltac count := unfold count_events; simpl; lia.

Ltac only_password :=
  apply Forall_forall; intros ev Hev how' text' ->; members Hev; congruence.

Ltac only_pw :=
  rewrite ?Forall_app; repeat split; first [assumption | only_password].

Lemma handle_input_spec pg how text tr :
  exists added,
    snd (_handle_input pg how text tr) = tr ++ added
    /\ (fst (_handle_input pg how text tr) = true
        <-> element_input pg how text = inr tt)
    /\ count_events is_typing added = 1
    /\ count_events is_click added = 0
    /\ count_events is_continue_script added = 0
    /\ Forall (types_only text) added
    /\ (typed_logged added -> fst (_handle_input pg how text tr) = true).
Proof.
  unfold _handle_input. cbv zeta.
  destruct (element_input pg how text) as [e|[]]; cbn [fst snd];
    rewrite <- app_assoc; eexists; (split; [reflexivity|]).
  - split; [split; discriminate|]. do 3 (split; [count|]).
    split; [only_password|]. intros (t & Hev). members Hev.
  - split; [split; reflexivity|]. do 3 (split; [count|]).
    split; [only_password|]. reflexivity.
Qed.

Lemma by_id_branch_spec pg password tr :
  exists added,
    snd (by_id_branch pg password tr) = tr ++ added
    /\ (fst (by_id_branch pg password tr) = inr true
        <-> element_input pg ById password = inr tt
            /\ continue_script pg = inr true
            /\ continue_click pg = inr tt)
    /\ count_events is_typing added = 1
    /\ Forall (types_only password) added.
Proof.
  unfold by_id_branch. cbv zeta.
  destruct (handle_input_spec pg ById password
              (tr ++ [Logged INFO FoundById; Wait 1]))
    as (added1 & Hsnd & Hfst & Htyping & _ & _ & Honly & _).
  destruct (_handle_input pg ById password
              (tr ++ [Logged INFO FoundById; Wait 1])) as [ok tr1].
  cbn [fst snd] in *. subst tr1.
  destruct ok; cbn [negb].
  - pose proof (proj1 Hfst eq_refl) as Hinput.
    destruct (continue_script pg) as [e|[]];
      [| destruct (continue_click pg) as [e|[]] |]; cbn [fst snd];
      rewrite <- ?app_assoc; eexists; (split; [reflexivity|]);
      (split; [split; [try discriminate; auto
                      | intros (_ & H1 & H2); try discriminate; auto]|]);
      (split; [rewrite !RetryLoopFacts.count_events_app, Htyping; count|]);
      only_pw.
  - cbn [fst snd]. rewrite <- ?app_assoc. eexists. split; [reflexivity|].
    split.
    { split; [discriminate|]. intros (H & _). apply Hfst in H. discriminate. }
    split; [rewrite !RetryLoopFacts.count_events_app, Htyping; count|].
    only_pw.
Qed.

Lemma fallback_branch_spec pg how password tr :
  exists added,
    snd (fallback_branch pg how password tr) = tr ++ added
    /\ fst (fallback_branch pg how password tr) <> inr true
    /\ count_events is_typing added = 1
    /\ count_events is_click added = 0
    /\ count_events is_continue_script added = 0
    /\ Forall (types_only password) added
    /\ (typed_logged added ->
        fst (fallback_branch pg how password tr) = inl UnboundLocalError).
Proof.
  unfold fallback_branch. cbv zeta.
  destruct (handle_input_spec pg how password
              (tr ++ [Logged INFO (found_message how); Wait 1]))
    as (added1 & Hsnd & Hfst & Htyping & Hclick & Hscript & Honly & Hlogged).
  destruct (_handle_input pg how password
              (tr ++ [Logged INFO (found_message how); Wait 1])) as [ok tr1].
  cbn [fst snd] in *. subst tr1.
  destruct ok; cbn [negb fst snd]; rewrite <- ?app_assoc;
    eexists; (split; [reflexivity|]); (split; [discriminate|]);
    rewrite !RetryLoopFacts.count_events_app, ?Htyping, ?Hclick, ?Hscript;
    (split; [count|]); (split; [count|]); (split; [count|]).
  - split; [only_pw | reflexivity].
  - split.
    + only_pw.
    + intros (t & Hev). exfalso.
      rewrite elem_of_app in Hev. destruct Hev as [Hev|Hev].
      * destruct how; members Hev.
      * assert (H : false = true) by (apply Hlogged; exists t; exact Hev).
        discriminate.
Qed.

Lemma try_selectors_spec pg password selectors :
  forall tr,
    exists added,
      snd (try_selectors pg password selectors tr) = tr ++ added
      /\ fst (try_selectors pg password selectors tr) <> Some (inr true)
      /\ count_events is_typing added <= 1
      /\ count_events is_click added = 0
      /\ count_events is_continue_script added = 0
      /\ Forall (types_only password) added
      /\ (fst (try_selectors pg password selectors tr) = None ->
          count_events is_typing added = 0 /\ ~ typed_logged added)
      /\ (typed_logged added ->
          fst (try_selectors pg password selectors tr)
          = Some (inl UnboundLocalError)).
Proof.
  induction selectors as [|i rest IH]; intros tr.
  - cbn [try_selectors fst snd]. exists []. rewrite app_nil_r.
    split; [reflexivity|]. split; [discriminate|].
    do 3 (split; [count|]). split; [constructor|].
    split; [intros _; split; [count|]|]; intros (t & Hev); inversion Hev.
  - cbn [try_selectors].
    destruct (ele pg (BySelector i)) as [e|[]].
    + cbn [fst snd]. eexists. split; [reflexivity|].
      split; [discriminate|]. do 3 (split; [count|]).
      split; [only_password|].
      split; [discriminate|]. intros (t & Hev). members Hev.
    + destruct (fallback_branch_spec pg (BySelector i) password
                  (tr ++ [Logged INFO (TryingSelector i); Find (BySelector i)]))
        as (added1 & Hsnd & Hfst & Htyping & Hclick & Hscript & Honly & Hlogged).
      destruct (fallback_branch pg (BySelector i) password
                  (tr ++ [Logged INFO (TryingSelector i); Find (BySelector i)]))
        as [r tr1].
      cbn [fst snd] in *. subst tr1. rewrite <- app_assoc.
      eexists. split; [reflexivity|].
      split; [congruence|].
      rewrite !RetryLoopFacts.count_events_app, Htyping, Hclick, Hscript.
      do 3 (split; [count|]).
      split; [only_pw|].
      split; [discriminate|].
      intros (t & Hev). f_equal. apply Hlogged. exists t.
      rewrite elem_of_app in Hev. destruct Hev as [Hev|Hev]; [members Hev|].
      exact Hev.
    + destruct (IH (tr ++ [Logged INFO (TryingSelector i); Find (BySelector i)]))
        as (added2 & Hsnd & Hfst & Htyping & Hclick & Hscript & Honly & Hnone
            & Hlogged).
      eexists. split; [rewrite Hsnd, <- app_assoc; reflexivity|].
      split; [exact Hfst|].
      rewrite !RetryLoopFacts.count_events_app, Hclick, Hscript.
      split; [revert Htyping; count|]. do 2 (split; [count|]).
      split; [only_pw|].
      split.
      * intros Hn. destruct (Hnone Hn) as (H0 & Hno).
        split; [rewrite H0; count|].
        intros (t & Hev). apply Hno. exists t.
        rewrite elem_of_app in Hev. destruct Hev as [Hev|Hev]; [members Hev|].
        exact Hev.
      * intros (t & Hev). apply Hlogged. exists t.
        rewrite elem_of_app in Hev. destruct Hev as [Hev|Hev]; [members Hev|].
        exact Hev.
Qed.

Lemma script_branch_spec pg password tr :
  exists added,
    snd (script_branch pg password tr) = tr ++ added
    /\ fst (script_branch pg password tr) <> Some true
    /\ count_events is_typing added <= 1
    /\ count_events is_click added = 0
    /\ count_events is_continue_script added = 0
    /\ Forall (types_only password) added
    /\ (typed_logged added ->
        Logged WARNING (ScriptFailed UnboundLocalError) ∈ added).
Proof.
  unfold script_branch. cbv zeta.
  destruct (ele pg ByScript) as [e|[]].
  - cbn [fst snd]. rewrite <- app_assoc. eexists. split; [reflexivity|].
    split; [discriminate|]. do 3 (split; [count|]).
    split; [only_password|]. intros (t & Hev). members Hev.
  - destruct (fallback_branch_spec pg ByScript password
                (tr ++ [Logged INFO TryingScript; Find ByScript]))
      as (added1 & Hsnd & Hfst & Htyping & Hclick & Hscript & Honly & Hlogged).
    destruct (fallback_branch pg ByScript password
                (tr ++ [Logged INFO TryingScript; Find ByScript]))
      as [[e|b] tr1]; cbn [fst snd] in *; subst tr1; rewrite <- ?app_assoc;
      eexists; (split; [reflexivity|]).
    + split; [discriminate|].
      rewrite !RetryLoopFacts.count_events_app, Htyping, Hclick, Hscript.
      do 3 (split; [count|]).
      split; [only_pw|].
      intros (t & Hev).
      assert (Ht : typed_logged added1).
      { exists t. rewrite !elem_of_app in Hev.
        destruct Hev as [Hev|[Hev|Hev]]; [members Hev | exact Hev | members Hev]. }
      specialize (Hlogged Ht). injection Hlogged as ->.
      rewrite !elem_of_app. right. right. apply list_elem_of_here.
    + split; [destruct b; congruence|].
      rewrite !RetryLoopFacts.count_events_app, Htyping, Hclick, Hscript.
      do 3 (split; [count|]).
      split; [only_pw|].
      intros (t & Hev). exfalso.
      assert (Ht : typed_logged added1).
      { exists t. rewrite !elem_of_app in Hev.
        destruct Hev as [Hev|Hev]; [members Hev | exact Hev]. }
      specialize (Hlogged Ht). discriminate.
  - cbn [fst snd]. eexists. split; [reflexivity|].
    split; [discriminate|]. do 3 (split; [count|]).
    split; [only_password|]. intros (t & Hev). members Hev.
Qed.

(** The whole method when the [#password] element is not found. *)
Lemma without_id_spec pg password :
  config_password pg = Some password ->
  PyStr.truthy password = true ->
  ele pg ById = inr false ->
  fst (handle_password_input pg) = false
  /\ count_events is_typing (snd (handle_password_input pg)) <= 1
  /\ count_events is_click (snd (handle_password_input pg)) = 0
  /\ count_events is_continue_script (snd (handle_password_input pg)) = 0
  /\ Forall (types_only password) (snd (handle_password_input pg))
  /\ (typed_logged (snd (handle_password_input pg)) ->
      unbound_reported (snd (handle_password_input pg))).
Proof.
  intros Hp Ht Hid. unfold handle_password_input, handle_password_input_body.
  rewrite Hp, Ht, Hid. cbn [negb]. cbv zeta.
  destruct (try_selectors_spec pg password alternative_selectors
              ([] ++ [Logged INFO SearchingField; Find ById]))
    as (added1 & Hsnd & Hfst & Htyping & Hclick & Hscript & Honly & Hnone
        & Hlogged).
  destruct (try_selectors pg password alternative_selectors
              ([] ++ [Logged INFO SearchingField; Find ById]))
    as [[[e|b]|] tr1]; cbn [fst snd] in *; subst tr1.
  - split; [reflexivity|].
    rewrite !RetryLoopFacts.count_events_app, Hclick, Hscript.
    split; [revert Htyping; count|]. do 2 (split; [count|]).
    split; [only_pw|].
    intros (t & Hev). left.
    assert (Htl : typed_logged added1).
    { exists t. rewrite !elem_of_app in Hev.
      destruct Hev as [[Hev|Hev]|Hev]; [members Hev | exact Hev | members Hev]. }
    specialize (Hlogged Htl). injection Hlogged as ->.
    rewrite !elem_of_app. right. apply list_elem_of_here.
  - destruct b; [congruence|]. split; [reflexivity|].
    rewrite !RetryLoopFacts.count_events_app, Hclick, Hscript.
    split; [revert Htyping; count|]. do 2 (split; [count|]).
    split; [only_pw|].
    intros (t & Hev). exfalso.
    assert (Htl : typed_logged added1).
    { exists t. rewrite !elem_of_app in Hev.
      destruct Hev as [Hev|Hev]; [members Hev | exact Hev]. }
    specialize (Hlogged Htl). discriminate.
  - destruct (Hnone eq_refl) as (Htyping0 & Hnolog).
    destruct (script_branch_spec pg password
                (([] ++ [Logged INFO SearchingField; Find ById]) ++ added1))
      as (added2 & Hsnd2 & Hfst2 & Htyping2 & Hclick2 & Hscript2 & Honly2
          & Hlogged2).
    destruct (script_branch pg password
                (([] ++ [Logged INFO SearchingField; Find ById]) ++ added1))
      as [[b|] tr2]; cbn [fst snd] in *; subst tr2.
    + destruct b; [congruence|]. split; [reflexivity|].
      rewrite !RetryLoopFacts.count_events_app, Hclick, Hscript, Hclick2,
        Hscript2, Htyping0.
      split; [revert Htyping2; count|]. do 2 (split; [count|]).
      split; [only_pw|].
      intros (t & Hev). right.
      rewrite !elem_of_app in Hev.
      destruct Hev as [[Hev|Hev]|Hev];
        [members Hev | exfalso; apply Hnolog; exists t; exact Hev |].
      rewrite !elem_of_app. right. apply Hlogged2. exists t. exact Hev.
    + split; [reflexivity|].
      rewrite !RetryLoopFacts.count_events_app, Hclick, Hscript, Hclick2,
        Hscript2, Htyping0.
      split; [revert Htyping2; count|]. do 2 (split; [count|]).
      split; [only_pw|].
      intros (t & Hev). right.
      rewrite !elem_of_app in Hev.
      destruct Hev as [[[Hev|Hev]|Hev]|Hev];
        [members Hev | exfalso; apply Hnolog; exists t; exact Hev | | members Hev].
      rewrite !elem_of_app. left. right. apply Hlogged2. exists t. exact Hev.
Qed.

Lemma success_iff pg :
  fst (handle_password_input pg) = true
  <-> exists password,
        config_password pg = Some password
        /\ password <> []
        /\ ele pg ById = inr true
        /\ element_input pg ById password = inr tt
        /\ continue_script pg = inr true
        /\ continue_click pg = inr tt.
Proof.
  destruct (config_password pg) as [password|] eqn:Hp.
  2: { unfold handle_password_input, handle_password_input_body. rewrite Hp.
       split; [discriminate | intros (p & H & _); discriminate]. }
  destruct (PyStr.truthy password) eqn:Ht.
  2: { unfold handle_password_input, handle_password_input_body.
       rewrite Hp, Ht. cbn [negb fst].
       split; [discriminate|].
       intros (p & H & Hne & _). injection H as <-.
       destruct password; [congruence | discriminate]. }
  assert (Hne : password <> []) by (destruct password; discriminate).
  destruct (ele pg ById) as [e|[]] eqn:Hid.
  - unfold handle_password_input, handle_password_input_body.
    rewrite Hp, Ht, Hid. cbn [negb fst].
    split; [discriminate | intros (p & _ & _ & H & _); discriminate].
  - unfold handle_password_input, handle_password_input_body.
    rewrite Hp, Ht, Hid. cbn [negb]. cbv zeta.
    destruct (by_id_branch_spec pg password
                ([] ++ [Logged INFO SearchingField; Find ById]))
      as (added & _ & Hiff & _).
    destruct (by_id_branch pg password
                ([] ++ [Logged INFO SearchingField; Find ById])) as [[e|b] tr1];
      cbn [fst] in *.
    + split; [discriminate|].
      intros (p & H & _ & _ & H1 & H2 & H3). injection H as <-.
      assert (Hx : (inl e : result bool) = inr true) by (apply Hiff; auto).
      discriminate.
    + split.
      * intros ->. exists password.
        destruct (proj1 Hiff eq_refl) as (H1 & H2 & H3).
        repeat split; auto.
      * intros (p & H & _ & _ & H1 & H2 & H3). injection H as <-.
        assert (Hx : (inr b : result bool) = inr true) by (apply Hiff; auto).
        congruence.
  - destruct (without_id_spec pg password Hp Ht Hid) as (Hf & _).
    rewrite Hf.
    split; [discriminate | intros (p & _ & _ & H & _); discriminate].
Qed.

End PasswordInputMore.

(** X21: [handle_password_input] returns [True] exactly when the
    configured password is not empty, the field is found as [#password],
    typing into it works, the button script finds the Continue button and
    the click works.  A field found by one of the alternative selectors
    or by the script never leads to [True]. *)
Theorem password_step_succeeds_only_through_the_id_selector :
  forall pg : PasswordInput.page,
    fst (PasswordInput.handle_password_input pg) = true
    <-> exists password,
          PasswordInput.config_password pg = Some password
          /\ password <> []
          /\ PasswordInput.ele pg PasswordInput.ById = inr true
          /\ PasswordInput.element_input pg PasswordInput.ById password = inr tt
          /\ PasswordInput.continue_script pg = inr true
          /\ PasswordInput.continue_click pg = inr tt.
Proof. intros pg. apply PasswordInputMore.success_iff. Qed.

Lemma password_step_succeeds_only_through_the_id_selector_witness :
  fst (PasswordInput.handle_password_input Examples.password_page) = true.
Proof.
  apply password_step_succeeds_only_through_the_id_selector.
  exists (lit "aB3@aB3@aB3@"). repeat split. discriminate.
Defined.

(** X22: when [#password] is not on the page, the method fails without
    ever running the button script or clicking: if a fallback finds the
    field the password is typed into it (at most once, and nothing else
    is typed), and what follows is the [UnboundLocalError] of the unset
    [js_code], which is caught and logged. *)
Theorem password_fallbacks_type_but_never_click :
  forall (pg : PasswordInput.page) (password : str),
    PasswordInput.config_password pg = Some password ->
    password <> [] ->
    PasswordInput.ele pg PasswordInput.ById = inr false ->
    let r := PasswordInput.handle_password_input pg in
    fst r = false
    /\ count_events PasswordInput.is_typing (snd r) <= 1
    /\ count_events PasswordInput.is_click (snd r) = 0
    /\ count_events PasswordInput.is_continue_script (snd r) = 0
    /\ Forall (PasswordInput.types_only password) (snd r)
    /\ (PasswordInput.typed_logged (snd r) ->
        PasswordInput.unbound_reported (snd r)).
Proof.
  intros pg password Hp Hne Hid r. subst r.
  apply PasswordInputMore.without_id_spec; try assumption.
  destruct password; [congruence | reflexivity].
Qed.

Lemma password_fallbacks_type_but_never_click_witness :
  let r := PasswordInput.handle_password_input Examples.fallback_page in
  fst r = false
  /\ PasswordInput.typed_logged (snd r)
  /\ PasswordInput.unbound_reported (snd r).
Proof.
  intros r.
  destruct (password_fallbacks_type_but_never_click Examples.fallback_page
              (lit "aB3@aB3@aB3@")) as (Hf & _ & _ & _ & _ & Hunbound);
    [reflexivity | discriminate | reflexivity |].
  assert (Ht : PasswordInput.typed_logged
                 (snd (PasswordInput.handle_password_input Examples.fallback_page))).
  { exists (lit "aB3@aB3@aB3@"). vm_compute.
    do 8 apply list_elem_of_further. apply list_elem_of_here. }
  split; [exact Hf|]. split; [exact Ht | exact (Hunbound Ht)].
Defined.

(** ** More on the registration steps *)

Module StepsMore.

Lemma elem_of_map_inv {A B} (f : A -> B) (l : list A) (y : B) :
  y ∈ map f l -> exists x, y = f x /\ x ∈ l.
Proof.
  induction l as [|a l IH]; simpl; intros Hin.
  - inversion Hin.
  - apply elem_of_cons in Hin as [->|Hin].
    + exists a. split; [reflexivity | apply list_elem_of_here].
    + destruct (IH Hin) as (x & -> & Hx). exists x.
      split; [reflexivity | apply list_elem_of_further; exact Hx].
Qed.

Lemma count_events_map {A B} (f : A -> B) (p : B -> bool) (l : list A) :
  count_events p (map f l) = count_events (fun a => p (f a)) l.
Proof.
  unfold count_events. induction l as [|a l IH]; [reflexivity|].
  simpl. destruct (p (f a)); simpl; rewrite IH; reflexivity.
Qed.

(** The temp-mail handler: what it returns and how often it polls. *)
Lemma handler_general max_retries retry_interval w :
  let r := EmailVerificationHandler.get_verification_code
             max_retries retry_interval w in
  count_events is_fetch (snd r) <= Z.to_nat max_retries
  /\ forall code, fst (fst r) = Some code ->
       length code = 6 /\ Forall (fun c => PyChar.is_decimal c = true) code.
Proof.
  cbv zeta.
  unfold EmailVerificationHandler.get_verification_code,
    RetryLoop.get_verification_code.
  destruct (RetryLoopMore.attempts_from_general TempMail._get_latest_mail_code
              max_retries retry_interval (Z.to_nat max_retries) 0 w [] eq_refl)
    as (added & r & Hrun & Hle & _ & _ & _ & Hsome & _ & _).
  rewrite Hrun. cbn [app].
  destruct r as [e|c]; cbn [fst snd].
  - split; [|discriminate].
    rewrite RetryLoopFacts.count_events_app.
    change (count_events is_fetch [Report ERROR "raised"]) with 0. lia.
  - split; [exact Hle|]. intros code ->.
    destruct (Hsome code eq_refl) as (_ & k & _ & Hy).
    unfold RetryLoop.yield in Hy.
    exact (PollMore.poll_yields_six_digits _ _ Hy).
Qed.

End StepsMore.

Module VerifyEmailMore.
Import EmailVerification.

Ltac members Hev :=
  rewrite ?elem_of_app, ?elem_of_cons, ?elem_of_nil in Hev;
  repeat match goal with H : _ \/ _ |- _ => destruct H end;
  try discriminate; try contradiction.

Lemma poll_is_not_typing polled code : TypeCode code ∉ map Poll polled.
Proof.
  intros Hin. apply StepsMore.elem_of_map_inv in Hin as (x & Hx & _).
  discriminate.
Qed.

Lemma poll_counts polled :
  count_events is_poll_fetch (map Poll polled) = count_events is_fetch polled
  /\ count_events touches_page (map Poll polled) = 0.
Proof.
  rewrite !StepsMore.count_events_map. split; [reflexivity|].
  unfold count_events. induction polled as [|e l IH]; [reflexivity|].
  simpl. exact IH.
Qed.

Lemma verify_email_spec w pg :
  let h := EmailVerificationHandler.get_verification_code 5 10 w in
  let r := verify_email w pg in
  count_events is_poll_fetch (snd r) <= 5
  /\ (forall code, TypeCode code ∈ snd r ->
        fst (fst h) = Some code
        /\ length code = 6
        /\ Forall (fun c => PyChar.is_decimal c = true) code)
  /\ (fst (fst r) = true
      <-> exists code current,
            fst (fst h) = Some code
            /\ wait_and_type pg code = true
            /\ wait_and_click pg = true
            /\ url pg = inr current
            /\ PyStrIn.contains (lit "dashboard") current = true)
  /\ (fst (fst h) = None ->
      fst (fst r) = false /\ count_events touches_page (snd r) = 0).
Proof.
  cbv zeta. unfold verify_email.
  pose proof (StepsMore.handler_general 5 10 w) as Hh. cbv zeta in Hh.
  destruct Hh as (Hle & Hsix). change (Z.to_nat 5) with 5 in Hle.
  destruct (EmailVerificationHandler.get_verification_code 5 10 w)
    as [[verification_code w'] polled].
  cbn [fst snd] in *.
  destruct (poll_counts polled) as (Hpf & Hpt).
  assert (Hnot : forall code, TypeCode code ∉ map Poll polled)
    by (intros code; apply poll_is_not_typing).
  destruct verification_code as [code|].
  2: { cbn [fst snd]. rewrite !RetryLoopFacts.count_events_app, Hpf, Hpt.
       split; [unfold count_events in *; simpl; lia|].
       split.
       { intros code Hev. exfalso. apply elem_of_app in Hev as [Hev|Hev];
           [members Hev | exact (Hnot code Hev)]. }
       split; [split; [discriminate | intros (c & u & H & _); discriminate]|].
       intros _. split; [reflexivity | unfold count_events in *; simpl; lia]. }
  destruct (Hsix code eq_refl) as (Hlen & Hdigits).
  assert (Ht : PyStr.truthy code = true)
    by (destruct code; [simpl in Hlen; lia | reflexivity]).
  rewrite Ht. cbn [negb].
  assert (Htyped : forall tr code',
            TypeCode code'
              ∈ ([Logged INFO WaitingForMail] ++ map Poll polled)
                  ++ [Logged INFO (GotCode code); TypeCode code] ++ tr ->
            (forall c, TypeCode c ∉ tr) ->
            Some code = Some code' /\ length code' = 6
            /\ Forall (fun c => PyChar.is_decimal c = true) code').
  { intros tr code' Hev Htr.
    rewrite !elem_of_app in Hev. destruct Hev as [[Hev|Hev]|[Hev|Hev]].
    - members Hev.
    - exfalso. exact (Hnot code' Hev).
    - members Hev. injection H as ->. auto.
    - exfalso. exact (Htr code' Hev). }
  destruct (wait_and_type pg code) eqn:Htype; cbn [negb].
  2: { cbn [fst snd]. rewrite !RetryLoopFacts.count_events_app, Hpf.
       split; [unfold count_events in *; simpl; lia|].
       split.
       { intros code' Hev. apply (Htyped [] code').
         - rewrite app_nil_r. exact Hev.
         - intros c Hc. inversion Hc. }
       split; [|discriminate].
       split; [discriminate|].
       intros (c & u & H & Hty & _). injection H as <-. congruence. }
  destruct (wait_and_click pg) eqn:Hclick; cbn [negb].
  2: { cbn [fst snd]. rewrite !RetryLoopFacts.count_events_app, Hpf.
       split; [unfold count_events in *; simpl; lia|].
       split.
       { intros code' Hev. apply (Htyped [ClickSubmit] code').
         - rewrite <- app_assoc in Hev. exact Hev.
         - intros c Hc. members Hc. }
       split; [|discriminate].
       split; [discriminate|].
       intros (c & u & _ & _ & H & _). discriminate. }
  destruct (url pg) as [e|current] eqn:Hurl.
  { cbn [fst snd]. rewrite !RetryLoopFacts.count_events_app, Hpf.
    split; [unfold count_events in *; simpl; lia|].
    split.
    { intros code' Hev.
      apply (Htyped ([ClickSubmit] ++ [Wait 3; ReadUrl]
                       ++ [Logged ERROR (VerificationFailed e)]) code').
      - rewrite <- !app_assoc in Hev. rewrite <- !app_assoc. exact Hev.
      - intros c Hc. members Hc. }
    split; [|discriminate].
    split; [discriminate|].
    intros (c & u & _ & _ & _ & H & _). discriminate. }
  destruct (PyStrIn.contains (lit "dashboard") current) eqn:Hdash;
    cbn [fst snd]; rewrite !RetryLoopFacts.count_events_app, Hpf;
    (split; [unfold count_events in *; simpl; lia|]);
    (split;
     [intros code' Hev;
      match type of Hev with
      | _ ∈ _ ++ [?last] =>
          apply (Htyped ([ClickSubmit] ++ [Wait 3; ReadUrl] ++ [last]) code');
          [rewrite <- !app_assoc in Hev; rewrite <- !app_assoc; exact Hev
          | intros c Hc; members Hc]
      end|]);
    (split; [|discriminate]).
  - split; [intros _; exists code, current; auto | reflexivity].
  - split; [discriminate|].
    intros (c & u & _ & _ & _ & H & Hd). injection H as <-. congruence.
Qed.

End VerifyEmailMore.

(** X23: [verify_email] polls the mailbox at most five times, and
    whatever it types into the code field is the handler's code, exactly
    six decimal digits.  It returns [True] exactly when a code was found,
    typing and clicking worked, and the address of the page then contains
    ["dashboard"]; in particular it returns [False] when the page is at
    the class's own [dashboard_url].  Without a code the page is not
    touched. *)
Theorem verify_email_types_only_the_six_digit_code :
  forall (w : TempMail.world) (pg : EmailVerification.page),
    let h := EmailVerificationHandler.get_verification_code 5 10 w in
    let r := EmailVerification.verify_email w pg in
    count_events EmailVerification.is_poll_fetch (snd r) <= 5
    /\ (forall code, EmailVerification.TypeCode code ∈ snd r ->
          fst (fst h) = Some code
          /\ length code = 6
          /\ Forall (fun c => PyChar.is_decimal c = true) code)
    /\ (fst (fst r) = true
        <-> exists code current,
              fst (fst h) = Some code
              /\ EmailVerification.wait_and_type pg code = true
              /\ EmailVerification.wait_and_click pg = true
              /\ EmailVerification.url pg = inr current
              /\ PyStrIn.contains (lit "dashboard") current = true)
    /\ (fst (fst h) = None ->
        fst (fst r) = false
        /\ count_events EmailVerification.touches_page (snd r) = 0)
    /\ (EmailVerification.url pg = inr EmailVerification.dashboard_url ->
        fst (fst r) = false).
Proof.
  intros w pg h r. subst h r.
  pose proof (VerifyEmailMore.verify_email_spec w pg) as H. cbv zeta in H.
  destruct H as (Hpoll & Htyped & Hiff & Hnone).
  split; [exact Hpoll|]. split; [exact Htyped|]. split; [exact Hiff|].
  split; [exact Hnone|].
  intros Hurl.
  destruct (fst (fst (EmailVerification.verify_email w pg))) eqn:Hr;
    [|reflexivity].
  exfalso. destruct (proj1 Hiff eq_refl) as (c & u & _ & _ & _ & Hu & Hd).
  rewrite Hurl in Hu. injection Hu as <-. vm_compute in Hd. discriminate.
Qed.

Lemma verify_email_types_only_the_six_digit_code_witness :
  fst (fst (EmailVerification.verify_email Examples.empty_mailbox
              {| EmailVerification.wait_and_type := fun _ => true;
                 EmailVerification.wait_and_click := true;
                 EmailVerification.url := inr EmailVerification.dashboard_url |}))
  = false.
Proof.
  destruct (verify_email_types_only_the_six_digit_code Examples.empty_mailbox
              {| EmailVerification.wait_and_type := fun _ => true;
                 EmailVerification.wait_and_click := true;
                 EmailVerification.url := inr EmailVerification.dashboard_url |})
    as (_ & _ & _ & _ & Hurl).
  apply Hurl. reflexivity.
Defined.

Module FormMore.
Import RegistrationForm.

Lemma captcha_events_count l :
  count_events is_captcha (map Captcha l) = length l
  /\ count_events is_password (map Captcha l) = 0.
Proof.
  unfold count_events.
  induction l as [|e l [IH1 IH2]]; [split; reflexivity|].
  cbn [map List.filter is_captcha is_password length].
  rewrite IH1. split; [reflexivity | exact IH2].
Qed.

Lemma password_events_count l :
  count_events is_captcha (map Password l) = 0
  /\ count_events is_password (map Password l) = length l.
Proof.
  unfold count_events.
  induction l as [|e l [IH1 IH2]]; [split; reflexivity|].
  cbn [map List.filter is_captcha is_password length].
  rewrite IH2. split; [exact IH1 | reflexivity].
Qed.

Ltac leaf :=
  cbn [fst snd]; unfold email_entered;
  rewrite ?RetryLoopFacts.count_events_app;
  repeat match goal with
         | |- context [map Captcha ?l] =>
             let H1 := fresh in let H2 := fresh in
             destruct (captcha_events_count l) as [H1 H2];
             rewrite ?H1, ?H2; clear H1 H2
         | |- context [map Password ?l] =>
             let H1 := fresh in let H2 := fresh in
             destruct (password_events_count l) as [H1 H2];
             rewrite ?H1, ?H2; clear H1 H2
         end;
  unfold count_events; simpl;
  intuition (try discriminate; try congruence; try lia).

Lemma fill_spec fuel frm email password captcha_attempts :
  let c := CaptchaLoop.verify_captcha fuel (captcha_rounds frm) captcha_attempts in
  let p := PasswordInput.handle_password_input (password_page frm) in
  let r := _fill_registration_form fuel frm email password captcha_attempts in
  (fst (fst r) = Some true
   <-> email_entered frm email /\ fst (fst c) = Some true /\ fst p = true)
  /\ (fst (fst r) = None
      <-> email_entered frm email /\ fst (fst c) = None)
  /\ (0 < count_events is_captcha (snd r) -> email_entered frm email)
  /\ (0 < count_events is_password (snd r) ->
      email_entered frm email /\ fst (fst c) = Some true)
  /\ count_events is_captcha (snd r) <= length (snd c)
  /\ count_events is_password (snd r) <= length (snd p).
Proof.
  cbv zeta.
  unfold _fill_registration_form, form_body, _handle_email_input, email_entered.
  cbv zeta.
  destruct (email_script frm) as [e|[]]; [leaf| |leaf].
  destruct (email_clear frm) as [e|[]]; [leaf|].
  destruct (email_input frm email) as [e|[]]; [leaf|].
  destruct (CaptchaLoop.verify_captcha fuel (captcha_rounds frm) captcha_attempts)
    as [[[[]|] n] captcha_events]; [|leaf|leaf].
  destruct (PasswordInput.handle_password_input (password_page frm))
    as [[] password_events]; leaf.
Qed.

End FormMore.

(** X24: [_fill_registration_form] returns [True] exactly when the e-mail
    field is found, cleared and filled, the captcha loop returns [True]
    and the password step returns [True]; it is still running exactly
    when the e-mail was entered and the captcha loop is still running.
    The captcha loop is entered only after the e-mail was entered and
    the password step only after the captcha was verified.  The
    [password] argument plays no role: the password step reads the
    password from the configuration. *)
Theorem form_steps_run_in_order :
  forall (fuel : nat) (frm : RegistrationForm.form) (email password : str)
         (captcha_attempts : nat),
    let c := CaptchaLoop.verify_captcha fuel
               (RegistrationForm.captcha_rounds frm) captcha_attempts in
    let p := PasswordInput.handle_password_input
               (RegistrationForm.password_page frm) in
    let r := RegistrationForm._fill_registration_form
               fuel frm email password captcha_attempts in
    (fst (fst r) = Some true
     <-> RegistrationForm.email_entered frm email
         /\ fst (fst c) = Some true /\ fst p = true)
    /\ (fst (fst r) = None
        <-> RegistrationForm.email_entered frm email /\ fst (fst c) = None)
    /\ (0 < count_events RegistrationForm.is_captcha (snd r) ->
        RegistrationForm.email_entered frm email)
    /\ (0 < count_events RegistrationForm.is_password (snd r) ->
        RegistrationForm.email_entered frm email /\ fst (fst c) = Some true)
    /\ (forall other,
          RegistrationForm._fill_registration_form
            fuel frm email other captcha_attempts = r).
Proof.
  intros fuel frm email password captcha_attempts c p r. subst c p r.
  pose proof (FormMore.fill_spec fuel frm email password captcha_attempts) as H.
  cbv zeta in H. destruct H as (H1 & H2 & H3 & H4 & _).
  split; [exact H1|]. split; [exact H2|]. split; [exact H3|].
  split; [exact H4|]. intros other. reflexivity.
Qed.

Lemma form_steps_run_in_order_witness :
  fst (fst (RegistrationForm._fill_registration_form 1 Examples.signup_form
              (lit "abcd1234@example.com") (lit "unused") 0))
  = Some true.
Proof.
  destruct (form_steps_run_in_order 1 Examples.signup_form
              (lit "abcd1234@example.com") (lit "unused") 0) as (Hiff & _).
  apply Hiff. repeat split.
Defined.

Module RegisterMore.
Import TavilyRegister.

Ltac members Hev :=
  rewrite ?elem_of_app, ?elem_of_cons, ?elem_of_nil in Hev;
  repeat match goal with H : _ \/ _ |- _ => destruct H end;
  try discriminate; try contradiction.

Lemma mail_events_count l :
  count_events is_mail_select (map Mail l)
  = count_events ImapObserved.is_select l
  /\ count_events is_close (map Mail l) = 0
  /\ count_events is_email_typing (map Mail l) = 0
  /\ count_events is_password_typing (map Mail l) = 0.
Proof.
  unfold count_events.
  induction l as [|e l (IH1 & IH2 & IH3 & IH4)]; [repeat split|].
  cbn [map List.filter is_mail_select is_close is_email_typing
       is_password_typing].
  destruct (ImapObserved.is_select e); cbn [length]; rewrite ?IH1; auto.
Qed.

Lemma mail_is_not_typing l f text : TypeInto f text ∉ map Mail l.
Proof.
  intros Hin. apply StepsMore.elem_of_map_inv in Hin as (x & Hx & _).
  discriminate.
Qed.

(** The IMAP poller as [register_account] calls it. *)
Lemma imap_general srv :
  let h := Imap.get_verification_code srv false 5 10 in
  count_events ImapObserved.is_select (snd h) <= 5
  /\ forall code, fst h = Some code ->
       length code = 6 /\ Forall (fun c => PyChar.is_decimal c = true) code.
Proof.
  cbv zeta.
  destruct (ImapLoopMore.poll_general srv false 5 10)
    as (Hle & _ & _ & _ & Hsix & _).
  split; [exact Hle | exact Hsix].
Qed.

Ltac tally :=
  cbn [fst snd];
  rewrite ?RetryLoopFacts.count_events_app;
  repeat match goal with
         | |- context [map Mail ?l] =>
             let H1 := fresh in let H2 := fresh in
             let H3 := fresh in let H4 := fresh in
             destruct (mail_events_count l) as (H1 & H2 & H3 & H4);
             rewrite ?H1, ?H2, ?H3, ?H4; clear H1 H2 H3 H4
         end;
  unfold count_events in *; simpl; try lia.

Lemma body_spec st email password tr :
  let h := Imap.get_verification_code (mail st) false 5 10 in
  let r := register_body st email password tr in
  exists added,
    snd r = tr ++ added
    /\ count_events is_mail_select added <= 5
    /\ count_events is_close added = 0
    /\ count_events is_email_typing added
       = count_events is_password_typing added
    /\ (forall code, TypeInto CodeField code ∈ added ->
          fst h = Some code
          /\ length code = 6
          /\ Forall (fun c => PyChar.is_decimal c = true) code)
    /\ (forall key, fst r = Some key ->
          key <> []
          /\ get_element_text st = Some key
          /\ navigate_to st SignupPage = true
          /\ input_text st EmailField email = true
          /\ input_text st PasswordField password = true
          /\ navigate_to st ApiPage = true
          /\ exists code, fst h = Some code
                          /\ input_text st CodeField code = true).
Proof.
  cbv zeta. unfold register_body, _get_api_key. cbv zeta.
  pose proof (imap_general (mail st)) as Hh. cbv zeta in Hh.
  destruct Hh as (Hsel & Hsix).
  destruct (navigate_to st SignupPage); cbn [negb].
  2: { eexists. split; [reflexivity|]. do 3 (split; [tally|]).
       split; [intros c Hev; members Hev | discriminate]. }
  destruct (find_element st EmailField 0 && find_element st PasswordField 0);
    cbn [negb].
  2: { rewrite <- !app_assoc. eexists. split; [reflexivity|].
       do 3 (split; [tally|]).
       split; [intros c Hev; members Hev | discriminate]. }
  destruct (input_text st EmailField email) eqn:Hie;
    destruct (input_text st PasswordField password) eqn:Hip;
    cbn [negb andb];
    try (rewrite <- !app_assoc; eexists; (split; [reflexivity|]);
         do 3 (split; [tally|]);
         (split; [intros c Hev; members Hev | discriminate])).
  destruct (find_element st SubmitButton 0); cbn [negb].
  2: { rewrite <- !app_assoc. eexists. split; [reflexivity|].
       do 3 (split; [tally|]).
       split; [intros c Hev; members Hev | discriminate]. }
  destruct (click_element st 0); cbn [negb].
  2: { rewrite <- !app_assoc. eexists. split; [reflexivity|].
       do 3 (split; [tally|]).
       split; [intros c Hev; members Hev | discriminate]. }
  destruct (Imap.get_verification_code (mail st) false 5 10)
    as [verification_code mail_events].
  cbn [fst snd] in Hsel, Hsix |- *.
  assert (Hquiet : forall c, TypeInto CodeField c ∉ map Mail mail_events)
    by (intros c; apply mail_is_not_typing).
  destruct verification_code as [code|].
  2: { rewrite <- !app_assoc. eexists. split; [reflexivity|].
       do 3 (split; [tally|]).
       split; [|discriminate].
       intros c Hev. exfalso. members Hev. exact (Hquiet c H). }
  destruct (Hsix code eq_refl) as (Hlen & Hdigits).
  assert (Ht : PyStr.truthy code = true)
    by (destruct code; [simpl in Hlen; lia | reflexivity]).
  rewrite Ht. cbn [negb].
  destruct (find_element st CodeField 0); cbn [negb].
  2: { rewrite <- !app_assoc. eexists. split; [reflexivity|].
       do 3 (split; [tally|]).
       split; [|discriminate].
       intros c Hev. exfalso. members Hev. exact (Hquiet c H). }
  assert (Hcode : forall c rest,
            TypeInto CodeField c
              ∈ [Navigate SignupPage] ++ [Find EmailField; Find PasswordField]
                  ++ [TypeInto EmailField email; TypeInto PasswordField password]
                  ++ [Find SubmitButton] ++ [Click] ++ [Wait 5]
                  ++ map Mail mail_events ++ [Find CodeField]
                  ++ [TypeInto CodeField code] ++ rest ->
            (forall c', TypeInto CodeField c' ∉ rest) ->
            Some code = Some c /\ length c = 6
            /\ Forall (fun x => PyChar.is_decimal x = true) c).
  { intros c rest Hev Hrest. members Hev.
    - exfalso. exact (Hquiet c H).
    - injection H as <-. auto.
    - exfalso. exact (Hrest c H). }
  destruct (input_text st CodeField code) eqn:Hic; cbn [negb].
  2: { rewrite <- !app_assoc. eexists. split; [reflexivity|].
       do 3 (split; [tally|]).
       split; [|discriminate].
       intros c Hev. apply (Hcode c _ Hev). intros c' Hc'. members Hc'. }
  destruct (find_element st SubmitButton 1); cbn [negb].
  2: { rewrite <- !app_assoc. eexists. split; [reflexivity|].
       do 3 (split; [tally|]).
       split; [|discriminate].
       intros c Hev. apply (Hcode c _ Hev). intros c' Hc'. members Hc'. }
  destruct (click_element st 1); cbn [negb].
  2: { rewrite <- !app_assoc. eexists. split; [reflexivity|].
       do 3 (split; [tally|]).
       split; [|discriminate].
       intros c Hev. apply (Hcode c _ Hev). intros c' Hc'. members Hc'. }
  destruct (navigate_to st ApiPage); cbn [negb key_truthy].
  2: { rewrite <- !app_assoc. eexists. split; [reflexivity|].
       do 3 (split; [tally|]).
       split; [|discriminate].
       intros c Hev. apply (Hcode c _ Hev). intros c' Hc'. members Hc'. }
  destruct (find_element st KeyElement 0); cbn [negb key_truthy].
  2: { rewrite <- !app_assoc. eexists. split; [reflexivity|].
       do 3 (split; [tally|]).
       split; [|discriminate].
       intros c Hev. apply (Hcode c _ Hev). intros c' Hc'. members Hc'. }
  destruct (get_element_text st) as [key|]; cbn [negb key_truthy].
  2: { rewrite <- !app_assoc. eexists. split; [reflexivity|].
       do 3 (split; [tally|]).
       split; [|discriminate].
       intros c Hev. apply (Hcode c _ Hev). intros c' Hc'. members Hc'. }
  destruct (PyStr.truthy key) eqn:Hk; cbn [negb].
  2: { rewrite <- !app_assoc. eexists. split; [reflexivity|].
       do 3 (split; [tally|]).
       split; [|discriminate].
       intros c Hev. apply (Hcode c _ Hev). intros c' Hc'. members Hc'. }
  rewrite <- !app_assoc. eexists. split; [reflexivity|].
  do 3 (split; [tally|]).
  split.
  { intros c Hev. apply (Hcode c _ Hev). intros c' Hc'. members Hc'. }
  intros key' Hkey. injection Hkey as <-.
  split; [destruct key; discriminate|].
  repeat split. exists code. split; [reflexivity | exact Hic].
Qed.

End RegisterMore.

(** X25: [register_account] returns a key only when every step worked,
    and the key is the non-empty text of the key element.  The code it
    types is the one the IMAP poller returned, exactly six decimal
    digits, and the mailbox is selected at most five times.  The e-mail
    and the password are always typed together, the password also when
    typing the e-mail failed.  When the browser came up both the browser
    and the mailbox are closed at the very end, whatever happened;
    otherwise nothing is closed and nothing else is attempted. *)
Theorem register_account_types_the_polled_code_and_cleans_up :
  forall (st : TavilyRegister.site) (email password : str),
    let h := Imap.get_verification_code (TavilyRegister.mail st) false 5 10 in
    let r := TavilyRegister.register_account st email password in
    (forall key, fst r = Some key ->
       key <> []
       /\ TavilyRegister.get_element_text st = Some key
       /\ TavilyRegister.navigate_to st TavilyRegister.SignupPage = true
       /\ TavilyRegister.input_text st TavilyRegister.EmailField email = true
       /\ TavilyRegister.input_text st TavilyRegister.PasswordField password = true
       /\ TavilyRegister.navigate_to st TavilyRegister.ApiPage = true
       /\ exists code,
            fst h = Some code
            /\ TavilyRegister.input_text st TavilyRegister.CodeField code = true)
    /\ (forall code,
          TavilyRegister.TypeInto TavilyRegister.CodeField code ∈ snd r ->
          fst h = Some code
          /\ length code = 6
          /\ Forall (fun c => PyChar.is_decimal c = true) code)
    /\ count_events TavilyRegister.is_mail_select (snd r) <= 5
    /\ count_events TavilyRegister.is_email_typing (snd r)
       = count_events TavilyRegister.is_password_typing (snd r)
    /\ (TavilyRegister.browser_setup st = true ->
        count_events TavilyRegister.is_close (snd r) = 2
        /\ exists body,
             snd r = body ++ [TavilyRegister.CloseBrowser;
                              TavilyRegister.CloseMail])
    /\ (TavilyRegister.browser_setup st = false ->
        r = (None, [TavilyRegister.Setup;
                    TavilyRegister.Logged ERROR TavilyRegister.SetupFailed])).
Proof.
  intros st email password h r. subst h r.
  unfold TavilyRegister.register_account.
  destruct (TavilyRegister.browser_setup st); cbn [negb].
  - pose proof (RegisterMore.body_spec st email password [TavilyRegister.Setup])
      as H.
    cbv zeta in H.
    destruct H as (added & Hsnd & Hsel & Hclose & Htyping & Hcode & Hkey).
    destruct (TavilyRegister.register_body st email password
                [TavilyRegister.Setup]) as [res tr].
    cbn [fst snd] in *. subst tr.
    split; [exact Hkey|].
    split.
    { intros code Hev. apply Hcode.
      rewrite !elem_of_app, !elem_of_cons, !elem_of_nil in Hev.
      destruct Hev as [[Hev|Hev]|[Hev|[Hev|[]]]];
        try discriminate; [destruct Hev as [Hev|[]]; discriminate | exact Hev]. }
    rewrite !RetryLoopFacts.count_events_app.
    split; [unfold count_events in *; simpl; lia|].
    split; [unfold count_events in *; simpl; lia|].
    split; [|discriminate].
    intros _. split; [unfold count_events in *; simpl; lia|].
    eexists. reflexivity.
  - cbn [fst snd].
    split; [discriminate|].
    split.
    { intros code Hev. rewrite !elem_of_cons, elem_of_nil in Hev.
      destruct Hev as [Hev|[Hev|[]]]; discriminate. }
    split; [unfold count_events; simpl; lia|].
    split; [reflexivity|].
    split; [discriminate | reflexivity].
Qed.

Lemma register_account_types_the_polled_code_and_cleans_up_witness :
  let r := TavilyRegister.register_account Examples.legacy_site
             (lit "abcd1234@example.com") (lit "aB3@aB3@aB3@") in
  count_events TavilyRegister.is_close (snd r) = 2
  /\ exists body,
       snd r = body ++ [TavilyRegister.CloseBrowser; TavilyRegister.CloseMail].
Proof.
  intros r.
  destruct (register_account_types_the_polled_code_and_cleans_up
              Examples.legacy_site (lit "abcd1234@example.com")
              (lit "aB3@aB3@aB3@")) as (_ & _ & _ & _ & Hup & _).
  apply Hup. reflexivity.
Defined.

(** ** More on the page helpers *)

Module HomeNavigationMore.
Import HomeNavigation.

Lemma navigation_spec pg :
  let r := _handle_navigation pg in
  (fst r = true
   <-> get_home pg = inr tt /\ ready_script pg = inr tt
       /\ signup_link pg = inr true /\ link_click pg = inr tt
       /\ exists current_url,
            url pg = inr current_url /\ is_signup_url current_url = true)
  /\ (fst r = true -> slept (snd r) = 18%Z)
  /\ count_events is_click (snd r) <= 1
  /\ (0 < count_events is_click (snd r) -> signup_link pg = inr true).
Proof.
  cbv zeta. unfold _handle_navigation, navigation_body. cbv zeta.
  destruct (get_home pg) as [e|[]].
  { cbn. intuition (try discriminate; try lia). }
  destruct (ready_script pg) as [e|[]].
  { cbn. intuition (try discriminate; try lia). }
  destruct (signup_link pg) as [e|[]].
  { cbn. intuition (try discriminate; try lia). }
  2: { cbn. intuition (try discriminate; try lia). }
  destruct (link_click pg) as [e|[]].
  { cbn. intuition (try discriminate; try lia). }
  destruct (url pg) as [e|current_url].
  { cbn -[is_signup_url].
    split; [split; [discriminate | intros (_ & _ & _ & _ & u & H & _); discriminate]|].
    intuition (try discriminate; try lia). }
  destruct (is_signup_url current_url) eqn:Hs; cbn -[is_signup_url].
  - split; [split; [intros _; repeat split; eauto | reflexivity]|].
    intuition lia.
  - split.
    { split; [discriminate|].
      intros (_ & _ & _ & _ & u & H & Hu). injection H as <-. congruence. }
    intuition (try discriminate; try lia).
Qed.

End HomeNavigationMore.

(** X26: [_handle_navigation] returns [True] exactly when the home page
    loads, both scripts run, the sign-up link is found and clicked, and
    the address read afterwards contains ["sign-up"] or ["signup"] in
    any letter case; it has then slept 18 seconds.  The link is clicked
    at most once, and only when the script found it. *)
Theorem navigation_succeeds_only_on_a_signup_address :
  forall pg : HomeNavigation.page,
    let r := HomeNavigation._handle_navigation pg in
    (fst r = true
     <-> HomeNavigation.get_home pg = inr tt
         /\ HomeNavigation.ready_script pg = inr tt
         /\ HomeNavigation.signup_link pg = inr true
         /\ HomeNavigation.link_click pg = inr tt
         /\ exists current_url,
              HomeNavigation.url pg = inr current_url
              /\ HomeNavigation.is_signup_url current_url = true)
    /\ (fst r = true -> HomeNavigation.slept (snd r) = 18%Z)
    /\ count_events HomeNavigation.is_click (snd r) <= 1
    /\ (0 < count_events HomeNavigation.is_click (snd r) ->
        HomeNavigation.signup_link pg = inr true).
Proof. intros pg. apply HomeNavigationMore.navigation_spec. Qed.

Lemma navigation_succeeds_only_on_a_signup_address_witness :
  fst (HomeNavigation._handle_navigation
         {| HomeNavigation.get_home := inr tt;
            HomeNavigation.ready_script := inr tt;
            HomeNavigation.signup_link := inr true;
            HomeNavigation.link_click := inr tt;
            HomeNavigation.url := inr (lit "https://app.tavily.com/Sign-Up") |})
  = true.
Proof.
  destruct (navigation_succeeds_only_on_a_signup_address
              {| HomeNavigation.get_home := inr tt;
                 HomeNavigation.ready_script := inr tt;
                 HomeNavigation.signup_link := inr true;
                 HomeNavigation.link_click := inr tt;
                 HomeNavigation.url := inr (lit "https://app.tavily.com/Sign-Up") |})
    as (Hiff & _).
  apply Hiff. repeat split. eexists. split; reflexivity.
Defined.

Module CaptchaImageMore.
Import CaptchaImage.




End CaptchaImageMore.



(** ** More on the program as a whole *)

Module ProgramMore.
Import Program.

Lemma printed_is_not_run lines :
  count_events is_run (map Printed lines) = 0.
Proof.
  unfold count_events. induction lines as [|l lines IH]; [reflexivity|].
  exact IH.
Qed.

Lemma run_events_count run :
  count_events is_run (map Run run) = length run.
Proof.
  unfold count_events. induction run as [|e run IH]; [reflexivity|].
  cbn [map List.filter is_run length]. rewrite IH. reflexivity.
Qed.

Lemma main_spec py_int to_number step env st g f :
  let r := main py_int to_number step env st g f in
  let s := TavilyAutoRegister.start py_int to_number env st g f in
  (step = ConfigReady
   /\ (exists config,
         Config_init py_int env = inr config
         /\ fst (ConfigPrinting.print_config config) = inr tt)
   /\ fst (fst r) = Finished
   /\ snd (fst r) = TavilyAutoRegister.file_after s
   /\ count_events is_run (snd r) = length (TavilyAutoRegister.events s))
  \/ ((step <> ConfigReady
       \/ (exists e, Config_init py_int env = inl e)
       \/ (exists config e,
             Config_init py_int env = inr config
             /\ fst (ConfigPrinting.print_config config) = inl e))
      /\ fst (fst r) = Exit 1
      /\ snd (fst r) = f
      /\ count_events is_run (snd r) = 0).
Proof.
  cbv zeta. unfold main, TavilyAutoRegister_init. cbv zeta.
  destruct step as [| |e].
  2: { right. cbn [fst snd]. split; [left; discriminate|]. repeat split. }
  2: { right. cbn [fst snd]. split; [left; discriminate|]. repeat split. }
  destruct (Config_init py_int env) as [e|config].
  { right. cbn [fst snd]. split; [right; left; eauto|]. repeat split. }
  destruct (ConfigPrinting.print_config config) as [[e|[]] lines] eqn:Hp.
  { right. cbn [fst snd]. split; [right; right; exists config, e; rewrite Hp; auto|].
    split; [reflexivity|]. split; [reflexivity|].
    rewrite !RetryLoopFacts.count_events_app, printed_is_not_run.
    reflexivity. }
  left.
  unfold TavilyAutoRegister.file_after, TavilyAutoRegister.events.
  destruct (TavilyAutoRegister.start py_int to_number env st g f)
    as [[b f'] run].
  cbn [fst snd]. split; [reflexivity|].
  split; [exists config; rewrite Hp; auto|].
  split; [reflexivity|]. split; [reflexivity|].
  rewrite !RetryLoopFacts.count_events_app, printed_is_not_run,
    run_events_count.
  reflexivity.
Qed.

End ProgramMore.

(** X28: [main] starts the registration exactly when the configuration
    step returns, the configuration is accepted and [print_config] does
    not raise; it then returns normally whatever [start()] returned, so
    a failed registration is not reflected in the exit status.  In every
    other case the process exits with status 1 without starting the
    browser or touching [accounts.csv]; this is so in particular when a
    non-empty [IMAP_SERVER] is configured without [IMAP_PASS]. *)
Theorem program_exit_status_ignores_the_registration_result :
  forall (py_int : str -> option Z) (to_number : json -> float)
         (step : Program.config_step) (env : environ)
         (st : TavilyAutoRegister.site) (g : Random.rng)
         (f : TavilyAutoRegister.file),
    let r := Program.main py_int to_number step env st g f in
    let s := TavilyAutoRegister.start py_int to_number env st g f in
    (fst (fst r) = Program.Finished
     <-> step = Program.ConfigReady
         /\ exists config,
              Config_init py_int env = inr config
              /\ fst (ConfigPrinting.print_config config) = inr tt)
    /\ (fst (fst r) = Program.Finished ->
        snd (fst r) = TavilyAutoRegister.file_after s
        /\ count_events Program.is_run (snd r)
           = length (TavilyAutoRegister.events s))
    /\ (fst (fst r) <> Program.Finished ->
        fst (fst r) = Program.Exit 1
        /\ snd (fst r) = f
        /\ count_events Program.is_run (snd r) = 0)
    /\ (forall server,
          env !! "IMAP_SERVER"%string = Some server -> server <> [] ->
          env !! "IMAP_PASS"%string = None ->
          fst (fst r) = Program.Exit 1).
Proof.
  intros py_int to_number step env st g f r s. subst r s.
  pose proof (ProgramMore.main_spec py_int to_number step env st g f) as H.
  cbv zeta in H.
  destruct H as [(Hstep & (config & Hc & Hp) & Hout & Hfile & Hrun)
                | (Hwhy & Hout & Hfile & Hrun)].
  - rewrite Hout.
    split; [split; [intros _; split; [exact Hstep | eauto] | reflexivity]|].
    split; [intros _; split; assumption|].
    split; [congruence|].
    intros server Hs Hne Hpass. exfalso.
    destruct (ConfigInitMore.Config_init_fields _ _ _ Hc)
      as (_ & Hserver & Hpw & _ & _).
    destruct (PrintMore.print_config_cases config)
      as [(_ & _ & Hfail & _) | (_ & Hside & _)]; [congruence|].
    rewrite Hserver, Hpw, Hs, Hpass in Hside.
    destruct Hside as [Hf|Hf]; [|congruence].
    destruct server; [congruence | discriminate].
  - rewrite Hout.
    split.
    { split; [discriminate|].
      intros (Hstep & config & Hc & Hp).
      destruct Hwhy as [Hw | [(e & Hw) | (config' & e & Hw & Hw')]];
        congruence. }
    split; [discriminate|].
    split; [intros _; repeat split; assumption|].
    intros; reflexivity.
Qed.

Lemma program_exit_status_ignores_the_registration_result_witness :
  fst (fst (Program.main PyBuiltin.int_decimal Examples.to_number_zero
              Program.ConfigReady Examples.mixed_environ
              Examples.keyless_site (fun k => k) None))
  = Program.Exit 1.
Proof.
  destruct (program_exit_status_ignores_the_registration_result
              PyBuiltin.int_decimal Examples.to_number_zero
              Program.ConfigReady Examples.mixed_environ
              Examples.keyless_site (fun k => k) None) as (_ & _ & _ & Himap).
  apply (Himap (lit "imap.example.com")).
  - vm_compute. reflexivity.
  - discriminate.
  - vm_compute. reflexivity.
Defined.
